(** * MinhOS v3 bridge studies: tick export, ring buffer, command channel

    Shallow embedding of the four Sierra Chart studies of the repository

    - [src/bridge_windows/MinhOSBridgeStudy.cpp]                       (module [Bridge])
    - [src/windows/acsil_studies/MinhOS_TickDataExporter_v3_FIXED.cpp]  (module [Fixed])
    - [src/windows/acsil_studies/MinhOS_TickDataExporter_v3_COMPLETE.cpp] (module [Complete])
    - [src/windows/acsil_studies/MinhOS_TickDataExporter_v2.cpp]        (module [V2])

    and of the C++ library functions they call (module [Cxx]).

    Conventions of the embedding.

    - [size_t], [uint16_t], [uint32_t], [int] are [Z] with the wrap-around
      written out ([Cxx.size_t], [Cxx.uint16], [Cxx.uint32]).
    - What the host reports ([sc.Close], [sc.Bid], [sc.Volume], ...) is a
      finite [float], held as the rational [Q] it denotes; comparisons of
      such values are exact.  A [float] or [double] the program computes
      or parses from text is a [Cxx.float]: a finite rational, an
      infinity or a NaN.  The [float] arithmetic of the trade-side
      classifiers and of the VWAP block is IEEE 754 binary32, every
      operation rounded to nearest, ties to even ([Cxx.round32]).
    - [std::string] is [string]; a position is a [Z], and [Cxx.npos] is
      [2^64 - 1] as in the library.
    - C++ exceptions are the [Throw] case of [Cxx.result].
    - The file system, the host order interface and the clock are explicit:
      a [World] record threads the files and the trace of effects, the
      study interface record carries what the host reports. *)

From Stdlib Require Import ZArith QArith Qabs Qround Qpower Lqa String Ascii DecimalString List
  Sorted Bool Lia.
From stdpp Require Import base list strings gmap.

Local Open Scope Z_scope.

(** ** C++ library functions used by the studies *)

Module Cxx.

(** *** Fixed-width integers *)

Definition size_t (z : Z) : Z := z mod 2 ^ 64.
Definition uint16 (z : Z) : Z := z mod 2 ^ 16.
Definition uint32 (z : Z) : Z := z mod 2 ^ 32.
Definition npos : Z := 2 ^ 64 - 1.
Definition INT_MAX : Z := 2 ^ 31 - 1.
Definition INT_MIN : Z := - 2 ^ 31.

(** *** Exceptions *)

Inductive exn : Type :=
| out_of_range
| invalid_argument.

Inductive result (A : Type) : Type :=
| Ok (a : A)
| Throw (e : exn).

Arguments Ok {A} a.
Arguments Throw {A} e.

Definition bind {A B : Type} (m : result A) (k : A -> result B) : result B :=
  match m with
  | Ok a => k a
  | Throw e => Throw e
  end.

(** [try { m } catch (...) { return d; }] *)
Definition try_catch_all {A : Type} (m : result A) (d : A) : A :=
  match m with
  | Ok a => a
  | Throw _ => d
  end.

Definition throws {A : Type} (m : result A) : Prop :=
  match m with
  | Ok _ => False
  | Throw _ => True
  end.

(** *** Floating point: comparisons of finite values *)

Definition Qltb (x y : Q) : bool := negb (Qle_bool y x).
Definition Qgtb (x y : Q) : bool := Qltb y x.
Definition Qgeb (x y : Q) : bool := Qle_bool y x.
Definition Qneb (x y : Q) : bool := negb (Qeq_bool x y).

(** *** Floating point: computed values and binary32 arithmetic *)

(** A [float] or [double] the program computes or parses: a finite value,
    an infinity or a NaN.  Zero carries no sign; none of the operations
    modelled divides by zero. *)
Inductive float : Type :=
| Finite (q : Q)
| PlusInfinity
| MinusInfinity
| NaN.

Definition infinity (negative : bool) : float :=
  if negative then MinusInfinity else PlusInfinity.

(** The comparisons [<], [<=], [>], [>=]: false when an operand is a NaN. *)
Definition flt (a b : float) : bool :=
  match a, b with
  | NaN, _ => false
  | _, NaN => false
  | _, MinusInfinity => false
  | MinusInfinity, _ => true
  | PlusInfinity, _ => false
  | Finite _, PlusInfinity => true
  | Finite x, Finite y => Qltb x y
  end.

Definition fle (a b : float) : bool :=
  match a, b with
  | NaN, _ => false
  | _, NaN => false
  | MinusInfinity, _ => true
  | _, PlusInfinity => true
  | PlusInfinity, _ => false
  | Finite _, MinusInfinity => false
  | Finite x, Finite y => Qle_bool x y
  end.

Definition fgt (a b : float) : bool := flt b a.
Definition fge (a b : float) : bool := fle b a.

(** [floor (log2 |x|)] for [x <> 0]. *)
Definition ilog2 (x : Q) : Z :=
  let k := Z.log2 (Z.abs (Qnum x)) - Z.log2 (Zpos (Qden x)) in
  if Qle_bool (2 ^ k) (Qabs x) then k else k - 1.

(** The integer nearest to [x], the even one of two that are equally near. *)
Definition rne (x : Q) : Z :=
  let f := Qfloor x in
  match ((x - inject_Z f) ?= 1 # 2)%Q with
  | Lt => f
  | Gt => f + 1
  | Eq => if Z.even f then f else f + 1
  end.

(** The exponent of the last place of a binary32 number near [x]: 24
    significant bits, and [2^-149] for the subnormal numbers. *)
Definition fexp32 (x : Q) : Z := Z.max (ilog2 x - 23) (-149).

(** The multiple of [2 ^ fexp32 x] nearest to [x], ties to even. *)
Definition nearest32 (x : Q) : Q :=
  if Qeq_bool x 0 then 0%Q
  else Qred (inject_Z (rne (x / 2 ^ fexp32 x)) * 2 ^ fexp32 x).

(** Rounding to binary32: the nearest number, and an infinity when that
    is [2^128] or beyond. *)
Definition round32 (x : Q) : float :=
  let r := nearest32 x in
  if Qle_bool (2 ^ 128) r then PlusInfinity
  else if Qle_bool r (- 2 ^ 128) then MinusInfinity
  else Finite r.

Definition fopp (a : float) : float :=
  match a with
  | Finite x => Finite (- x)
  | PlusInfinity => MinusInfinity
  | MinusInfinity => PlusInfinity
  | NaN => NaN
  end.

(** [a + b], [a - b], [a * b] and [a / b] on [float] operands. *)
Definition fadd32 (a b : float) : float :=
  match a, b with
  | NaN, _ => NaN
  | _, NaN => NaN
  | Finite x, Finite y => round32 (x + y)
  | PlusInfinity, MinusInfinity => NaN
  | MinusInfinity, PlusInfinity => NaN
  | PlusInfinity, _ => PlusInfinity
  | MinusInfinity, _ => MinusInfinity
  | Finite _, PlusInfinity => PlusInfinity
  | Finite _, MinusInfinity => MinusInfinity
  end.

Definition fsub32 (a b : float) : float := fadd32 a (fopp b).

Definition fmul32 (a b : float) : float :=
  match a, b with
  | NaN, _ => NaN
  | _, NaN => NaN
  | Finite x, Finite y => round32 (x * y)
  | Finite x, PlusInfinity => if Qeq_bool x 0 then NaN else infinity (Qltb x 0)
  | Finite x, MinusInfinity => if Qeq_bool x 0 then NaN else infinity (Qltb 0 x)
  | PlusInfinity, Finite y => if Qeq_bool y 0 then NaN else infinity (Qltb y 0)
  | MinusInfinity, Finite y => if Qeq_bool y 0 then NaN else infinity (Qltb 0 y)
  | PlusInfinity, PlusInfinity => PlusInfinity
  | MinusInfinity, MinusInfinity => PlusInfinity
  | PlusInfinity, MinusInfinity => MinusInfinity
  | MinusInfinity, PlusInfinity => MinusInfinity
  end.

Definition fdiv32 (a b : float) : float :=
  match a, b with
  | NaN, _ => NaN
  | _, NaN => NaN
  | Finite x, Finite y =>
      if Qeq_bool y 0
      then (if Qeq_bool x 0 then NaN else infinity (Qltb x 0))
      else round32 (x / y)
  | Finite _, _ => Finite 0
  | PlusInfinity, Finite y => infinity (Qltb y 0)
  | MinusInfinity, Finite y => infinity (Qle_bool 0 y)
  | _, _ => NaN
  end.

(** [(float) n] for an unsigned integer [n]. *)
Definition of_uint32 (n : Z) : float := round32 (inject_Z n).

(** [(int) x] for a float [x]: truncation toward zero.  The standard
    leaves a value outside the range of [int] undefined; the conversion
    instruction of the x86 targets of the studies then gives [INT_MIN],
    and so does the model. *)
Definition to_int (x : Q) : Z :=
  let t := Z.quot (Qnum x) (Zpos (Qden x)) in
  if (INT_MIN <=? t) && (t <=? INT_MAX) then t else INT_MIN.

(** The rationals a [float] variable can hold: those that rounding to
    binary32 leaves as they are. *)
Definition is_binary32 (x : Q) : bool :=
  match round32 x with
  | Finite r => Qeq_bool r x
  | _ => false
  end.

(** The binary32 numbers without the upper bound of the format: an
    integer of less than 24 bits times a power of two from [2^-149] on. *)
Definition in_format32 (r : Q) : Prop :=
  exists m j, (r == inject_Z m * 2 ^ j)%Q /\ Z.abs m < 2 ^ 24 /\ -149 <= j.

(** The largest finite binary32 number. *)
Definition FLT_MAX : Q := (2 ^ 128 - 2 ^ 104)%Q.

(** [std::gmtime] on the runtime the studies are built for, with its
    64-bit [time_t]: a null pointer for a time before 1970 or after
    23:59:59, December 31, 3000, UTC. *)
Definition MAX_TIME64 : Z := 32535215999.

Definition gmtime_null (t : Z) : bool := (t <? 0) || (MAX_TIME64 <? t).

(** The value of a [uint64_t] read through a pointer to [time_t]. *)
Definition as_time_t (u : Z) : Z := if u <? 2 ^ 63 then u else u - 2 ^ 64.

(** [(uint32_t) x] for a float [x]: truncation toward zero; the standard
    leaves a value outside the target range undefined, the model wraps. *)
Definition to_uint32 (x : Q) : Z := uint32 (Z.quot (Qnum x) (Zpos (Qden x))).

(** *** std::string *)

Definition dquote : ascii := ascii_of_nat 34.
Definition quote_str : string := String dquote EmptyString.

Definition size (s : string) : Z := Z.of_nat (String.length s).

Definition empty (s : string) : bool :=
  match s with
  | EmptyString => true
  | String _ _ => false
  end.

(** A string a [std::string] can hold: [size() <= max_size()]. *)
Definition max_size : Z := 2 ^ 63 - 1.
Definition fits (s : string) : Prop := size s <= max_size.

(** [s.find(needle, pos)] *)
Definition find (s needle : string) (pos : Z) : Z :=
  if size s <? pos then npos
  else match String.index (Z.to_nat pos) needle s with
       | Some i => Z.of_nat i
       | None => npos
       end.

(** [s.find(c, pos)] *)
Definition find_char (s : string) (c : ascii) (pos : Z) : Z :=
  find s (String c EmptyString) pos.

Fixpoint char_in (c : ascii) (chars : string) : bool :=
  match chars with
  | EmptyString => false
  | String d chars' => Ascii.eqb c d || char_in c chars'
  end.

Fixpoint find_first_of_from (chars s : string) (i pos : Z) : Z :=
  match s with
  | EmptyString => npos
  | String c s' =>
      if (pos <=? i) && char_in c chars then i
      else find_first_of_from chars s' (i + 1) pos
  end.

(** [s.find_first_of(chars, pos)] *)
Definition find_first_of (s chars : string) (pos : Z) : Z :=
  find_first_of_from chars s 0 pos.

(** [s.substr(pos, n)]: throws [std::out_of_range] when [pos > size()] *)
Definition substr (s : string) (pos n : Z) : result string :=
  if size s <? pos then Throw out_of_range
  else Ok (String.substring (Z.to_nat pos) (Z.to_nat (Z.min n (size s - pos))) s).

(** [s.substr(pos)] *)
Definition substr_from (s : string) (pos : Z) : result string :=
  substr s pos npos.

(** [s[pos]] for [pos < size()] (and the terminating NUL at [size()]) *)
Definition at_ (s : string) (pos : Z) : ascii :=
  match String.get (Z.to_nat pos) s with
  | Some c => c
  | None => zero
  end.

Definition toupper (c : ascii) : ascii :=
  let n := nat_of_ascii c in
  if ((97 <=? n) && (n <=? 122))%nat then ascii_of_nat (n - 32) else c.

Fixpoint ToUpperCase (s : string) : string :=
  match s with
  | EmptyString => EmptyString
  | String c s' => String (toupper c) (ToUpperCase s')
  end.

(** [SCString::CompareNoCase(other) == 0] *)
Definition CompareNoCase_eq (a b : string) : bool :=
  String.eqb (ToUpperCase a) (ToUpperCase b).

(** [s.c_str()] read as a C string, as an [SCString] built from it or a
    [const char*] parameter does: the characters before the first NUL. *)
Fixpoint c_str (s : string) : string :=
  match s with
  | EmptyString => EmptyString
  | String c s' => if Ascii.eqb c zero then EmptyString else String c (c_str s')
  end.

(** *** strtol-style integer prefix, [std::stoi], [atoi] *)

Definition isspace (c : ascii) : bool :=
  let n := nat_of_ascii c in
  ((n =? 32) || ((9 <=? n) && (n <=? 13)))%nat.

Definition isdigit (c : ascii) : bool :=
  let n := nat_of_ascii c in
  ((48 <=? n) && (n <=? 57))%nat.

Fixpoint skip_ws (s : string) : string :=
  match s with
  | EmptyString => EmptyString
  | String c s' => if isspace c then skip_ws s' else s
  end.

(** Value of the leading run of decimal digits of [s], after [acc]. *)
Fixpoint digits_value (s : string) (acc : Z) : Z :=
  match s with
  | EmptyString => acc
  | String c s' =>
      if isdigit c
      then digits_value s' (10 * acc + (Z.of_nat (nat_of_ascii c) - 48))
      else acc
  end.

Definition starts_with_digit (s : string) : bool :=
  match s with
  | EmptyString => false
  | String c _ => isdigit c
  end.

(** Leading white space, an optional sign, then digits: [None] when no
    digit follows, else the mathematical value of the prefix. *)
Definition integer_prefix (s : string) : option Z :=
  let s1 := skip_ws s in
  let '(neg, s2) :=
    match s1 with
    | String c r =>
        if Ascii.eqb c "-"%char then (true, r)
        else if Ascii.eqb c "+"%char then (false, r)
        else (false, s1)
    | EmptyString => (false, s1)
    end in
  if starts_with_digit s2
  then Some (if neg then - digits_value s2 0 else digits_value s2 0)
  else None.

(** [std::stoi(s)]: [std::invalid_argument] when no conversion can be
    performed, [std::out_of_range] when the value does not fit an [int]. *)
Definition stoi (s : string) : result Z :=
  match integer_prefix s with
  | None => Throw invalid_argument
  | Some v =>
      if (v <? INT_MIN) || (INT_MAX <? v) then Throw out_of_range else Ok v
  end.

(** [atoi(s)]: 0 when no conversion can be performed.  A value outside
    [int] is undefined in ISO C; the Windows runtime the bridge targets
    saturates, and so does the model. *)
Definition atoi (s : string) : Z :=
  match integer_prefix s with
  | None => 0
  | Some v => Z.max INT_MIN (Z.min INT_MAX v)
  end.

(** Decimal rendering of an unsigned value ([%llu], [operator<<]). *)
Definition decimal (z : Z) : string :=
  NilEmpty.string_of_uint (N.to_uint (Z.to_N z)).

(** [while (std::getline(file, line)) content += line;]: the text of the
    file without its line feeds. *)
Fixpoint getline_concat (text : string) : string :=
  match text with
  | EmptyString => EmptyString
  | String c text' =>
      if Ascii.eqb c (ascii_of_nat 10) then getline_concat text'
      else String c (getline_concat text')
  end.

(** The whole file through [std::istreambuf_iterator<char>]. *)
Definition read_all (text : string) : string := text.

Fixpoint leading (p : ascii -> bool) (s : string) : Z :=
  match s with
  | EmptyString => 0
  | String c s' => if p c then 1 + leading p s' else 0
  end.

(** [while (pos < s.length() && p(s[pos])) pos++;] *)
Definition skip_while (p : ascii -> bool) (s : string) (pos : Z) : Z :=
  if size s <=? pos then pos
  else pos + leading p (String.substring (Z.to_nat pos) (String.length s) s).

(** Test inputs are written with apostrophes for the JSON quotes. *)
Fixpoint json_of (s : string) : string :=
  match s with
  | EmptyString => EmptyString
  | String c s' =>
      String (if Ascii.eqb c "'"%char then dquote else c) (json_of s')
  end.

End Cxx.

(** ** The host (Sierra Chart) interface and the outside world *)

Module Host.

Inductive SCOrderTypeEnum : Type :=
| SCT_ORDERTYPE_UNSET
| SCT_ORDERTYPE_MARKET
| SCT_ORDERTYPE_LIMIT
| SCT_ORDERTYPE_STOP.

Inductive buy_sell : Type :=
| BSE_UNDEFINED
| BSE_BUY
| BSE_SELL.

(** The fields of [s_SCNewOrder] the studies set. *)
Record s_SCNewOrder : Type := {
  OrderQuantity : Z;
  OrderType : SCOrderTypeEnum;
  Price1 : Cxx.float;
  BuySell : buy_sell;
  TextTag : string
}.

(** A default-constructed (or zeroed) order. *)
Definition new_order : s_SCNewOrder :=
  {| OrderQuantity := 0; OrderType := SCT_ORDERTYPE_UNSET;
     Price1 := Cxx.Finite 0;
     BuySell := BSE_UNDEFINED; TextTag := EmptyString |}.

(** The order entry points of the host the studies call. *)
Inductive host_call : Type :=
| BuyEntry
| SellEntry
| BuyOrder
| SellOrder
| SubmitNewOrder.

(** What the study reads from [sc] during one invocation.  The bar arrays
    are functions of the bar index; [order_result] is the code the host
    returns for an order; [clock] is the time read by the timestamp
    helpers; [uninit_sequence] stands for the value of a [TickTrade]
    member that is read before it is assigned. *)
Record SCStudyInterface : Type := {
  Symbol : string;
  Index : Z;
  ArraySize : Z;
  Close : Z -> Q;
  Open : Z -> Q;
  High : Z -> Q;
  Low : Z -> Q;
  Volume : Z -> Q;
  Bid : Q;
  Ask : Q;
  TickSize : Q;
  AllowEntryWithWorkingOrders : bool;
  SendOrdersToTradeService : bool;
  Input_OutputPath : string;
  order_result : host_call -> s_SCNewOrder -> Z;
  clock : Z;
  uninit_sequence : Z
}.

(** A trade response artifact, before serialisation.  [fill_price] is
    [None] for the JSON [null] and for variants that have no such field. *)
Record TradeResponse : Type := {
  resp_id : string;
  resp_status : string;
  resp_message : string;
  resp_fill_price : option Cxx.float;
  resp_timestamp : Z
}.

(** Observable effects of the command channel, in program order.
    [EvRemoveCommand] is the call of [std::remove] or [DeleteFileA] on
    the command file, whether it succeeds or not. *)
Inductive Event : Type :=
| EvReadCommand (content : string)
| EvRemoveCommand
| EvHostOrder (call : host_call) (order : s_SCNewOrder) (result : Z)
| EvWriteResponse (path : string) (r : TradeResponse).

(** The files the command channel touches and the trace of its effects.
    [command_file] is the content of the trade-command file when it
    exists; the file system deletes it on request when
    [command_removable] (it does not while another process holds the
    file open, or when the file is read-only); [response_files] maps a
    path to the last response written there; opening a response file
    for writing succeeds when [responses_writable]. *)
Record World : Type := {
  command_file : option string;
  command_removable : bool;
  response_files : gmap string TradeResponse;
  responses_writable : bool;
  trace : list Event
}.

Definition emit (e : Event) (w : World) : World :=
  {| command_file := command_file w;
     command_removable := command_removable w;
     response_files := response_files w;
     responses_writable := responses_writable w;
     trace := trace w ++ [e] |}.

(** [std::remove] / [DeleteFileA] on the command file.  The studies
    discard the result of the call. *)
Definition remove_command_file (w : World) : World :=
  emit EvRemoveCommand
    {| command_file := if command_removable w then None else command_file w;
       command_removable := command_removable w;
       response_files := response_files w;
       responses_writable := responses_writable w;
       trace := trace w |}.

(** [std::ofstream f(path); if (f.is_open()) f << r;] *)
Definition write_response_file (path : string) (r : TradeResponse) (w : World) : World :=
  if responses_writable w
  then emit (EvWriteResponse path r)
         {| command_file := command_file w;
            command_removable := command_removable w;
            response_files := <[path := r]> (response_files w);
            responses_writable := responses_writable w;
            trace := trace w |}
  else w.

(** The host call itself: the order is handed over and the result comes back. *)
Definition submit (sc : SCStudyInterface) (call : host_call) (o : s_SCNewOrder)
    (w : World) : Z * World :=
  let r := order_result sc call o in
  (r, emit (EvHostOrder call o r) w).

Definition is_read (e : Event) : bool :=
  match e with EvReadCommand _ => true | _ => false end.
Definition is_remove (e : Event) : bool :=
  match e with EvRemoveCommand => true | _ => false end.
Definition is_order (e : Event) : bool :=
  match e with EvHostOrder _ _ _ => true | _ => false end.
Definition is_response (e : Event) : bool :=
  match e with EvWriteResponse _ _ => true | _ => false end.

(** The events a step appended to the trace. *)
Definition new_events (w w' : World) : list Event :=
  drop (length (trace w)) (trace w').

End Host.

(** ** Tick records and the circular tick buffer
    (identical in the FIXED and COMPLETE exporters) *)

Module Ticks.

Definition side_Buy : ascii := "B"%char.
Definition side_Sell : ascii := "S"%char.
Definition side_Unknown : ascii := "U"%char.

Record TickTrade : Type := {
  timestamp_us : Z;
  price : Q;
  size : Z;
  side : ascii;
  bid : Q;
  ask : Q;
  bid_size : Z;
  ask_size : Z;
  sequence : Z;
  open : Q;
  high : Q;
  low : Q;
  total_volume : Z;
  vwap : Cxx.float;
  trade_count : Z
}.

Definition set_sequence (t : TickTrade) (s : Z) : TickTrade :=
  {| timestamp_us := timestamp_us t; price := price t; size := size t;
     side := side t; bid := bid t; ask := ask t; bid_size := bid_size t;
     ask_size := ask_size t; sequence := s; open := open t; high := high t;
     low := low t; total_volume := total_volume t; vwap := vwap t;
     trade_count := trade_count t |}.

(** A value-initialised element, as [buffer.resize(maxSize)] creates it
    (the constructor then stores 0 in [timestamp_us] again). *)
Definition zero_tick : TickTrade :=
  {| timestamp_us := 0; price := 0; size := 0; side := Ascii.zero; bid := 0;
     ask := 0; bid_size := 0; ask_size := 0; sequence := 0; open := 0;
     high := 0; low := 0; total_volume := 0; vwap := Cxx.Finite 0;
     trade_count := 0 |}.

Record TickBuffer : Type := {
  buffer : list TickTrade;
  writeIndex : Z;
  maxSize : Z;
  sequenceCounter : Z
}.

(** [TickBuffer(size)] *)
Definition TickBuffer_new (size : Z) : TickBuffer :=
  {| buffer := replicate (Z.to_nat size) zero_tick;
     writeIndex := 0;
     maxSize := size;
     sequenceCounter := 0 |}.

(** [AddTick]: [buffer[writeIndex] = tick; buffer[writeIndex].sequence =
    sequenceCounter++; writeIndex = (writeIndex + 1) % maxSize].  With
    [maxSize = 0] the source indexes an empty vector and divides by zero;
    the model then leaves the vector alone and keeps [writeIndex] at 0. *)
Definition AddTick (tick : TickTrade) (b : TickBuffer) : TickBuffer :=
  {| buffer := <[Z.to_nat (writeIndex b) := set_sequence tick (sequenceCounter b)]> (buffer b);
     writeIndex := Cxx.size_t (writeIndex b + 1) mod maxSize b;
     maxSize := maxSize b;
     sequenceCounter := Cxx.uint16 (sequenceCounter b + 1) |}.

(** The slot read at iteration [i] of the loop of [GetRecentTicks]. *)
Definition recent_index (b : TickBuffer) (actualCount i : Z) : Z :=
  Cxx.size_t (writeIndex b - actualCount + i + maxSize b) mod maxSize b.

(** [GetRecentTicks(count)] *)
Definition GetRecentTicks (count : Z) (b : TickBuffer) : list TickTrade :=
  let actualCount := if count <? maxSize b then count else maxSize b in
  omap (fun i =>
          match buffer b !! Z.to_nat (recent_index b actualCount i) with
          | Some t => if 0 <? timestamp_us t then Some t else None
          | None => None
          end)
       (seqZ 0 actualCount).

Definition GetSize (b : TickBuffer) : Z := maxSize b.
Definition GetSequenceCounter (b : TickBuffer) : Z := sequenceCounter b.

(** The process-wide variables of the exporters. *)
Record Globals : Type := {
  g_TickBuffer : TickBuffer;
  g_LastPrice : Q;
  g_LastUpdateTime : Z;
  g_CumulativeVolume : Z;
  g_TotalTrades : Z
}.

(** Their values when the study is loaded. *)
Definition initial_globals : Globals :=
  {| g_TickBuffer := TickBuffer_new 20000;
     g_LastPrice := 0;
     g_LastUpdateTime := 0;
     g_CumulativeVolume := 0;
     g_TotalTrades := 0 |}.

(** The VWAP block of [ExportTickData], over the ticks [GetRecentTicks]
    returned: [weightedSum += t.price * t.size; totalVol += t.size], the
    sum being a [float] (the size is converted to [float], the product
    and the sum are rounded) and the total a [uint32_t]; then
    [vwap = weightedSum / totalVol], a [float] division. *)
Definition weightedSum (recentTicks : list TickTrade) : Cxx.float :=
  fold_left (fun acc t =>
               Cxx.fadd32 acc (Cxx.fmul32 (Cxx.Finite (price t)) (Cxx.of_uint32 (size t))))
    recentTicks (Cxx.Finite 0).

Definition totalVol (recentTicks : list TickTrade) : Z :=
  fold_left (fun acc t => Cxx.uint32 (acc + size t)) recentTicks 0.

Definition vwap_of (recentTicks : list TickTrade) (CurrentPrice : Q) : Cxx.float :=
  match recentTicks with
  | [] => Cxx.Finite CurrentPrice
  | _ :: _ =>
      if 0 <? totalVol recentTicks
      then Cxx.fdiv32 (weightedSum recentTicks) (Cxx.of_uint32 (totalVol recentTicks))
      else Cxx.Finite CurrentPrice
  end.

(** The same block for a window of [n] ticks; the exporters use [n = 200]. *)
Definition WindowedVWAP (n : Z) (b : TickBuffer) (CurrentPrice : Q) : Cxx.float :=
  vwap_of (GetRecentTicks n b) CurrentPrice.

End Ticks.

(** ** [class JSONParser] (identical in the FIXED and COMPLETE exporters) *)

Module JSONParser.

Import Cxx.

Definition string_key (key : string) : string :=
  quote_str +:+ key +:+ quote_str +:+ ":" +:+ quote_str.

Definition number_key (key : string) : string :=
  quote_str +:+ key +:+ quote_str +:+ ":".

Definition ExtractString (json key : string) : result string :=
  let searchKey := string_key key in
  let pos := find json searchKey 0 in
  if pos =? npos then Ok EmptyString
  else
    let start := size_t (pos + size searchKey) in
    let end_ := find json quote_str start in
    if end_ =? npos then Ok EmptyString
    else substr json start (size_t (end_ - start)).

Definition ExtractInt (json key : string) : result Z :=
  let searchKey := number_key key in
  let pos := find json searchKey 0 in
  if pos =? npos then Ok 0
  else
    let start := size_t (pos + size searchKey) in
    let end_ := find_first_of json ",}" start in
    if end_ =? npos then Ok 0
    else Ok (try_catch_all (bind (substr json start (size_t (end_ - start))) stoi) 0).

Section Float.

(** [std::stof]: the text-to-float conversion is a parameter of the model;
    a [Throw] is one of the exceptions it raises, and the value it returns
    can be an infinity or a NaN (for the texts inf and nan). *)
Variable stof : string -> result float.

Definition ExtractFloat (json key : string) : result float :=
  let searchKey := number_key key in
  let pos := find json searchKey 0 in
  if pos =? npos then Ok (Finite 0)
  else
    let start := size_t (pos + size searchKey) in
    let end_ := find_first_of json ",}" start in
    if end_ =? npos then Ok (Finite 0)
    else Ok (try_catch_all (bind (substr json start (size_t (end_ - start))) stof) (Finite 0)).

End Float.

End JSONParser.

(** ** MinhOS_TickDataExporter_v3_FIXED.cpp *)

Module Fixed.

Import Cxx Host Ticks.

(** [DetermineTradeSide]: [midpoint = (bid + ask) / 2.0f] is computed in
    [float], the sum and the quotient each rounded to binary32. *)
Definition midpoint (bid ask : Q) : float :=
  fdiv32 (fadd32 (Finite bid) (Finite ask)) (Finite 2).

Definition DetermineTradeSide (price bid ask lastPrice : Q) : ascii :=
  if Qgtb bid 0 && Qgtb ask 0 then
    if fge (Finite price) (midpoint bid ask) then side_Buy else side_Sell
  else if Qgtb lastPrice 0 then
    if Qgtb price lastPrice then side_Buy
    else if Qltb price lastPrice then side_Sell
    else side_Unknown
  else side_Unknown.

(** The local [ActualVolume] of [ExportTickData] on the path that has a
    host volume (the other path returns at once). *)
Definition ActualVolume (sc : SCStudyInterface) : Z :=
  to_uint32 (Volume sc (Index sc)).

(** The local [isNewTrade] of [ExportTickData]. *)
Definition isNewTrade (sc : SCStudyInterface) (g : Globals) : bool :=
  (0 <? ActualVolume sc)
  && (Qneb (Close sc (Index sc)) (g_LastPrice g) || Qeq_bool (g_LastPrice g) 0).

(** [ExportTickData]: the new globals and the tick handed to
    [ProcessIndividualTick] (written to the tick file), if any. *)
Definition ExportTickData (sc : SCStudyInterface) (g : Globals) : Globals * option TickTrade :=
  let CurrentPrice := Close sc (Index sc) in
  let Volume := Volume sc (Index sc) in
  let High := High sc (Index sc) in
  let Low := Low sc (Index sc) in
  let Open := Open sc (Index sc) in
  if Qgtb Volume 0 then
    let ActualVolume := ActualVolume sc in
    let cumulative := uint32 (g_CumulativeVolume g + ActualVolume) in
    let '(BidPrice, AskPrice, BidSize, AskSize) :=
      if Qgtb (Bid sc) 0 && Qgtb (Ask sc) 0 then
        (Bid sc, Ask sc,
         to_uint32 (inject_Z ActualVolume * (4 # 10)),
         to_uint32 (inject_Z ActualVolume * (6 # 10)))
      else
        let spread0 := ((High - Low) * (1 # 10))%Q in
        let spread := if Qltb spread0 (TickSize sc) then TickSize sc else spread0 in
        ((CurrentPrice - spread)%Q, (CurrentPrice + spread)%Q,
         uint32 (ActualVolume / 2), uint32 (ActualVolume / 2)) in
    if isNewTrade sc g then
      let trades := uint32 (g_TotalTrades g + 1) in
      let recentTicks := GetRecentTicks 200 (g_TickBuffer g) in
      let tick :=
        {| timestamp_us := clock sc;
           price := CurrentPrice;
           size := ActualVolume;
           side := DetermineTradeSide CurrentPrice BidPrice AskPrice (g_LastPrice g);
           bid := BidPrice;
           ask := AskPrice;
           bid_size := BidSize;
           ask_size := AskSize;
           sequence := uninit_sequence sc;
           open := Open;
           high := High;
           low := Low;
           total_volume := cumulative;
           vwap := vwap_of recentTicks CurrentPrice;
           trade_count := trades |} in
      ({| g_TickBuffer := AddTick tick (g_TickBuffer g);
          g_LastPrice := CurrentPrice;
          g_LastUpdateTime := timestamp_us tick;
          g_CumulativeVolume := cumulative;
          g_TotalTrades := trades |},
       Some tick)
    else
      ({| g_TickBuffer := g_TickBuffer g;
          g_LastPrice := g_LastPrice g;
          g_LastUpdateTime := g_LastUpdateTime g;
          g_CumulativeVolume := cumulative;
          g_TotalTrades := g_TotalTrades g |},
       None)
  else (g, None).

(** [WriteTradeResponse] *)
Definition WriteTradeResponse (sc : SCStudyInterface) (outputPath orderId status message : string)
    (w : World) : World :=
  let ResponseFile := outputPath +:+ "trade_response_" +:+ orderId +:+ ".json" in
  write_response_file ResponseFile
    {| resp_id := orderId; resp_status := status; resp_message := message;
       resp_fill_price := None; resp_timestamp := clock sc |} w.

(** [%d] *)
Definition format_d (z : Z) : string :=
  if z <? 0 then "-" +:+ decimal (- z) else decimal z.

(** The order [ExecuteTrade] builds: a market order unless the order type
    is LIMIT (in any case), which also sets the price. *)
Definition order_of (quantity : Z) (price : float) (orderType : string) (bs : buy_sell)
    (orderId : string) : s_SCNewOrder :=
  {| OrderQuantity := quantity;
     OrderType := if CompareNoCase_eq orderType "LIMIT"
                  then SCT_ORDERTYPE_LIMIT else SCT_ORDERTYPE_MARKET;
     Price1 := if CompareNoCase_eq orderType "LIMIT" then price else Price1 new_order;
     BuySell := bs;
     TextTag := orderId |}.

(** The end of [ExecuteTrade]: [sc.SubmitNewOrder] and the response for its result. *)
Definition submit_order (sc : SCStudyInterface) (order : s_SCNewOrder) (orderId : string)
    (w : World) : World :=
  let '(result, w1) := submit sc SubmitNewOrder order w in
  if 0 <? result then
    WriteTradeResponse sc (Input_OutputPath sc) orderId "SUBMITTED"
      "Order submitted successfully" w1
  else
    WriteTradeResponse sc (Input_OutputPath sc) orderId "FAILED"
      ("Order submission failed with code: " +:+ format_d result) w1.

(** [ExecuteTrade].  The test [price <= 0.0f] is false for a NaN. *)
Definition ExecuteTrade (sc : SCStudyInterface) (symbol side : string) (quantity : Z)
    (price : float) (orderType : string) (w : World) : World :=
  let orderId := "MINH_" +:+ decimal (clock sc) in
  if quantity <=? 0 then
    WriteTradeResponse sc (Input_OutputPath sc) orderId "REJECTED" "Invalid quantity" w
  else if fle price (Finite 0) && negb (CompareNoCase_eq orderType "MARKET") then
    WriteTradeResponse sc (Input_OutputPath sc) orderId "REJECTED"
      "Invalid price for limit order" w
  else
    if CompareNoCase_eq side "BUY"
    then submit_order sc (order_of quantity price orderType BSE_BUY orderId) orderId w
    else if CompareNoCase_eq side "SELL"
    then submit_order sc (order_of quantity price orderType BSE_SELL orderId) orderId w
    else
      WriteTradeResponse sc (Input_OutputPath sc) orderId "REJECTED"
        "Invalid side (must be BUY or SELL)" w.

(** The test [!symbol.empty() && !side.empty() && quantity > 0] of
    [ProcessTradeCommands], on a content that is not empty. *)
Definition command_accepted (content : string) : bool :=
  negb (empty content)
  && match JSONParser.ExtractString content "symbol",
           JSONParser.ExtractString content "side",
           JSONParser.ExtractInt content "quantity" with
     | Ok symbol, Ok side, Ok quantity =>
         negb (empty symbol) && negb (empty side) && (0 <? quantity)
     | _, _, _ => false
     end.

Section Commands.

Variable stof : string -> result float.

(** [ProcessTradeCommands]: one poll of the command file.  The fields
    reach [ExecuteTrade] as [SCString]s assigned from [c_str()]. *)
Definition ProcessTradeCommands (sc : SCStudyInterface) (w : World) : result World :=
  match command_file w with
  | None => Ok w
  | Some content =>
      let w0 := emit (EvReadCommand content) w in
      if empty content then Ok w0
      else
        bind (JSONParser.ExtractString content "symbol") (fun symbol =>
        bind (JSONParser.ExtractString content "side") (fun side =>
        bind (JSONParser.ExtractString content "order_type") (fun orderType =>
        bind (JSONParser.ExtractInt content "quantity") (fun quantity =>
        bind (JSONParser.ExtractFloat stof content "price") (fun price =>
          if negb (empty symbol) && negb (empty side) && (0 <? quantity) then
            let scSymbol := c_str symbol in
            let scSide := c_str side in
            let scOrderType := c_str orderType in
            Ok (remove_command_file
                  (ExecuteTrade sc scSymbol scSide quantity price scOrderType w0))
          else Ok w0)))))
  end.

End Commands.

End Fixed.

(** ** MinhOS_TickDataExporter_v3_COMPLETE.cpp *)

Module Complete.

Import Cxx Host Ticks.

(** [const float epsilon = 0.0001f]: the binary32 number nearest to
    0.0001, which is 13743895 / 2^37. *)
Definition epsilon : float := round32 (1 # 10000).

(** [DetermineTradeSide]: every sum and difference is a [float]
    operation, rounded to binary32. *)
Definition DetermineTradeSide (price bid ask lastPrice : Q) : ascii :=
  if fge (Finite price) (fsub32 (Finite ask) epsilon) then side_Buy
  else if fle (Finite price) (fadd32 (Finite bid) epsilon) then side_Sell
  else if Qgtb lastPrice 0 then
    if fgt (Finite price) (fadd32 (Finite lastPrice) epsilon) then side_Buy
    else if flt (Finite price) (fsub32 (Finite lastPrice) epsilon) then side_Sell
    else
      let bidDistance :=
        if Qgtb price bid then fsub32 (Finite price) (Finite bid)
        else fsub32 (Finite bid) (Finite price) in
      let askDistance :=
        if Qgtb price ask then fsub32 (Finite price) (Finite ask)
        else fsub32 (Finite ask) (Finite price) in
      if flt bidDistance askDistance then side_Sell
      else if flt askDistance bidDistance then side_Buy
      else side_Unknown
  else side_Unknown.

(** [EstimateVolume].  A zero [TickSize] makes the source divide by zero;
    [Q] division then yields 0 and the estimate is clamped to 1. *)
Definition EstimateVolume (sc : SCStudyInterface) (currentPrice lastPrice : Q) : Z :=
  if Qeq_bool lastPrice 0 then 1
  else
    let priceChange := Qabs (currentPrice - lastPrice) in
    let tickSize := TickSize sc in
    if Qeq_bool priceChange 0 then 0
    else
      let estimatedVol := to_uint32 ((priceChange / tickSize) * 10) in
      let estimatedVol1 := if estimatedVol <? 1 then 1 else estimatedVol in
      if 1000 <? estimatedVol1 then 1000 else estimatedVol1.

(** The local [ActualVolume] of [ExportTickData]: the host volume when
    there is one, else the estimate. *)
Definition ActualVolume (sc : SCStudyInterface) (g : Globals) : Z :=
  if Qgtb (Volume sc (Index sc)) 0 then to_uint32 (Volume sc (Index sc))
  else EstimateVolume sc (Close sc (Index sc)) (g_LastPrice g).

(** The local [isNewTrade] of [ExportTickData]. *)
Definition isNewTrade (sc : SCStudyInterface) (g : Globals) : bool :=
  if Qneb (Close sc (Index sc)) (g_LastPrice g) then true
  else if 0 <? ActualVolume sc g then true
  else if Qeq_bool (g_LastPrice g) 0 then true
  else false.

(** [ExportTickData]: the new globals and the tick handed to
    [ProcessIndividualTick] (written to the tick file), if any. *)
Definition ExportTickData (sc : SCStudyInterface) (g : Globals) : Globals * option TickTrade :=
  let CurrentPrice := Close sc (Index sc) in
  let Volume := Volume sc (Index sc) in
  let High := High sc (Index sc) in
  let Low := Low sc (Index sc) in
  let Open := Open sc (Index sc) in
  let ActualVolume := ActualVolume sc g in
  let cumulative :=
    if Qgtb Volume 0 then uint32 (g_CumulativeVolume g + ActualVolume)
    else if 0 <? ActualVolume then uint32 (g_CumulativeVolume g + ActualVolume)
    else g_CumulativeVolume g in
  let '(BidPrice, AskPrice, BidSize, AskSize) :=
    if Qgtb (Bid sc) 0 && Qgtb (Ask sc) 0 then
      (Bid sc, Ask sc,
       to_uint32 (inject_Z ActualVolume * (4 # 10)),
       to_uint32 (inject_Z ActualVolume * (6 # 10)))
    else
      let spread0 := ((High - Low) * (1 # 10))%Q in
      let spread := if Qltb spread0 (TickSize sc) then TickSize sc else spread0 in
      ((CurrentPrice - spread)%Q, (CurrentPrice + spread)%Q,
       uint32 (ActualVolume / 2), uint32 (ActualVolume / 2)) in
  if isNewTrade sc g then
    let trades := uint32 (g_TotalTrades g + 1) in
    let recentTicks := GetRecentTicks 200 (g_TickBuffer g) in
    let tick :=
      {| timestamp_us := clock sc;
         price := CurrentPrice;
         size := ActualVolume;
         side := DetermineTradeSide CurrentPrice BidPrice AskPrice (g_LastPrice g);
         bid := BidPrice;
         ask := AskPrice;
         bid_size := BidSize;
         ask_size := AskSize;
         sequence := uninit_sequence sc;
         open := Open;
         high := High;
         low := Low;
         total_volume := cumulative;
         vwap := vwap_of recentTicks CurrentPrice;
         trade_count := trades |} in
    ({| g_TickBuffer := AddTick tick (g_TickBuffer g);
        g_LastPrice := CurrentPrice;
        g_LastUpdateTime := timestamp_us tick;
        g_CumulativeVolume := cumulative;
        g_TotalTrades := trades |},
     Some tick)
  else
    ({| g_TickBuffer := g_TickBuffer g;
        g_LastPrice := g_LastPrice g;
        g_LastUpdateTime := g_LastUpdateTime g;
        g_CumulativeVolume := cumulative;
        g_TotalTrades := g_TotalTrades g |},
     None).

(** [WriteTradeResponse] *)
Definition WriteTradeResponse (sc : SCStudyInterface) (outputPath orderId status message : string)
    (w : World) : World :=
  let ResponseFile := outputPath +:+ "trade_response_" +:+ orderId +:+ ".json" in
  write_response_file ResponseFile
    {| resp_id := orderId; resp_status := status; resp_message := message;
       resp_fill_price := None; resp_timestamp := clock sc |} w.

(** [ExecuteTrade] *)
Definition ExecuteTrade (sc : SCStudyInterface) (symbol side : string) (quantity : Z)
    (price : float) (orderType : string) (w : World) : World :=
  let order :=
    {| OrderQuantity := quantity;
       OrderType :=
         if String.eqb orderType "MARKET" || (String.length orderType =? 0)%nat
         then SCT_ORDERTYPE_MARKET
         else if String.eqb orderType "LIMIT" then SCT_ORDERTYPE_LIMIT
         else if String.eqb orderType "STOP" then SCT_ORDERTYPE_STOP
         else SCT_ORDERTYPE_LIMIT;
       Price1 := price;
       BuySell := BuySell new_order;
       TextTag := TextTag new_order |} in
  if String.eqb side "BUY" then snd (submit sc BuyOrder order w)
  else if String.eqb side "SELL" then snd (submit sc SellOrder order w)
  else w.

Section Commands.

Variable stof : string -> result float.

(** [ProcessTradeCommands]: one poll of the command file.  [ExecuteTrade]
    and [WriteTradeResponse] take [SCString]s, built here from [c_str()]. *)
Definition ProcessTradeCommands (sc : SCStudyInterface) (OutputPath : string) (w : World)
    : result World :=
  match command_file w with
  | None => Ok w
  | Some text =>
      let w0 := emit (EvReadCommand text) w in
      let jsonContent := getline_concat text in
      bind (JSONParser.ExtractString jsonContent "order_id") (fun orderId =>
      bind (JSONParser.ExtractString jsonContent "symbol") (fun symbol =>
      bind (JSONParser.ExtractString jsonContent "side") (fun side =>
      bind (JSONParser.ExtractInt jsonContent "quantity") (fun quantity =>
      bind (JSONParser.ExtractFloat stof jsonContent "price") (fun price =>
      bind (JSONParser.ExtractString jsonContent "type") (fun orderType =>
        if negb (empty orderId) && negb (empty symbol) && negb (empty side)
           && (0 <? quantity)
        then
          let w1 := ExecuteTrade sc (c_str symbol) (c_str side) quantity price
                      (c_str orderType) w0 in
          let w2 := WriteTradeResponse sc OutputPath (c_str orderId) "PROCESSING"
                      "Trade command received and processed with microsecond precision" w1 in
          Ok (remove_command_file w2)
        else
          Ok (WriteTradeResponse sc OutputPath "INVALID" "REJECTED"
                "Invalid trade command format or missing required fields" w0)))))))
  end.

End Commands.

End Complete.

(** ** MinhOS_TickDataExporter_v2.cpp *)

Module V2.

Import Cxx Host.

(** [WriteTradeResponse] *)
Definition WriteTradeResponse (sc : SCStudyInterface) (outputPath orderId status message : string)
    (w : World) : World :=
  let ResponseFile := outputPath +:+ "trade_response_" +:+ orderId +:+ ".json" in
  write_response_file ResponseFile
    {| resp_id := orderId; resp_status := status; resp_message := message;
       resp_fill_price := None; resp_timestamp := clock sc |} w.

(** [ExecuteTrade] *)
Definition ExecuteTrade (sc : SCStudyInterface) (symbol side : string) (quantity : Z)
    (price : float) (orderType : string) (w : World) : World :=
  let order :=
    {| OrderQuantity := quantity;
       OrderType :=
         if String.eqb orderType "MARKET" then SCT_ORDERTYPE_MARKET
         else if String.eqb orderType "LIMIT" then SCT_ORDERTYPE_LIMIT
         else SCT_ORDERTYPE_LIMIT;
       Price1 := price;
       BuySell := BuySell new_order;
       TextTag := TextTag new_order |} in
  if String.eqb side "BUY" then snd (submit sc BuyOrder order w)
  else if String.eqb side "SELL" then snd (submit sc SellOrder order w)
  else w.

(** The test of [ProcessTradeCommands]: the three quoted keys are found. *)
Definition keys_present (jsonContent : string) : bool :=
  negb (find jsonContent (JSONParser.string_key "order_id") 0 =? npos)
  && negb (find jsonContent (JSONParser.string_key "symbol") 0 =? npos)
  && negb (find jsonContent (JSONParser.string_key "side") 0 =? npos).

Section Commands.

Variable stof : string -> result float.

(** The text of a number: up to the next comma, else up to the next brace. *)
Definition number_end (jsonContent : string) (start : Z) : Z :=
  let e := find jsonContent "," start in
  if e =? npos then find jsonContent "}" start else e.

(** [ProcessTradeCommands]: one poll of the command file.  [std::stoi] and
    [std::stof] are called outside any [try] block; [ExecuteTrade] and
    [WriteTradeResponse] take [SCString]s, built here from [c_str()]. *)
Definition ProcessTradeCommands (sc : SCStudyInterface) (OutputPath : string) (w : World)
    : result World :=
  match command_file w with
  | None => Ok w
  | Some text =>
      let w0 := emit (EvReadCommand text) w in
      let jsonContent := getline_concat text in
      let orderIdPos := find jsonContent (JSONParser.string_key "order_id") 0 in
      let symbolPos := find jsonContent (JSONParser.string_key "symbol") 0 in
      let sidePos := find jsonContent (JSONParser.string_key "side") 0 in
      let quantityPos := find jsonContent (JSONParser.number_key "quantity") 0 in
      let pricePos := find jsonContent (JSONParser.number_key "price") 0 in
      let typePos := find jsonContent (JSONParser.string_key "type") 0 in
      if negb (orderIdPos =? npos) && negb (symbolPos =? npos) && negb (sidePos =? npos)
      then
        let orderIdStart := size_t (orderIdPos + 12) in
        let orderIdEnd := find jsonContent quote_str orderIdStart in
        bind (substr jsonContent orderIdStart (size_t (orderIdEnd - orderIdStart))) (fun orderId =>
        let symbolStart := size_t (symbolPos + 10) in
        let symbolEnd := find jsonContent quote_str symbolStart in
        bind (substr jsonContent symbolStart (size_t (symbolEnd - symbolStart))) (fun symbol =>
        let sideStart := size_t (sidePos + 8) in
        let sideEnd := find jsonContent quote_str sideStart in
        bind (substr jsonContent sideStart (size_t (sideEnd - sideStart))) (fun side =>
        let quantityStart := size_t (quantityPos + 11) in
        let quantityEnd := number_end jsonContent quantityStart in
        bind (substr jsonContent quantityStart (size_t (quantityEnd - quantityStart))) (fun qtext =>
        bind (stoi qtext) (fun quantity =>
        let priceStart := size_t (pricePos + 8) in
        let priceEnd := number_end jsonContent priceStart in
        bind (substr jsonContent priceStart (size_t (priceEnd - priceStart))) (fun ptext =>
        bind (stof ptext) (fun price =>
        let typeStart := size_t (typePos + 8) in
        let typeEnd := find jsonContent quote_str typeStart in
        bind (substr jsonContent typeStart (size_t (typeEnd - typeStart))) (fun orderType =>
          let w1 := ExecuteTrade sc (c_str symbol) (c_str side) quantity price
                      (c_str orderType) w0 in
          let w2 := WriteTradeResponse sc OutputPath (c_str orderId) "PROCESSING"
                      "Trade command received and processing" w1 in
          Ok (remove_command_file w2)))))))))
      else Ok w0
  end.

End Commands.

End V2.

(** ** MinhOSBridgeStudy.cpp *)

Module Bridge.

Import Cxx Host.

Definition TRADE_RESPONSES_FILE : string := "C:/SierraChart/Data/minhos_trade_responses.json".
Definition MIN_VALID_PRICE : Q := 1 # 100.
Definition MAX_PRICE_CHANGE_PERCENT : Q := 50.
Definition MAX_POSITION_SIZE : Z := 10.

(** The percentage [isValidData] compares with the threshold. *)
Definition changePercent (price prevPrice : Q) : Q :=
  Qabs ((price - prevPrice) / prevPrice * 100).

(** [isValidData] *)
Definition isValidData (sc : SCStudyInterface) : bool :=
  let price := Close sc (Index sc) in
  let volume := Volume sc (Index sc) in
  if Qle_bool price 0 || Qltb price MIN_VALID_PRICE then false
  else if Qltb volume 0 then false
  else if Qltb (High sc (Index sc)) (Low sc (Index sc)) then false
  else if Qltb price (Low sc (Index sc)) || Qgtb price (High sc (Index sc)) then false
  else if (0 <? Index sc)
          && Qgtb (Close sc (Index sc - 1)) 0
          && Qgtb (changePercent price (Close sc (Index sc - 1))) MAX_PRICE_CHANGE_PERCENT
       then false
  else true.

Record TradeCommand : Type := {
  command_id : string;
  action : string;
  symbol : string;
  quantity : Z;
  price : float;
  order_type : string
}.

(** The block [parseTradeCommand] repeats for each quoted field: the key
    is searched, then the next two quotes after [pos + keylen] delimit
    the value; the field keeps [dflt] when one of them is missing. *)
Definition quoted_field (jsonStr key : string) (keylen : Z) (dflt : string) : result string :=
  let pos := find jsonStr key 0 in
  if negb (pos =? npos) then
    let start := find_char jsonStr dquote (size_t (pos + keylen)) in
    let end_ := find_char jsonStr dquote (size_t (start + 1)) in
    if negb (start =? npos) && negb (end_ =? npos)
    then substr jsonStr (size_t (start + 1)) (size_t (end_ - start - 1))
    else Ok dflt
  else Ok dflt.

Definition space_or_colon (c : ascii) : bool :=
  Ascii.eqb c " "%char || Ascii.eqb c ":"%char.

(** The text handed to [atoi] / [atof] for a numeric field, if the key is there. *)
Definition number_text (jsonStr key : string) (keylen : Z) : result (option string) :=
  let pos := find jsonStr key 0 in
  if negb (pos =? npos) then
    let pos1 := skip_while space_or_colon jsonStr (size_t (pos + keylen)) in
    bind (substr_from jsonStr pos1) (fun t => Ok (Some t))
  else Ok None.

Section Commands.

(** [atof]: the text-to-double conversion is a parameter of the model;
    the value can be an infinity or a NaN. *)
Variable atof : string -> float.

(** [parseTradeCommand]: the returned flag and the command it filled in. *)
Definition parseTradeCommand (jsonStr : string) : result (bool * TradeCommand) :=
  bind (quoted_field jsonStr (quote_str +:+ "command_id" +:+ quote_str +:+ ":") 13 EmptyString)
    (fun cid =>
  bind (quoted_field jsonStr (quote_str +:+ "action" +:+ quote_str +:+ ":") 9 EmptyString)
    (fun act =>
  bind (quoted_field jsonStr (quote_str +:+ "symbol" +:+ quote_str +:+ ":") 9 EmptyString)
    (fun sym =>
  bind (number_text jsonStr (quote_str +:+ "quantity" +:+ quote_str +:+ ":") 11)
    (fun qtext =>
  bind (number_text jsonStr (quote_str +:+ "price" +:+ quote_str +:+ ":") 8)
    (fun ptext =>
  bind (quoted_field jsonStr (quote_str +:+ "order_type" +:+ quote_str +:+ ":") 13 "MARKET")
    (fun otype =>
    let cmd :=
      {| command_id := cid;
         action := act;
         symbol := sym;
         quantity := match qtext with Some t => atoi t | None => 0 end;
         price := match ptext with Some t => atof t | None => Finite 0 end;
         order_type := otype |} in
    Ok (negb (empty cid) && negb (empty act) && (0 <? quantity cmd), cmd))))))).

(** [createTradeResponse] *)
Definition createTradeResponse (sc : SCStudyInterface) (cid status message : string)
    (fill_price : float) : TradeResponse :=
  {| resp_id := cid;
     resp_status := status;
     resp_message := message;
     resp_fill_price := if fgt fill_price (Finite 0) then Some fill_price else None;
     resp_timestamp := clock sc |}.

(** The checks [executeTrade] makes before it builds an order.  The
    symbol of the command is tested for emptiness as a [std::string] and
    compared with the chart symbol as a C string ([cmd.symbol.c_str()]). *)
Definition validated (sc : SCStudyInterface) (cmd : TradeCommand) : bool :=
  AllowEntryWithWorkingOrders sc
  && SendOrdersToTradeService sc
  && (empty (symbol cmd) || CompareNoCase_eq (Symbol sc) (c_str (symbol cmd)))
  && (0 <? quantity cmd)
  && (quantity cmd <=? MAX_POSITION_SIZE)
  && Qgtb (Ask sc) 0 && Qgtb (Bid sc) 0.

(** [cmd.order_type == "LIMIT" && cmd.price > 0] *)
Definition is_limit (cmd : TradeCommand) : bool :=
  String.eqb (order_type cmd) "LIMIT" && fgt (price cmd) (Finite 0).

(** The order [executeTrade] hands to the host: zeroed, the quantity, the
    limit price when [is_limit], and then, whatever was selected,
    [order.OrderType = SCT_ORDERTYPE_MARKET] (the source comments this
    line with: Force market order for reliability). *)
Definition order_of (cmd : TradeCommand) : s_SCNewOrder :=
  {| OrderQuantity := quantity cmd;
     OrderType := SCT_ORDERTYPE_MARKET;
     Price1 := if is_limit cmd then price cmd else Finite 0;
     BuySell := BSE_UNDEFINED;
     TextTag := EmptyString |}.

(** [executeTrade]: the returned order id, the final value of the
    reference parameter [fillPrice], and the world after the host call. *)
Definition executeTrade (sc : SCStudyInterface) (cmd : TradeCommand) (fillPrice : float)
    (w : World) : Z * float * World :=
  if negb (AllowEntryWithWorkingOrders sc) then (0, fillPrice, w)
  else if negb (SendOrdersToTradeService sc) then (0, fillPrice, w)
  else if negb (empty (symbol cmd))
          && negb (CompareNoCase_eq (Symbol sc) (c_str (symbol cmd)))
  then (0, fillPrice, w)
  else if quantity cmd <=? 0 then (0, fillPrice, w)
  else if MAX_POSITION_SIZE <? quantity cmd then (0, fillPrice, w)
  else if Qle_bool (Ask sc) 0 || Qle_bool (Bid sc) 0 then (0, fillPrice, w)
  else
    let fillPrice1 :=
      if is_limit cmd then price cmd
      else if String.eqb (action cmd) "BUY" then Finite (Ask sc) else Finite (Bid sc) in
    let order := order_of cmd in
    if String.eqb (action cmd) "BUY" then
      let '(result, w1) := submit sc BuyEntry order w in (result, Finite (Ask sc), w1)
    else if String.eqb (action cmd) "SELL" then
      let '(result, w1) := submit sc SellEntry order w in (result, Finite (Bid sc), w1)
    else (0, fillPrice1, w).

(** The order type [executeTrade] selects before it is overwritten. *)
Definition selected_order_type (cmd : TradeCommand) : SCOrderTypeEnum :=
  if is_limit cmd then SCT_ORDERTYPE_LIMIT else SCT_ORDERTYPE_MARKET.

(** [processTradeCommands]: one poll of the command file.  An exception
    inside the [try] block makes the function return [false] with the
    effects performed so far. *)
Definition processTradeCommands (sc : SCStudyInterface) (w : World) : bool * World :=
  match command_file w with
  | None => (false, w)
  | Some text =>
      let w0 := emit (EvReadCommand text) w in
      let content := getline_concat text in
      if negb (empty content) then
        let w1 := remove_command_file w0 in
        match parseTradeCommand content with
        | Throw _ => (false, w1)
        | Ok (true, cmd) =>
            let '(orderId, fillPrice, w2) := executeTrade sc cmd (Finite 0) w1 in
            let response :=
              if 0 <? orderId
              then createTradeResponse sc (command_id cmd) "FILLED"
                     "Trade executed successfully" fillPrice
              else createTradeResponse sc (command_id cmd) "REJECTED"
                     "Trade execution failed" (Finite 0) in
            (true, write_response_file TRADE_RESPONSES_FILE response w2)
        | Ok (false, _) =>
            let response :=
              createTradeResponse sc "unknown" "REJECTED" "Invalid command format"
                (Finite 0) in
            (true, write_response_file TRADE_RESPONSES_FILE response w1)
        end
      else (true, w0)
  end.

(** The market-data packet of [createBridgeMarketDataJSON], before serialisation. *)
Record MarketData : Type := {
  md_timestamp : Z;
  md_symbol : string;
  md_price : Q;
  md_volume : Z;
  md_bid : Q;
  md_ask : Q
}.

(** [createBridgeMarketDataJSON]; the volume is written as
    [(int)sc.Volume[sc.Index]]. *)
Definition createBridgeMarketDataJSON (sc : SCStudyInterface) : MarketData :=
  let close := Close sc (Index sc) in
  let volume := Volume sc (Index sc) in
  {| md_timestamp := clock sc;
     md_symbol := Symbol sc;
     md_price := close;
     md_volume := to_int volume;
     md_bid := if Qgtb (Bid sc) 0 && Qgtb (Ask sc) 0 then Bid sc else close;
     md_ask := if Qgtb (Bid sc) 0 && Qgtb (Ask sc) 0 then Ask sc else close |}.

Record StudyState : Type := {
  initialized : bool;
  lastUpdate : Z;
  lastTradeCheck : Z;
  packetsWritten : Z;
  validationErrors : Z;
  tradesExecuted : Z;
  startTime : Z;
  tradingEnabled : bool
}.

Record Inputs : Type := {
  Input_UpdateInterval : Z;
  Input_EnableLogging : bool;
  Input_EnableTrading : bool;
  Input_TradeCheckInterval : Z
}.

(** Everything the study function can change: its static state, the
    market-data file, and the command channel; and what the file system
    lets [writeMarketData] do: open the market-data file for writing
    ([market_writable]), open the temporary file ([temp_writable]),
    delete the market-data file ([market_deletable]) and move the
    temporary file to a name that is free ([temp_movable]). *)
Record Study : Type := {
  state : StudyState;
  market_data_file : option MarketData;
  market_writable : bool;
  temp_writable : bool;
  market_deletable : bool;
  temp_movable : bool;
  channel : World
}.

Definition with_market_data_file (file : option MarketData) (s : Study) : Study :=
  {| state := state s; market_data_file := file;
     market_writable := market_writable s; temp_writable := temp_writable s;
     market_deletable := market_deletable s; temp_movable := temp_movable s;
     channel := channel s |}.

(** [writeMarketData]: the direct write; when the file cannot be opened,
    the data goes to a temporary file, [DeleteFileA] is called on the
    market-data file and [MoveFileA], which fails when its destination
    exists, puts the temporary file in its place. *)
Definition writeMarketData (jsonData : MarketData) (s : Study) : bool * Study :=
  if market_writable s then (true, with_market_data_file (Some jsonData) s)
  else if negb (temp_writable s) then (false, s)
  else
    match (if market_deletable s then None else market_data_file s) with
    | None =>
        if temp_movable s then (true, with_market_data_file (Some jsonData) s)
        else (false, with_market_data_file None s)
    | Some kept => (false, with_market_data_file (Some kept) s)
    end.

Definition with_state (st : StudyState) (s : Study) : Study :=
  {| state := st; market_data_file := market_data_file s;
     market_writable := market_writable s; temp_writable := temp_writable s;
     market_deletable := market_deletable s; temp_movable := temp_movable s;
     channel := channel s |}.

Definition set_lastUpdate (t : Z) (st : StudyState) : StudyState :=
  {| initialized := initialized st; lastUpdate := t;
     lastTradeCheck := lastTradeCheck st; packetsWritten := packetsWritten st;
     validationErrors := validationErrors st; tradesExecuted := tradesExecuted st;
     startTime := startTime st; tradingEnabled := tradingEnabled st |}.

Definition set_lastTradeCheck (t : Z) (st : StudyState) : StudyState :=
  {| initialized := initialized st; lastUpdate := lastUpdate st;
     lastTradeCheck := t; packetsWritten := packetsWritten st;
     validationErrors := validationErrors st; tradesExecuted := tradesExecuted st;
     startTime := startTime st; tradingEnabled := tradingEnabled st |}.

Definition set_tradingEnabled (e : bool) (st : StudyState) : StudyState :=
  {| initialized := initialized st; lastUpdate := lastUpdate st;
     lastTradeCheck := lastTradeCheck st; packetsWritten := packetsWritten st;
     validationErrors := validationErrors st; tradesExecuted := tradesExecuted st;
     startTime := startTime st; tradingEnabled := e |}.

Definition incr_packetsWritten (st : StudyState) : StudyState :=
  {| initialized := initialized st; lastUpdate := lastUpdate st;
     lastTradeCheck := lastTradeCheck st; packetsWritten := packetsWritten st + 1;
     validationErrors := validationErrors st; tradesExecuted := tradesExecuted st;
     startTime := startTime st; tradingEnabled := tradingEnabled st |}.

Definition incr_validationErrors (st : StudyState) : StudyState :=
  {| initialized := initialized st; lastUpdate := lastUpdate st;
     lastTradeCheck := lastTradeCheck st; packetsWritten := packetsWritten st;
     validationErrors := validationErrors st + 1; tradesExecuted := tradesExecuted st;
     startTime := startTime st; tradingEnabled := tradingEnabled st |}.

Definition incr_tradesExecuted (st : StudyState) : StudyState :=
  {| initialized := initialized st; lastUpdate := lastUpdate st;
     lastTradeCheck := lastTradeCheck st; packetsWritten := packetsWritten st;
     validationErrors := validationErrors st; tradesExecuted := tradesExecuted st + 1;
     startTime := startTime st; tradingEnabled := tradingEnabled st |}.

(** The block [if (!state.initialized) { ... }]. *)
Definition initialize (sc : SCStudyInterface) (inp : Inputs) (st : StudyState) : StudyState :=
  if initialized st then st
  else {| initialized := true; lastUpdate := lastUpdate st;
          lastTradeCheck := lastTradeCheck st; packetsWritten := packetsWritten st;
          validationErrors := validationErrors st; tradesExecuted := tradesExecuted st;
          startTime := uint32 (clock sc); tradingEnabled := Input_EnableTrading inp |}.

(** [currentTime - state.lastUpdate >= (DWORD)updateInterval] *)
Definition update_due (sc : SCStudyInterface) (inp : Inputs) (st : StudyState) : bool :=
  uint32 (Input_UpdateInterval inp) <=? uint32 (uint32 (clock sc) - lastUpdate st).

(** The block that creates and writes the market data of a valid snapshot. *)
Definition send_market_data (sc : SCStudyInterface) (s : Study) : Study :=
  let '(ok, s') := writeMarketData (createBridgeMarketDataJSON sc) s in
  if ok then with_state (incr_packetsWritten (state s')) s' else s'.

(** The block [// Process trade commands]. *)
Definition process_trade_commands_block (sc : SCStudyInterface) (inp : Inputs) (s : Study)
    : Study :=
  if tradingEnabled (state s)
     && (uint32 (Input_TradeCheckInterval inp)
         <=? uint32 (uint32 (clock sc) - lastTradeCheck (state s)))
  then
    let st := set_lastTradeCheck (uint32 (clock sc)) (state s) in
    let '(processed, w') := processTradeCommands sc (channel s) in
    {| state := if processed then incr_tradesExecuted st else st;
       market_data_file := market_data_file s;
       market_writable := market_writable s;
       temp_writable := temp_writable s;
       market_deletable := market_deletable s;
       temp_movable := temp_movable s;
       channel := w' |}
  else s.

(** [scsf_MinhOSBridgeStudy] for [sc.SetDefaults == 0].  [GetTickCount()]
    is [clock sc] as a [DWORD]; the log and the chart text are not modelled. *)
Definition scsf_MinhOSBridgeStudy (sc : SCStudyInterface) (inp : Inputs) (s : Study) : Study :=
  let s1 := with_state (initialize sc inp (state s)) s in
  if Index sc <? 1 then s1
  else if negb (Index sc =? ArraySize sc - 1) then s1
  else
    let s2 := with_state (set_tradingEnabled (Input_EnableTrading inp) (state s1)) s1 in
    if update_due sc inp (state s2) then
      let s3 := with_state (set_lastUpdate (uint32 (clock sc)) (state s2)) s2 in
      if negb (isValidData sc)
      then with_state (incr_validationErrors (state s3)) s3
      else process_trade_commands_block sc inp (send_market_data sc s3)
    else process_trade_commands_block sc inp s2.

End Commands.

End Bridge.

(** ** The rules as the specification words them *)

Module Spec.

Import Cxx Host Ticks.

(** Section 4.3, [Classify(price, bid, ask, last_price)]: with both quotes
    positive, at or above the ask is a buy, at or below the bid a sell,
    else the midpoint decides with the tie going to buy; without quotes
    the last price decides. *)
Definition Classify (price bid ask last_price : Q) : ascii :=
  if Qgtb bid 0 && Qgtb ask 0 then
    if Qgeb price ask then side_Buy
    else if Qle_bool price bid then side_Sell
    else if Qgeb price ((bid + ask) / 2) then side_Buy
    else side_Sell
  else if Qgtb last_price 0 then
    if Qgtb price last_price then side_Buy
    else if Qltb price last_price then side_Sell
    else side_Unknown
  else side_Unknown.


(** Section 4.2, [Recent(n)]: the last [min(n, capacity)] valid entries in
    chronological order.  [history] lists the ticks pushed so far, oldest
    first; the [j]-th of them is stored with the sequence number the
    buffer assigned to it, and an entry is valid when its timestamp is
    positive. *)
Definition stored (history : list TickTrade) (j : Z) : option TickTrade :=
  (fun t => set_sequence t (uint16 j)) <$> history !! Z.to_nat j.

Definition valid (t : TickTrade) : option TickTrade :=
  if 0 <? timestamp_us t then Some t else None.

Definition Recent (history : list TickTrade) (capacity n : Z) : list TickTrade :=
  let pushed := Z.of_nat (length history) in
  let k := Z.min (Z.min n capacity) pushed in
  omap (fun j => stored history j ≫= valid) (seqZ (pushed - k) k).

(** Section 4.2, [WindowedVWAP(n)]: the volume-weighted mean of the price
    over [Recent(n)], and the current price when the window is empty or
    its total volume is zero.  The sums are the mathematical ones. *)
Definition total_volume (recent : list TickTrade) : Z :=
  fold_right (fun t acc => size t + acc) 0 recent.

Definition weighted_price_sum (recent : list TickTrade) : Q :=
  fold_right (fun t acc => (price t * inject_Z (size t) + acc)%Q) 0%Q recent.

Definition WindowedVWAP (recent : list TickTrade) (current_price : Q) : Q :=
  match recent with
  | [] => current_price
  | _ :: _ =>
      if total_volume recent =? 0 then current_price
      else (weighted_price_sum recent / inject_Z (total_volume recent))%Q
  end.

(** Section 6, a numeric field of the command: the characters between
    the quoted key with its colon and the next comma or closing brace;
    [None] when the key or the terminator is missing. *)
Definition numeric_field (json key : string) : option string :=
  let searchKey := JSONParser.number_key key in
  let pos := find json searchKey 0 in
  if pos =? npos then None
  else
    let start := pos + Cxx.size searchKey in
    let end_ := find_first_of json ",}" start in
    if end_ =? npos then None
    else Some (String.substring (Z.to_nat start) (Z.to_nat (end_ - start)) json).

(** A string field: the characters between the quoted key with its colon
    and opening quote and the next quote. *)
Definition string_field (json key : string) : option string :=
  let searchKey := JSONParser.string_key key in
  let pos := find json searchKey 0 in
  if pos =? npos then None
  else
    let start := pos + Cxx.size searchKey in
    let end_ := find json quote_str start in
    if end_ =? npos then None
    else Some (String.substring (Z.to_nat start) (Z.to_nat (end_ - start)) json).

(** A JSON integer: an optional minus sign and digits, nothing else. *)
Fixpoint all_digits (s : string) : bool :=
  match s with
  | EmptyString => true
  | String c s' => isdigit c && all_digits s'
  end.

Definition json_integer (s : string) : bool :=
  match s with
  | EmptyString => false
  | String c s' =>
      if Ascii.eqb c "-"%char then negb (empty s') && all_digits s'
      else all_digits s
  end.

(** Section 4.5, at-most-once consumption, for one poll from [w] to [w']
    that found the command [text]: the file is removed right after the
    read, before anything else happens, and is gone afterwards. *)
Definition removed_on_read (text : string) (w w' : World) : Prop :=
  exists rest,
    new_events w w' = EvReadCommand text :: EvRemoveCommand :: rest
    /\ Forall (fun e => is_read e = false /\ is_remove e = false) rest
    /\ command_file w' = None.

(** Section 4.5, one response per command read: the poll from [w] to [w']
    wrote exactly one response. *)
Definition one_response (w w' : World) (r : TradeResponse) : Prop :=
  exists path, filter (fun e => is_response e) (new_events w w') = [EvWriteResponse path r].

(** Section 4.1, [InvalidSnapshot]: the price is not positive, or the
    high is below the low, or the price is outside [low, high], or the
    bar-over-bar change exceeds the threshold (50 percent). *)
Definition bar_change_percent (price prev : Q) : Q :=
  Qabs ((price - prev) / prev * 100).

Definition InvalidSnapshot (sc : SCStudyInterface) : Prop :=
  let price := Close sc (Index sc) in
  (price <= 0)%Q
  \/ (High sc (Index sc) < Low sc (Index sc))%Q
  \/ (price < Low sc (Index sc))%Q
  \/ (High sc (Index sc) < price)%Q
  \/ (50 < bar_change_percent price (Close sc (Index sc - 1)))%Q.

(** Section 4.6, the nominal fill price: the requested price of a Limit
    order, else the ask for a Buy and the bid for a Sell. *)
Definition nominal_fill_price (is_limit is_buy : bool) (requested : float) (bid ask : Q)
    : float :=
  if is_limit then requested else if is_buy then Finite ask else Finite bid.

End Spec.

(** ** Well-formed states and sample inputs *)

Module States.

Import Cxx Host Ticks.

(** What the C++ types guarantee of a buffer built by [TickBuffer(size)]
    with [size > 0] and filled by [AddTick]. *)
Definition wf_buffer (b : TickBuffer) : Prop :=
  0 < maxSize b < 2 ^ 63
  /\ length (buffer b) = Z.to_nat (maxSize b)
  /\ 0 <= writeIndex b < maxSize b
  /\ 0 <= sequenceCounter b < 2 ^ 16.

(** [AddTick] for each tick of a list, oldest first. *)
Definition AddTicks (ticks : list TickTrade) (b : TickBuffer) : TickBuffer :=
  fold_left (fun b t => AddTick t b) ticks b.

(** The buffer [b] holds the ticks of [history], pushed in that order into
    a new buffer: the counters count them, the last [maxSize] of them sit
    in their slots, and the slots never written still hold zeros. *)
Definition represents (history : list TickTrade) (b : TickBuffer) : Prop :=
  let pushed := Z.of_nat (length history) in
  wf_buffer b
  /\ writeIndex b = pushed mod maxSize b
  /\ sequenceCounter b = uint16 pushed
  /\ (forall j, 0 <= j < pushed -> pushed - maxSize b <= j ->
        buffer b !! Z.to_nat (j mod maxSize b) = Spec.stored history j)
  /\ (forall i, pushed <= i < maxSize b -> buffer b !! Z.to_nat i = Some zero_tick).

(** A tick with the given timestamp, price and size, the other members zero. *)
Definition tick_of (ts : Z) (p : Q) (sz : Z) : TickTrade :=
  {| timestamp_us := ts; price := p; size := sz; side := side_Unknown;
     bid := 0; ask := 0; bid_size := 0; ask_size := 0; sequence := 0;
     open := 0; high := 0; low := 0; total_volume := 0; vwap := Finite 0;
     trade_count := 0 |}.

(** Sizes as a [uint32_t] holds them. *)
Definition sizes_in_range (l : list TickTrade) : Prop :=
  Forall (fun t => 0 <= size t < 2 ^ 32) l.

(** A price that is a multiple of [2^e], such as a multiple of the tick
    size 0.25 for [e = -2]. *)
Definition on_grid (e : Z) (x : Q) : Prop := exists k : Z, (x == inject_Z k * 2 ^ e)%Q.

(** The sizes of a window weighted by the magnitudes of their prices. *)
Definition weight (recent : list TickTrade) : Q :=
  fold_right (fun t acc => (Qabs (price t) * inject_Z (size t) + acc)%Q) 0%Q recent.


(** A host snapshot: one bar with the given last price and volume, the
    given quotes, a quarter-point tick size, orders accepted with id 1. *)
Definition snapshot (price volume bid ask : Q) : SCStudyInterface :=
  {| Symbol := "NQ";
     Index := 1;
     ArraySize := 2;
     Close := fun _ => price;
     Open := fun _ => price;
     High := fun _ => price;
     Low := fun _ => price;
     Volume := fun _ => volume;
     Bid := bid;
     Ask := ask;
     TickSize := 1 # 4;
     AllowEntryWithWorkingOrders := true;
     SendOrdersToTradeService := true;
     Input_OutputPath := "C:/SierraChart/Data/ACSILOutput/";
     order_result := fun _ _ => 1;
     clock := 1700000000000000;
     uninit_sequence := 0 |}.

(** A bar with its own range: the previous close, then the close, low,
    high and volume of the current bar, with quotes 99/101. *)
Definition bar (prev price low high volume : Q) : SCStudyInterface :=
  {| Symbol := "NQ";
     Index := 1;
     ArraySize := 2;
     Close := fun i => if i =? 1 then price else prev;
     Open := fun _ => price;
     High := fun _ => high;
     Low := fun _ => low;
     Volume := fun _ => volume;
     Bid := 99;
     Ask := 101;
     TickSize := 1 # 4;
     AllowEntryWithWorkingOrders := true;
     SendOrdersToTradeService := true;
     Input_OutputPath := "C:/SierraChart/Data/ACSILOutput/";
     order_result := fun _ _ => 1;
     clock := 1700000000000000;
     uninit_sequence := 0 |}.

(** The world [w'] continues [w]: the events [evs] were appended, the
    command file and what the file system permits are as before. *)
Definition continues (w : World) (evs : list Event) (w' : World) : Prop :=
  trace w' = trace w ++ evs
  /\ command_file w' = command_file w
  /\ responses_writable w' = responses_writable w
  /\ command_removable w' = command_removable w.

(** Events that are neither a read nor a removal of the command file. *)
Definition is_output (e : Event) : Prop := is_read e = false /\ is_remove e = false.

(** A channel with the given command file, nothing written yet, and a
    file system that permits everything. *)
Definition channel_with (text : option string) : World :=
  {| command_file := text;
     command_removable := true;
     response_files := ∅;
     responses_writable := true;
     trace := [] |}.

(** The same channel while the command file cannot be deleted. *)
Definition locked_channel_with (text : option string) : World :=
  {| command_file := text;
     command_removable := false;
     response_files := ∅;
     responses_writable := true;
     trace := [] |}.

End States.

(** ** The rest of the studies: JSON escaping, symbol handling, runs of
    snapshots and the entry points of the exporters *)

Module BridgeJSON.

Import Cxx.

Definition backslash : ascii := ascii_of_nat 92.

(** The [switch] of [escapeJsonString]: the character written after a
    backslash for the seven characters it replaces, [None] for the
    [default] case, which copies the character. *)
Definition escape_letter (c : ascii) : option ascii :=
  let n := nat_of_ascii c in
  if (n =? 34)%nat then Some dquote
  else if (n =? 92)%nat then Some backslash
  else if (n =? 8)%nat then Some "b"%char
  else if (n =? 12)%nat then Some "f"%char
  else if (n =? 10)%nat then Some "n"%char
  else if (n =? 13)%nat then Some "r"%char
  else if (n =? 9)%nat then Some "t"%char
  else None.

(** [escapeJsonString] *)
Fixpoint escapeJsonString (input : string) : string :=
  match input with
  | EmptyString => EmptyString
  | String c rest =>
      match escape_letter c with
      | Some l => String backslash (String l (escapeJsonString rest))
      | None => String c (escapeJsonString rest)
      end
  end.

(** A text in which the quote, the backslash and the five control
    characters occur in escape pairs only: read from the left, a
    backslash is followed by one of the seven letters, and outside such
    a pair none of the seven characters occurs. *)
Definition is_escape_letter (l : ascii) : bool :=
  Ascii.eqb l dquote || Ascii.eqb l backslash || Ascii.eqb l "b"%char
  || Ascii.eqb l "f"%char || Ascii.eqb l "n"%char || Ascii.eqb l "r"%char
  || Ascii.eqb l "t"%char.

Fixpoint escaped_text (s : string) : bool :=
  match s with
  | EmptyString => true
  | String c rest =>
      if Ascii.eqb c backslash then
        match rest with
        | EmptyString => false
        | String l rest' => is_escape_letter l && escaped_text rest'
        end
      else
        match escape_letter c with
        | Some _ => false
        | None => escaped_text rest
        end
  end.

(** No character of [s] is one of the seven. *)
Fixpoint plain (s : string) : bool :=
  match s with
  | EmptyString => true
  | String c rest =>
      match escape_letter c with
      | Some _ => false
      | None => plain rest
      end
  end.

End BridgeJSON.

Module Exporter.

Import Cxx Host Ticks.

(** How a call ends: it returns a value, an exception leaves it, it runs
    into undefined behaviour, or the loop counter of the model runs out. *)
Inductive outcome (A : Type) : Type :=
| Done (a : A)
| Raised (e : exn)
| Undefined
| OutOfFuel.

Arguments Done {A} a.
Arguments Raised {A} e.
Arguments Undefined {A}.
Arguments OutOfFuel {A}.

Definition and_then {A B : Type} (m : outcome A) (k : A -> outcome B) : outcome B :=
  match m with
  | Done a => k a
  | Raised e => Raised e
  | Undefined => Undefined
  | OutOfFuel => OutOfFuel
  end.

Definition of_result {A : Type} (m : result A) : outcome A :=
  match m with
  | Ok a => Done a
  | Throw e => Raised e
  end.

(** [ContainsSubstring] *)
Definition ContainsSubstring (haystack needle : string) : bool :=
  negb (find haystack needle 0 =? npos).

(** [SCStringToStdString]: an [SCString] holds a C string, the
    [std::string] built from [GetChars()] has the same characters. *)
Definition SCStringToStdString (scStr : string) : string := scStr.

(** The symbol cleaning loop of [ExportTickData], [ProcessIndividualTick]
    and [ExportChartData]: a hyphen or a dot becomes an underscore. *)
Definition clean_char (c : ascii) : ascii :=
  if Ascii.eqb c "-"%char || Ascii.eqb c "."%char then "_"%char else c.

Fixpoint clean_chars (symbolChars : string) : string :=
  match symbolChars with
  | EmptyString => EmptyString
  | String c rest => String (clean_char c) (clean_chars rest)
  end.

(** [char cleanedSymbol[256]] takes a symbol of up to 255 characters and
    its terminator.  For a longer symbol the loop stops at 255 and
    [cleanedSymbol[len] = 0] writes outside the array. *)
Definition CleanSymbol (Symbol : string) : outcome string :=
  if Cxx.size Symbol <=? 255 then Done (clean_chars Symbol) else Undefined.

(** The inputs of the exporter studies that the entry points read, and
    the symbol of the chart ([sc.GetChartSymbol(sc.ChartNumber)]). *)
Record StudyInputs : Type := {
  Input_TickCapture : bool;
  Input_EnableTrading : bool;
  Input_SymbolFilter : string;
  Input_UpdateFrequency : Z;
  ChartSymbol : string
}.

(** [struct HighPrecisionTime] of the FIXED exporter. *)
Record HighPrecisionTime : Type := {
  frequency : Z;
  startTime : Z;
  initialized : bool
}.

(** [GetUnixMicroseconds] of the FIXED exporter, for the reading [now] of
    the performance counter and the seconds [unix_time] of the system
    clock: the seconds of the one and the sub-second part of the time
    the other has counted since [startTime], in [uint64_t] arithmetic. *)
Definition GetUnixMicroseconds (timer : HighPrecisionTime) (now unix_time : Z) : outcome Z :=
  if negb (initialized timer) then Done 0
  else
    let elapsed := size_t (now - startTime timer) in
    let divisor := size_t (frequency timer) in
    if divisor =? 0 then Undefined
    else
      let microseconds := size_t (elapsed * 1000000) / divisor in
      Done (size_t (size_t unix_time * 1000000 + microseconds mod 1000000)).

(** A run of a tick normaliser over the snapshots of successive
    invocations: the globals at the end and the ticks emitted, oldest first. *)
Fixpoint run (step : SCStudyInterface -> Globals -> Globals * option TickTrade)
    (scs : list SCStudyInterface) (g : Globals) : Globals * list TickTrade :=
  match scs with
  | [] => (g, [])
  | sc :: rest =>
      let '(g1, tick) := step sc g in
      let '(g2, ticks) := run step rest g1 in
      (g2, match tick with Some t => t :: ticks | None => ticks end)
  end.

End Exporter.

Module FixedStudy.

Import Cxx Host Ticks Exporter.

(** The [while] loop of [IsSymbolFiltered], from position [pos]; every
    iteration moves [pos] past a comma or to the end, so [fuel] above the
    length of the filter is never used up. *)
Fixpoint filter_loop (fuel : nat) (upperSymbol upperFilter : string) (pos : Z)
    : outcome bool :=
  match fuel with
  | O => OutOfFuel
  | S fuel' =>
      if pos <? Cxx.size upperFilter then
        let found := find_char upperFilter ","%char pos in
        let commaPos := if found =? npos then Cxx.size upperFilter else found in
        and_then (of_result (substr upperFilter pos (size_t (commaPos - pos))))
          (fun filterTerm =>
             if ContainsSubstring upperSymbol filterTerm then Done false
             else filter_loop fuel' upperSymbol upperFilter (size_t (commaPos + 1)))
      else Done true
  end.

(** [IsSymbolFiltered]: [true] when the symbol is to be skipped. *)
Definition IsSymbolFiltered (symbol filter : string) : outcome bool :=
  let filterString := SCStringToStdString filter in
  if empty filterString then Done false
  else
    let upperSymbol := ToUpperCase (SCStringToStdString symbol) in
    let upperFilter := ToUpperCase filterString in
    filter_loop (S (String.length upperFilter)) upperSymbol upperFilter 0.

(** The terms the loop tests, in its order: the pieces of the filter
    between commas.  A comma starts a further term only when a character
    follows it, so a comma at the very end adds none, while a comma at
    the start or two commas in a row give an empty term. *)
Fixpoint first_term (s : string) : string :=
  match s with
  | EmptyString => EmptyString
  | String c rest => if Ascii.eqb c ","%char then EmptyString else String c (first_term rest)
  end.

Fixpoint after_comma (s : string) : option string :=
  match s with
  | EmptyString => None
  | String c rest => if Ascii.eqb c ","%char then Some rest else after_comma rest
  end.

Fixpoint filter_terms (s : string) : list string :=
  match s with
  | EmptyString => []
  | String c rest =>
      if Ascii.eqb c ","%char then EmptyString :: filter_terms rest
      else match filter_terms rest with
           | [] => [String c EmptyString]
           | term :: terms => String c term :: terms
           end
  end.

(** [WriteHighFrequencyTick]: the file it writes and the tick in it.
    The timestamp line is built with [std::put_time] on the result of
    [std::gmtime], called on the address of [tick.timestamp_us] cast to
    a pointer to [time_t]: the microseconds are read as seconds, and
    [std::put_time] reads through the pointer [std::gmtime] returns,
    which is null outside its range. *)
Definition WriteHighFrequencyTick (outputPath symbol : string) (tick : TickTrade)
    : outcome (string * TickTrade) :=
  if gmtime_null (as_time_t (timestamp_us tick)) then Undefined
  else Done (outputPath +:+ symbol +:+ "_ticks_v3_final.json", tick).

(** [ProcessIndividualTick] *)
Definition ProcessIndividualTick (Symbol OutputPath : string) (tick : TickTrade)
    : outcome (string * TickTrade) :=
  and_then (CleanSymbol Symbol) (fun CleanSymbol =>
  WriteHighFrequencyTick OutputPath CleanSymbol tick).

(** [ExportTickData] with the symbol cleaning it starts with and the tick
    file it ends with. *)
Definition ExportTickData (sc : SCStudyInterface) (Symbol OutputPath : string) (g : Globals)
    : outcome (Globals * option (string * TickTrade)) :=
  and_then (CleanSymbol Symbol) (fun _ =>
  match Fixed.ExportTickData sc g with
  | (g1, None) => Done (g1, None)
  | (g1, Some tick) =>
      and_then (ProcessIndividualTick Symbol OutputPath tick) (fun file =>
      Done (g1, Some file))
  end).

Section Study.

Variable stof : string -> result float.

(** [scsf_MinhOSTickExporter_v3] for [sc.SetDefaults == 0]: the globals,
    the tick file written if any, and the command channel afterwards.
    The log and the subgraphs are not modelled. *)
Definition scsf_MinhOSTickExporter_v3 (sc : SCStudyInterface) (inp : StudyInputs)
    (g : Globals) (w : World)
    : outcome (Globals * option (string * TickTrade) * World) :=
  and_then (IsSymbolFiltered (ChartSymbol inp) (Input_SymbolFilter inp)) (fun filtered =>
  if filtered then Done (g, None, w)
  else
    and_then (if Input_TickCapture inp
              then ExportTickData sc (ChartSymbol inp) (Input_OutputPath sc) g
              else Done (g, None)) (fun '(g1, file) =>
    if Input_EnableTrading inp then
      and_then (of_result (Fixed.ProcessTradeCommands stof sc w)) (fun w1 =>
      Done (g1, file, w1))
    else Done (g1, file, w))).

End Study.

End FixedStudy.

Module CompleteStudy.

Import Cxx Host Ticks Exporter.

(** [IsSymbolFiltered]: [true] when the symbol is accepted. *)
Definition IsSymbolFiltered (symbol filter : string) : result bool :=
  if Cxx.size filter =? 0 then Ok true
  else
    let filterStr := SCStringToStdString filter in
    let symbolStr := SCStringToStdString symbol in
    let upperFilter := ToUpperCase filterStr in
    let upperSymbol := ToUpperCase symbolStr in
    bind (substr upperSymbol 0 3) (fun symbolRoot =>
    bind (if 2 <? Cxx.size symbolRoot then substr symbolRoot 0 2 else Ok symbolRoot)
      (fun symbolRoot =>
    Ok (ContainsSubstring upperFilter symbolRoot))).

(** [WriteHighFrequencyTick]: the file it writes and the tick in it. *)
Definition WriteHighFrequencyTick (outputPath symbol : string) (tick : TickTrade)
    : string * TickTrade :=
  (outputPath +:+ symbol +:+ ".json", tick).

(** [ProcessIndividualTick] *)
Definition ProcessIndividualTick (Symbol OutputPath : string) (tick : TickTrade)
    : outcome (string * TickTrade) :=
  and_then (CleanSymbol Symbol) (fun CleanSymbol =>
  Done (WriteHighFrequencyTick OutputPath CleanSymbol tick)).

(** [ExportTickData] with the symbol cleaning it starts with and the tick
    file it ends with. *)
Definition ExportTickData (sc : SCStudyInterface) (Symbol OutputPath : string) (g : Globals)
    : outcome (Globals * option (string * TickTrade)) :=
  and_then (CleanSymbol Symbol) (fun _ =>
  match Complete.ExportTickData sc g with
  | (g1, None) => Done (g1, None)
  | (g1, Some tick) =>
      and_then (ProcessIndividualTick Symbol OutputPath tick) (fun file =>
      Done (g1, Some file))
  end).

(** The globals of the study with [g_LastProcessTime], and the channel. *)
Record StudyState : Type := {
  globals : Globals;
  g_LastProcessTime : Z;
  channel : World
}.

(** [(uint64_t)(Input_UpdateFrequency.GetInt() * 1000)]: the product is
    an [int]; outside the range of [int] it is undefined. *)
Definition throttle_us (inp : StudyInputs) : outcome Z :=
  let product := Input_UpdateFrequency inp * 1000 in
  if (product <? INT_MIN) || (INT_MAX <? product) then Undefined
  else Done (size_t product).

Section Study.

Variable stof : string -> result float.

(** [scsf_MinhOSTickExporter_v3] for [sc.SetDefaults == 0]: the state
    afterwards and the tick file written, if any.  [clock sc] is the
    reading of [GetUnixMicroseconds]; the log, the subgraphs and the
    latency measurement are not modelled. *)
Definition scsf_MinhOSTickExporter_v3 (sc : SCStudyInterface) (inp : StudyInputs)
    (s : StudyState) : outcome (StudyState * option (string * TickTrade)) :=
  if Index sc <? 0 then Done (s, None)
  else
    let processingStartTime := clock sc in
    and_then (throttle_us inp) (fun interval =>
    if size_t (processingStartTime - g_LastProcessTime s) <? interval then Done (s, None)
    else
      let s1 := {| globals := globals s; g_LastProcessTime := processingStartTime;
                   channel := channel s |} in
      and_then (of_result (IsSymbolFiltered (ChartSymbol inp) (Input_SymbolFilter inp)))
        (fun accepted =>
      if negb accepted then Done (s1, None)
      else
        and_then (if Input_TickCapture inp
                  then ExportTickData sc (ChartSymbol inp) (Input_OutputPath sc) (globals s1)
                  else Done (globals s1, None)) (fun '(g1, file) =>
        if Input_EnableTrading inp then
          and_then (of_result (Complete.ProcessTradeCommands stof sc (Input_OutputPath sc)
                                 (channel s1))) (fun w1 =>
          Done ({| globals := g1; g_LastProcessTime := processingStartTime;
                   channel := w1 |}, file))
        else
          Done ({| globals := g1; g_LastProcessTime := processingStartTime;
                   channel := channel s1 |}, file)))).

End Study.

End CompleteStudy.

Module Samples.

Import Cxx Host Ticks States Exporter.

(** The inputs of the bridge study as [SetDefaults] leaves them, with
    the trading switch as given. *)
Definition bridge_inputs (trading : bool) : Bridge.Inputs :=
  {| Bridge.Input_UpdateInterval := 1000;
     Bridge.Input_EnableLogging := true;
     Bridge.Input_EnableTrading := trading;
     Bridge.Input_TradeCheckInterval := 500 |}.

(** The bridge study with the state [StudyState()] builds, trading
    enabled or not, no market-data file yet, a file system that permits
    everything, and the given channel. *)
Definition bridge_study (trading : bool) (w : World) : Bridge.Study :=
  {| Bridge.state :=
       {| Bridge.initialized := false; Bridge.lastUpdate := 0;
          Bridge.lastTradeCheck := 0; Bridge.packetsWritten := 0;
          Bridge.validationErrors := 0; Bridge.tradesExecuted := 0;
          Bridge.startTime := 0; Bridge.tradingEnabled := trading |};
     Bridge.market_data_file := None;
     Bridge.market_writable := true;
     Bridge.temp_writable := true;
     Bridge.market_deletable := true;
     Bridge.temp_movable := true;
     Bridge.channel := w |}.

(** The inputs of the exporters as [SetDefaults] leaves them, for the
    given chart symbol. *)
Definition exporter_inputs (symbol : string) : StudyInputs :=
  {| Input_TickCapture := true;
     Input_EnableTrading := true;
     Input_SymbolFilter := "NQ,ES,YM,RTY,VIX";
     Input_UpdateFrequency := 100;
     ChartSymbol := symbol |}.

(** A snapshot read at the given clock value. *)
Definition snapshot_at (time : Z) (price volume : Q) : SCStudyInterface :=
  {| Symbol := "NQ";
     Index := 1;
     ArraySize := 2;
     Close := fun _ => price;
     Open := fun _ => price;
     High := fun _ => price;
     Low := fun _ => price;
     Volume := fun _ => volume;
     Bid := 0;
     Ask := 0;
     TickSize := 1 # 4;
     AllowEntryWithWorkingOrders := true;
     SendOrdersToTradeService := true;
     Input_OutputPath := "C:/SierraChart/Data/ACSILOutput/";
     order_result := fun _ _ => 1;
     clock := time;
     uninit_sequence := 0 |}.

(** The same reading of the host at another place of the chart: bar
    [index] of [size] bars. *)
Definition at_bar (index size : Z) (sc : SCStudyInterface) : SCStudyInterface :=
  {| Symbol := Symbol sc;
     Index := index;
     ArraySize := size;
     Close := Close sc;
     Open := Open sc;
     High := High sc;
     Low := Low sc;
     Volume := Volume sc;
     Bid := Bid sc;
     Ask := Ask sc;
     TickSize := TickSize sc;
     AllowEntryWithWorkingOrders := AllowEntryWithWorkingOrders sc;
     SendOrdersToTradeService := SendOrdersToTradeService sc;
     Input_OutputPath := Input_OutputPath sc;
     order_result := order_result sc;
     clock := clock sc;
     uninit_sequence := uninit_sequence sc |}.

End Samples.

(** * Proofs *)

(** ** Comparisons on [Q] *)

Module QFacts.

Import Cxx.

Lemma Qltb_lt (x y : Q) : Qltb x y = true <-> (x < y)%Q.
Proof.
  unfold Qltb. rewrite negb_true_iff. split.
  - intros H. apply Qnot_le_lt. intros Hle.
    apply Qle_bool_iff in Hle. congruence.
  - intros H. destruct (Qle_bool y x) eqn:E; [|reflexivity].
    apply Qle_bool_iff in E. exfalso. apply (Qlt_not_le _ _ H E).
Qed.

Lemma Qltb_ge (x y : Q) : Qltb x y = false <-> (y <= x)%Q.
Proof.
  unfold Qltb. rewrite negb_false_iff. apply Qle_bool_iff.
Qed.

Lemma Qgtb_gt (x y : Q) : Qgtb x y = true <-> (y < x)%Q.
Proof. apply Qltb_lt. Qed.

Lemma Qgtb_le (x y : Q) : Qgtb x y = false <-> (x <= y)%Q.
Proof. apply Qltb_ge. Qed.

Lemma Qgeb_ge (x y : Q) : Qgeb x y = true <-> (y <= x)%Q.
Proof. apply Qle_bool_iff. Qed.

Lemma Qgeb_lt (x y : Q) : Qgeb x y = false <-> (x < y)%Q.
Proof.
  unfold Qgeb. split.
  - intros H. apply Qnot_le_lt. intros Hle. apply Qle_bool_iff in Hle. congruence.
  - intros H. destruct (Qle_bool y x) eqn:E; [|reflexivity].
    apply Qle_bool_iff in E. exfalso. apply (Qlt_not_le _ _ H E).
Qed.

Lemma Qle_bool_gt (x y : Q) : Qle_bool x y = false <-> (y < x)%Q.
Proof. apply (Qgeb_lt y x). Qed.

Lemma Qneb_neq (x y : Q) : Qneb x y = true <-> ~ (x == y)%Q.
Proof.
  unfold Qneb. rewrite negb_true_iff. split.
  - intros H Heq. apply Qeq_bool_iff in Heq. congruence.
  - intros H. destruct (Qeq_bool x y) eqn:E; [|reflexivity].
    apply Qeq_bool_iff in E. contradiction.
Qed.

Lemma Qneb_eq (x y : Q) : Qneb x y = false <-> (x == y)%Q.
Proof.
  unfold Qneb. rewrite negb_false_iff. apply Qeq_bool_iff.
Qed.

Lemma half (x : Q) : (x / 2 == x * (1 # 2))%Q.
Proof. reflexivity. Qed.

(** Turn every boolean comparison of the context into its proposition. *)
Ltac reflect_Q :=
  repeat match goal with
  | H : Qltb _ _ = true |- _ => apply Qltb_lt in H
  | H : Qltb _ _ = false |- _ => apply Qltb_ge in H
  | H : Qgtb _ _ = true |- _ => apply Qgtb_gt in H
  | H : Qgtb _ _ = false |- _ => apply Qgtb_le in H
  | H : Qgeb _ _ = true |- _ => apply Qgeb_ge in H
  | H : Qgeb _ _ = false |- _ => apply Qgeb_lt in H
  | H : Qle_bool _ _ = true |- _ => apply Qle_bool_iff in H
  | H : Qle_bool _ _ = false |- _ => apply Qle_bool_gt in H
  | H : Qneb _ _ = true |- _ => apply Qneb_neq in H
  | H : Qneb _ _ = false |- _ => apply Qneb_eq in H
  | H : Qeq_bool _ _ = true |- _ => apply Qeq_bool_iff in H
  | H : Qeq_bool _ _ = false |- _ => apply Qeq_bool_neq in H
  end.

End QFacts.

(** ** Rounding to binary32 *)

Module FloatFacts.

Import Cxx QFacts.

Lemma pow2_pos (e : Z) : (0 < 2 ^ e)%Q.
Proof. apply Qpower_0_lt. reflexivity. Qed.

Lemma pow2_nonzero (e : Z) : ~ (2 ^ e == 0)%Q.
Proof. pose proof (pow2_pos e). lra. Qed.

Lemma two_nonzero : ~ (2 == 0)%Q.
Proof. discriminate. Qed.

Lemma pow2_add (a b : Z) : (2 ^ (a + b) == 2 ^ a * 2 ^ b)%Q.
Proof. apply Qpower_plus, two_nonzero. Qed.

Lemma pow2_le (a b : Z) : a <= b -> (2 ^ a <= 2 ^ b)%Q.
Proof. intros H. apply Qpower_le_compat_l; [exact H|discriminate]. Qed.

Lemma pow2_lt (a b : Z) : a < b -> (2 ^ a < 2 ^ b)%Q.
Proof. intros H. apply Qpower_lt_compat_l; [exact H|reflexivity]. Qed.

Lemma pow2_inject (n : Z) : 0 <= n -> (inject_Z (2 ^ n) == 2 ^ n)%Q.
Proof. intros H. exact (Zpower_Qpower 2 n H). Qed.

(** [rne] does not cross an integer. *)
Lemma rne_le (u : Q) (n : Z) : (u <= inject_Z n)%Q -> rne u <= n.
Proof.
  intros Hu. unfold rne.
  pose proof (Qfloor_le u) as Hf. pose proof (Qlt_floor u) as Hc.
  assert (Hfn : Qfloor u <= n).
  { rewrite Zle_Qle. lra. }
  destruct (Z.eq_dec (Qfloor u) n) as [E|E].
  - assert (Hz : (u - inject_Z (Qfloor u) <= 0)%Q) by (rewrite E; lra).
    destruct (Qcompare_spec (u - inject_Z (Qfloor u)) (1 # 2)) as [H|H|H]; try lra.
    lia.
  - destruct (u - inject_Z (Qfloor u) ?= 1 # 2)%Q; [destruct (Z.even _)| |]; lia.
Qed.

Lemma rne_ge (u : Q) (n : Z) : (inject_Z n <= u)%Q -> n <= rne u.
Proof.
  intros Hu. unfold rne.
  pose proof (Qfloor_le u) as Hf. pose proof (Qlt_floor u) as Hc.
  assert (Hfn : n <= Qfloor u).
  { apply Z.lt_succ_r. rewrite Zlt_Qlt. unfold Z.succ.
    rewrite inject_Z_plus in *. lra. }
  destruct (u - inject_Z (Qfloor u) ?= 1 # 2)%Q; [destruct (Z.even _)| |]; lia.
Qed.

Lemma rne_integer (n : Z) : rne (inject_Z n) = n.
Proof.
  apply Z.le_antisymm; [apply rne_le | apply rne_ge]; lra.
Qed.

(** [ilog2] is the exponent of the leading bit. *)
Lemma ilog2_spec (x : Q) :
  ~ (x == 0)%Q -> (2 ^ ilog2 x <= Qabs x)%Q /\ (Qabs x < 2 ^ (ilog2 x + 1))%Q.
Proof.
  intros Hx. unfold ilog2.
  destruct x as [n d]. cbn [Qnum Qden].
  assert (Hn : 0 < Z.abs n).
  { destruct n; [exfalso; apply Hx; reflexivity| |]; cbn; lia. }
  set (a := Z.log2 (Z.abs n)). set (b := Z.log2 (Z.pos d)).
  destruct (Z.log2_spec (Z.abs n) Hn) as [Ha1 Ha2]. fold a in Ha1, Ha2.
  destruct (Z.log2_spec (Z.pos d) ltac:(lia)) as [Hb1 Hb2]. fold b in Hb1, Hb2.
  assert (Ha0 : 0 <= a) by apply Z.log2_nonneg.
  assert (Hb0 : 0 <= b) by apply Z.log2_nonneg.
  assert (Habs : (Qabs (n # d) == inject_Z (Z.abs n) / inject_Z (Z.pos d))%Q).
  { unfold Qabs. rewrite (Qmake_Qdiv (Z.abs n) d). reflexivity. }
  assert (Hd : (0 < inject_Z (Z.pos d))%Q) by reflexivity.
  assert (Qa1 : (2 ^ a <= inject_Z (Z.abs n))%Q)
    by (rewrite <- pow2_inject by lia; rewrite <- Zle_Qle; exact Ha1).
  assert (Qa2 : (inject_Z (Z.abs n) < 2 ^ (a + 1))%Q).
  { rewrite <- pow2_inject by lia. rewrite <- Zlt_Qlt.
    replace (a + 1) with (Z.succ a) by lia. exact Ha2. }
  assert (Qb1 : (2 ^ b <= inject_Z (Z.pos d))%Q)
    by (rewrite <- pow2_inject by lia; rewrite <- Zle_Qle; exact Hb1).
  assert (Qb2 : (inject_Z (Z.pos d) < 2 ^ (b + 1))%Q).
  { rewrite <- pow2_inject by lia. rewrite <- Zlt_Qlt.
    replace (b + 1) with (Z.succ b) by lia. exact Hb2. }
  (* |x| < 2^(a-b+1) and 2^(a-b-1) < |x| *)
  assert (Hup : (Qabs (n # d) < 2 ^ (a - b + 1))%Q).
  { rewrite Habs. apply Qlt_shift_div_r; [exact Hd|].
    replace (a - b + 1) with ((a + 1) + - b) by lia.
    rewrite pow2_add, Qpower_opp.
    pose proof (pow2_pos b) as Pb. pose proof (pow2_pos (a + 1)) as Pa.
    assert (E : (2 ^ (a + 1) * / 2 ^ b * inject_Z (Z.pos d)
                 == 2 ^ (a + 1) * (inject_Z (Z.pos d) / 2 ^ b))%Q) by (field; lra).
    rewrite E.
    assert (H1 : (1 <= inject_Z (Z.pos d) / 2 ^ b)%Q)
      by (apply Qle_shift_div_l; [exact Pb|lra]).
    nra. }
  assert (Hlow : (2 ^ (a - b - 1) < Qabs (n # d))%Q).
  { rewrite Habs. apply Qlt_shift_div_l; [exact Hd|].
    replace (a - b - 1) with (a + - (b + 1)) by lia.
    rewrite pow2_add, Qpower_opp.
    pose proof (pow2_pos (b + 1)) as Pb. pose proof (pow2_pos a) as Pa.
    assert (E : (2 ^ a * / 2 ^ (b + 1) * inject_Z (Z.pos d)
                 == 2 ^ a * (inject_Z (Z.pos d) / 2 ^ (b + 1)))%Q) by (field; lra).
    rewrite E.
    assert (H1 : (inject_Z (Z.pos d) / 2 ^ (b + 1) < 1)%Q)
      by (apply Qlt_shift_div_r; [exact Pb|lra]).
    nra. }
  destruct (Qle_bool (2 ^ (a - b)) (Qabs (n # d))) eqn:E.
  - apply Qle_bool_iff in E. split; [exact E|exact Hup].
  - apply Qle_bool_gt in E. split; [apply Qlt_le_weak; exact Hlow|].
    replace (a - b - 1 + 1) with (a - b) by lia. exact E.
Qed.


Lemma nearest32_eq (x : Q) :
  ~ (x == 0)%Q ->
  (nearest32 x == inject_Z (rne (x / 2 ^ fexp32 x)) * 2 ^ fexp32 x)%Q.
Proof.
  intros Hx. unfold nearest32.
  destruct (Qeq_bool x 0) eqn:E; [apply Qeq_bool_iff in E; contradiction|].
  apply Qred_correct.
Qed.

Lemma nearest32_zero (x : Q) : (x == 0)%Q -> nearest32 x = 0%Q.
Proof.
  intros Hx. unfold nearest32. apply Qeq_bool_iff in Hx. now rewrite Hx.
Qed.

(** Rounding does not cross a multiple of the last place. *)
Lemma grid_le (x r : Q) (n : Z) :
  ~ (x == 0)%Q -> (r == inject_Z n * 2 ^ fexp32 x)%Q -> (x <= r)%Q ->
  (nearest32 x <= r)%Q.
Proof.
  intros Hx Hr Hle. rewrite (nearest32_eq x Hx), Hr.
  pose proof (pow2_pos (fexp32 x)) as P.
  apply Qmult_le_compat_r; [|lra].
  rewrite <- Zle_Qle. apply rne_le.
  apply Qle_shift_div_r; [exact P|]. now rewrite <- Hr.
Qed.

Lemma grid_ge (x r : Q) (n : Z) :
  ~ (x == 0)%Q -> (r == inject_Z n * 2 ^ fexp32 x)%Q -> (r <= x)%Q ->
  (r <= nearest32 x)%Q.
Proof.
  intros Hx Hr Hle. rewrite (nearest32_eq x Hx), Hr.
  pose proof (pow2_pos (fexp32 x)) as P.
  apply Qmult_le_compat_r; [|lra].
  rewrite <- Zle_Qle. apply rne_ge.
  apply Qle_shift_div_l; [exact P|]. now rewrite <- Hr.
Qed.

(** A number of the format with an exponent at or above the last place
    of [x] is a multiple of that last place. *)
Lemma format_on_grid (m j e : Z) :
  e <= j -> (inject_Z m * 2 ^ j == inject_Z (m * 2 ^ (j - e)) * 2 ^ e)%Q.
Proof.
  intros H. rewrite inject_Z_mult, pow2_inject by lia.
  replace j with ((j - e) + e) at 1 by lia. rewrite pow2_add. ring.
Qed.

(** A number of the format with an exponent below the last place of [x]
    is smaller than [x] in absolute value. *)
Lemma format_below (x : Q) (m j : Z) :
  ~ (x == 0)%Q -> Z.abs m < 2 ^ 24 -> -149 <= j -> j < fexp32 x ->
  fexp32 x = ilog2 x - 23
  /\ (Qabs (inject_Z m * 2 ^ j) < 2 ^ (fexp32 x + 23))%Q
  /\ (2 ^ (fexp32 x + 23) <= Qabs x)%Q.
Proof.
  intros Hx Hm Hj Hlt.
  assert (He : fexp32 x = ilog2 x - 23) by (unfold fexp32 in *; lia).
  split; [exact He|]. split.
  - rewrite Qabs_Qmult. rewrite (Qabs_pos (2 ^ j)) by (apply Qlt_le_weak, pow2_pos).
    assert (Hq : (Qabs (inject_Z m) < 2 ^ 24)%Q).
    { change (Qabs (inject_Z m)) with (inject_Z (Z.abs m)).
      rewrite <- (pow2_inject 24) by lia. now rewrite <- Zlt_Qlt. }
    pose proof (pow2_pos j) as Pj.
    assert (Hle : (2 ^ (24 + j) <= 2 ^ (fexp32 x + 23))%Q) by (apply pow2_le; lia).
    rewrite pow2_add in Hle.
    assert (H0 : (0 <= Qabs (inject_Z m))%Q) by apply Qabs_nonneg.
    nra.
  - rewrite He. replace (ilog2 x - 23 + 23) with (ilog2 x) by lia.
    apply (ilog2_spec x Hx).
Qed.

(** Rounding to the nearest number of the format does not cross a number
    of the format. *)
Lemma no_cross_le (x r : Q) : in_format32 r -> (x <= r)%Q -> (nearest32 x <= r)%Q.
Proof.
  intros (m & j & Hr & Hm & Hj) Hle.
  destruct (Qeq_dec x 0) as [Hx|Hx].
  - rewrite (nearest32_zero x Hx). lra.
  - destruct (Z_le_gt_dec (fexp32 x) j) as [Hg|Hg].
    + apply (grid_le x r (m * 2 ^ (j - fexp32 x)) Hx); [|exact Hle].
      rewrite Hr. now apply format_on_grid.
    + destruct (format_below x m j Hx Hm Hj ltac:(lia)) as (He & Hsmall & Hbig).
      rewrite <- Hr in Hsmall.
      set (p := (2 ^ (fexp32 x + 23))%Q) in *.
      assert (Hneg : (x <= - p)%Q).
      { revert Hbig Hsmall. apply Qabs_case; apply Qabs_case; intros; lra. }
      assert (Hr' : (- p < r)%Q).
      { revert Hsmall. apply Qabs_case; intros; lra. }
      apply Qle_trans with (- p)%Q; [|lra].
      apply (grid_le x (- p) (- 2 ^ 23) Hx); [|exact Hneg].
      unfold p. rewrite Z.add_comm, pow2_add.
      rewrite inject_Z_opp, pow2_inject by lia. ring.
Qed.

Lemma no_cross_ge (x r : Q) : in_format32 r -> (r <= x)%Q -> (r <= nearest32 x)%Q.
Proof.
  intros (m & j & Hr & Hm & Hj) Hle.
  destruct (Qeq_dec x 0) as [Hx|Hx].
  - rewrite (nearest32_zero x Hx). lra.
  - destruct (Z_le_gt_dec (fexp32 x) j) as [Hg|Hg].
    + apply (grid_ge x r (m * 2 ^ (j - fexp32 x)) Hx); [|exact Hle].
      rewrite Hr. now apply format_on_grid.
    + destruct (format_below x m j Hx Hm Hj ltac:(lia)) as (He & Hsmall & Hbig).
      rewrite <- Hr in Hsmall.
      set (p := (2 ^ (fexp32 x + 23))%Q) in *.
      assert (Hpos : (p <= x)%Q).
      { revert Hbig Hsmall. apply Qabs_case; apply Qabs_case; intros; lra. }
      assert (Hr' : (r < p)%Q).
      { revert Hsmall. apply Qabs_case; intros; lra. }
      apply Qle_trans with p; [lra|].
      apply (grid_ge x p (2 ^ 23) Hx); [|exact Hpos].
      unfold p. rewrite Z.add_comm, pow2_add.
      rewrite pow2_inject by lia. ring.
Qed.

(** What rounding leaves unchanged is a number of the format. *)
Lemma nearest32_format (x : Q) : in_format32 (nearest32 x).
Proof.
  destruct (Qeq_dec x 0) as [Hx|Hx].
  - rewrite (nearest32_zero x Hx). exists 0, 0. repeat split; lia.
  - pose proof (ilog2_spec x Hx) as [Hlo Hhi].
    pose proof (pow2_pos (fexp32 x)) as P.
    set (e := fexp32 x) in *. set (u := (x / 2 ^ e)%Q).
    assert (He : ilog2 x - 23 <= e) by (unfold e, fexp32; lia).
    assert (Hu : (Qabs u < 2 ^ 24)%Q).
    { unfold u, Qdiv. rewrite Qabs_Qmult, Qabs_Qinv.
      rewrite (Qabs_pos (2 ^ e)) by lra.
      apply Qlt_shift_div_r; [exact P|].
      assert (H1 : (2 ^ (ilog2 x + 1) <= 2 ^ (24 + e))%Q) by (apply pow2_le; lia).
      rewrite (pow2_add 24 e) in H1. lra. }
    assert (Hm : Z.abs (rne u) <= 2 ^ 24).
    { assert (H1 : rne u <= 2 ^ 24).
      { apply rne_le. rewrite pow2_inject by lia.
        revert Hu. apply Qabs_case; intros; lra. }
      assert (H2 : - 2 ^ 24 <= rne u).
      { apply rne_ge. rewrite inject_Z_opp, pow2_inject by lia.
        revert Hu. apply Qabs_case; intros; lra. }
      lia. }
    assert (Hje : -149 <= e) by (unfold e, fexp32; lia).
    destruct (Z.eq_dec (Z.abs (rne u)) (2 ^ 24)) as [E|E].
    + (* rounded up to the next binade *)
      exists (rne u / 2), (e + 1). split; [|split; [|lia]].
      * rewrite (nearest32_eq x Hx). fold e. fold u.
        rewrite pow2_add.
        assert (Hev : rne u = 2 * (rne u / 2)).
        { destruct (Z.abs_spec (rne u)) as [[_ Ha]|[_ Ha]]; rewrite Ha in E.
          - rewrite E. reflexivity.
          - replace (rne u) with (- 2 ^ 24) by lia. reflexivity. }
        rewrite Hev at 1. rewrite inject_Z_mult.
        change (2 ^ 1)%Q with 2%Q. change (inject_Z 2) with 2%Q. ring.
      * destruct (Z.abs_spec (rne u)) as [[_ Ha]|[_ Ha]]; rewrite Ha in E.
        -- rewrite E. reflexivity.
        -- replace (rne u) with (- 2 ^ 24) by lia. reflexivity.
    + exists (rne u), e. split; [|split; [lia|exact Hje]].
      rewrite (nearest32_eq x Hx). reflexivity.
Qed.

Lemma is_binary32_format (x : Q) :
  is_binary32 x = true -> in_format32 x /\ (- 2 ^ 128 < x)%Q /\ (x < 2 ^ 128)%Q.
Proof.
  unfold is_binary32, round32.
  destruct (Qle_bool (2 ^ 128) (nearest32 x)) eqn:E1; [discriminate|].
  destruct (Qle_bool (nearest32 x) (- 2 ^ 128)) eqn:E2; [discriminate|].
  intros H. apply Qeq_bool_iff in H. apply Qle_bool_gt in E1, E2.
  pose proof (nearest32_format x) as (m & j & Hr & Hm & Hj).
  split; [|split; lra].
  exists m, j. split; [|split; assumption]. now rewrite <- H.
Qed.

Lemma round32_cases (x : Q) :
  (round32 x = PlusInfinity /\ (2 ^ 128 <= nearest32 x)%Q)
  \/ (round32 x = MinusInfinity /\ (nearest32 x <= - 2 ^ 128)%Q)
  \/ (round32 x = Finite (nearest32 x)
      /\ (- 2 ^ 128 < nearest32 x)%Q /\ (nearest32 x < 2 ^ 128)%Q).
Proof.
  unfold round32.
  destruct (Qle_bool (2 ^ 128) (nearest32 x)) eqn:E1.
  - left. apply Qle_bool_iff in E1. auto.
  - apply Qle_bool_gt in E1.
    destruct (Qle_bool (nearest32 x) (- 2 ^ 128)) eqn:E2.
    + right; left. apply Qle_bool_iff in E2. auto.
    + right; right. apply Qle_bool_gt in E2. auto.
Qed.

Lemma format_zero : in_format32 0.
Proof. exists 0, 0. repeat split; lia. Qed.

Lemma format_double (r : Q) : in_format32 r -> in_format32 (2 * r).
Proof.
  intros (m & j & Hr & Hm & Hj). exists m, (j + 1).
  split; [|split; [exact Hm|lia]].
  rewrite Hr, pow2_add. change (2 ^ 1)%Q with 2%Q. ring.
Qed.

Lemma format_FLT_MAX : in_format32 FLT_MAX.
Proof.
  exists (2 ^ 24 - 1), 104. split; [|split; [reflexivity|lia]].
  reflexivity.
Qed.

Lemma FLT_MAX_bound : (FLT_MAX < 2 ^ 128)%Q.
Proof. reflexivity. Qed.

(** Rounding depends on the value only, not on the fraction that denotes it. *)
Lemma ilog2_unique (x : Q) (k : Z) :
  (2 ^ k <= Qabs x)%Q -> (Qabs x < 2 ^ (k + 1))%Q -> ilog2 x = k.
Proof.
  intros Hlo Hhi.
  assert (Hx : ~ (x == 0)%Q).
  { intros E. pose proof (pow2_pos k).
    assert (E0 : (Qabs x == 0)%Q) by (rewrite E; reflexivity). lra. }
  destruct (ilog2_spec x Hx) as [Hlo' Hhi'].
  destruct (Z.lt_trichotomy (ilog2 x) k) as [H|[H|H]]; [|exact H|].
  - pose proof (pow2_le (ilog2 x + 1) k ltac:(lia)). lra.
  - pose proof (pow2_le (k + 1) (ilog2 x) ltac:(lia)). lra.
Qed.

Lemma ilog2_proper (x y : Q) : (x == y)%Q -> ~ (x == 0)%Q -> ilog2 x = ilog2 y.
Proof.
  intros E Hx. symmetry. destruct (ilog2_spec x Hx) as [Hlo Hhi].
  apply ilog2_unique; rewrite <- E; assumption.
Qed.

Lemma rne_proper (x y : Q) : (x == y)%Q -> rne x = rne y.
Proof.
  intros E. unfold rne. rewrite (Qfloor_comp x y E).
  assert (Ec : ((x - inject_Z (Qfloor y)) ?= 1 # 2)%Q = ((y - inject_Z (Qfloor y)) ?= 1 # 2)%Q).
  { apply Qcompare_comp; [rewrite E|]; reflexivity. }
  now rewrite Ec.
Qed.

Lemma nearest32_proper (x y : Q) : (x == y)%Q -> nearest32 x = nearest32 y.
Proof.
  intros E. destruct (Qeq_dec x 0) as [Hx|Hx].
  - rewrite (nearest32_zero x Hx), (nearest32_zero y); [reflexivity|]. now rewrite <- E.
  - assert (Hy : ~ (y == 0)%Q) by now rewrite <- E.
    unfold nearest32.
    destruct (Qeq_bool x 0) eqn:Ex; [apply Qeq_bool_iff in Ex; contradiction|].
    destruct (Qeq_bool y 0) eqn:Ey; [apply Qeq_bool_iff in Ey; contradiction|].
    unfold fexp32. rewrite <- (ilog2_proper x y E Hx).
    apply Qred_complete.
    rewrite (rne_proper (x / 2 ^ Z.max (ilog2 x - 23) (-149))
                        (y / 2 ^ Z.max (ilog2 x - 23) (-149))); [reflexivity|].
    apply Qdiv_comp; [exact E|reflexivity].
Qed.

Lemma round32_proper (x y : Q) : (x == y)%Q -> round32 x = round32 y.
Proof. intros E. unfold round32. now rewrite (nearest32_proper x y E). Qed.

(** Rounding a number of the format leaves it as it is. *)
Lemma round32_exact (x : Q) :
  in_format32 x -> (- 2 ^ 128 < x)%Q -> (x < 2 ^ 128)%Q ->
  exists r, round32 x = Finite r /\ (r == x)%Q.
Proof.
  intros Hf Hlo Hhi.
  assert (E : (nearest32 x == x)%Q).
  { apply Qle_antisym; [apply no_cross_le|apply no_cross_ge]; try assumption; lra. }
  destruct (round32_cases x) as [[_ H]|[[_ H]|[H _]]]; [lra|lra|].
  exists (nearest32 x). split; assumption.
Qed.

Lemma grid_bound (K e : Z) :
  Z.abs K < 2 ^ 24 -> e <= 104 -> (Qabs (inject_Z K * 2 ^ e) < 2 ^ 128)%Q.
Proof.
  intros HK He. rewrite Qabs_Qmult.
  pose proof (pow2_pos e) as P. rewrite (Qabs_pos (2 ^ e)) by lra.
  assert (HQ : (Qabs (inject_Z K) <= inject_Z (2 ^ 24 - 1))%Q).
  { change (Qabs (inject_Z K)) with (inject_Z (Z.abs K)). rewrite <- Zle_Qle. lia. }
  pose proof (pow2_le e 104 He) as P2.
  apply Qle_lt_trans with (inject_Z (2 ^ 24 - 1) * 2 ^ 104)%Q; [|reflexivity].
  apply Qmult_le_compat_nonneg; split; try lra. apply Qabs_nonneg.
Qed.

Lemma grid_exact (K e : Z) (x : Q) :
  (x == inject_Z K * 2 ^ e)%Q -> Z.abs K < 2 ^ 24 -> -149 <= e <= 104 ->
  exists r, round32 x = Finite r /\ (r == x)%Q.
Proof.
  intros Hx HK He.
  pose proof (grid_bound K e HK ltac:(lia)) as Hb. rewrite <- Hx in Hb.
  apply round32_exact.
  - exists K, e. split; [exact Hx|]. split; [exact HK|lia].
  - apply Qabs_Qlt_condition in Hb. lra.
  - apply Qabs_Qlt_condition in Hb. lra.
Qed.

(** The value of [0.0001f]. *)
Lemma epsilon_value : Complete.epsilon = Finite (13743895 # 137438953472).
Proof. vm_compute. reflexivity. Qed.

End FloatFacts.

(** ** Trade-side classification *)

Module ClassifierFacts.

Import Cxx Ticks QFacts FloatFacts.

(** With two positive quotes the FIXED classifier compares the price with
    the [float] midpoint. *)
Lemma Fixed_midpoint_rule (price bid ask lastPrice : Q) :
  (0 < bid)%Q -> (0 < ask)%Q ->
  Fixed.DetermineTradeSide price bid ask lastPrice =
    if fge (Finite price) (Fixed.midpoint bid ask) then side_Buy else side_Sell.
Proof.
  intros Hb Ha. unfold Fixed.DetermineTradeSide.
  apply Qgtb_gt in Hb, Ha. rewrite Hb, Ha. reflexivity.
Qed.

(** Without two positive quotes the FIXED classifier is the specified
    one: the last price decides. *)
Lemma Fixed_agrees_unquoted (price bid ask lastPrice : Q) :
  ~ ((0 < bid)%Q /\ (0 < ask)%Q) ->
  Fixed.DetermineTradeSide price bid ask lastPrice = Spec.Classify price bid ask lastPrice.
Proof.
  intros Hq. unfold Fixed.DetermineTradeSide, Spec.Classify.
  destruct (Qgtb bid 0) eqn:Eb, (Qgtb ask 0) eqn:Ea; cbn [andb]; try reflexivity.
  exfalso. apply Hq. split; now apply Qgtb_gt.
Qed.

(** The [float] midpoint of two positive quotes whose sum is in range is
    finite and lies on the same side of every binary32 number as the
    exact midpoint does, or on it. *)
Lemma midpoint_finite (bid ask : Q) :
  (0 < bid)%Q -> (0 < ask)%Q -> (bid + ask <= FLT_MAX)%Q ->
  exists m, Fixed.midpoint bid ask = Finite m
            /\ (forall r, in_format32 r -> ((bid + ask) / 2 <= r)%Q -> (m <= r)%Q)
            /\ (forall r, in_format32 r -> (r <= (bid + ask) / 2)%Q -> (r <= m)%Q).
Proof.
  intros Hb Ha Hsum. unfold Fixed.midpoint, fadd32.
  pose proof FLT_MAX_bound as HM.
  assert (Hs1 : (nearest32 (bid + ask) <= FLT_MAX)%Q)
    by (apply no_cross_le; [apply format_FLT_MAX|exact Hsum]).
  assert (Hs0 : (0 <= nearest32 (bid + ask))%Q)
    by (apply no_cross_ge; [apply format_zero|lra]).
  destruct (round32_cases (bid + ask)) as [[_ H]|[[_ H]|[-> _]]];
    [exfalso; lra | exfalso; assert (0 < 2 ^ 128)%Q by reflexivity; lra |].
  set (s := nearest32 (bid + ask)) in *.
  cbn [fdiv32]. change (Qeq_bool 2 0) with false. cbn iota.
  assert (Hh1 : (nearest32 (s / 2) <= FLT_MAX)%Q)
    by (apply no_cross_le; [apply format_FLT_MAX|rewrite (half s); lra]).
  assert (Hh0 : (0 <= nearest32 (s / 2))%Q)
    by (apply no_cross_ge; [apply format_zero|rewrite (half s); lra]).
  destruct (round32_cases (s / 2)) as [[_ H]|[[_ H]|[-> _]]];
    [exfalso; lra | exfalso; assert (0 < 2 ^ 128)%Q by reflexivity; lra |].
  eexists. split; [reflexivity|]. split.
  - intros r Hr Hle. rewrite half in Hle. apply no_cross_le; [exact Hr|].
    assert (Hs : (s <= 2 * r)%Q)
      by (apply no_cross_le; [now apply format_double|lra]).
    rewrite (half s). lra.
  - intros r Hr Hle. rewrite half in Hle. apply no_cross_ge; [exact Hr|].
    assert (Hs : (2 * r <= s)%Q)
      by (apply no_cross_ge; [now apply format_double|lra]).
    rewrite (half s). lra.
Qed.

(** A binary32 price at or above the exact midpoint is a Buy. *)
Lemma Fixed_buy_from_midpoint (price bid ask lastPrice : Q) :
  (0 < bid)%Q -> (0 < ask)%Q -> (bid + ask <= FLT_MAX)%Q ->
  is_binary32 price = true -> ((bid + ask) / 2 <= price)%Q ->
  Fixed.DetermineTradeSide price bid ask lastPrice = side_Buy.
Proof.
  intros Hb Ha Hsum Hp Hmid.
  rewrite (Fixed_midpoint_rule price bid ask lastPrice Hb Ha).
  destruct (midpoint_finite bid ask Hb Ha Hsum) as (m & -> & Hup & _).
  apply is_binary32_format in Hp. destruct Hp as (Hp & _).
  specialize (Hup price Hp Hmid).
  unfold fge, fle. apply Qle_bool_iff in Hup. now rewrite Hup.
Qed.

(** A price below a binary32 bid that is not above the ask is a Sell,
    whatever the sum of the quotes. *)
Lemma Fixed_sell_below_bid (price bid ask lastPrice : Q) :
  (0 < bid)%Q -> (0 < ask)%Q -> (bid <= ask)%Q ->
  is_binary32 bid = true -> (price < bid)%Q ->
  Fixed.DetermineTradeSide price bid ask lastPrice = side_Sell.
Proof.
  intros Hb Ha Hle Hf Hp.
  rewrite (Fixed_midpoint_rule price bid ask lastPrice Hb Ha).
  apply is_binary32_format in Hf. destruct Hf as (Hf & _).
  unfold Fixed.midpoint, fadd32.
  assert (Hs : (2 * bid <= nearest32 (bid + ask))%Q)
    by (apply no_cross_ge; [now apply format_double|lra]).
  destruct (round32_cases (bid + ask)) as [[-> _]|[[_ H]|[-> _]]].
  - reflexivity.
  - exfalso. assert (0 < 2 ^ 128)%Q by reflexivity. lra.
  - set (s := nearest32 (bid + ask)) in *.
    cbn [fdiv32]. change (Qeq_bool 2 0) with false. cbn iota.
    assert (Hh : (bid <= nearest32 (s / 2))%Q)
      by (apply no_cross_ge; [exact Hf|rewrite (half s); lra]).
    destruct (round32_cases (s / 2)) as [[-> _]|[[_ H]|[-> _]]].
    + reflexivity.
    + exfalso. assert (0 < 2 ^ 128)%Q by reflexivity. lra.
    + unfold fge, fle.
      destruct (Qle_bool (nearest32 (s / 2)) price) eqn:E; [|reflexivity].
      apply Qle_bool_iff in E. exfalso. lra.
Qed.

(** The COMPLETE classifier, case by case, with the thresholds as the
    [float] arithmetic gives them. *)
Lemma Complete_rule (price bid ask lastPrice : Q) :
  let at_ask := fge (Finite price) (fsub32 (Finite ask) Complete.epsilon) in
  let at_bid := fle (Finite price) (fadd32 (Finite bid) Complete.epsilon) in
  let uptick := fgt (Finite price) (fadd32 (Finite lastPrice) Complete.epsilon) in
  let downtick := flt (Finite price) (fsub32 (Finite lastPrice) Complete.epsilon) in
  let bidDistance :=
    if Qgtb price bid then fsub32 (Finite price) (Finite bid)
    else fsub32 (Finite bid) (Finite price) in
  let askDistance :=
    if Qgtb price ask then fsub32 (Finite price) (Finite ask)
    else fsub32 (Finite ask) (Finite price) in
  (at_ask = true -> Complete.DetermineTradeSide price bid ask lastPrice = side_Buy)
  /\ (at_ask = false -> at_bid = true ->
      Complete.DetermineTradeSide price bid ask lastPrice = side_Sell)
  /\ (at_ask = false -> at_bid = false ->
      ((lastPrice <= 0)%Q ->
         Complete.DetermineTradeSide price bid ask lastPrice = side_Unknown)
      /\ ((0 < lastPrice)%Q -> uptick = true ->
            Complete.DetermineTradeSide price bid ask lastPrice = side_Buy)
      /\ ((0 < lastPrice)%Q -> uptick = false -> downtick = true ->
            Complete.DetermineTradeSide price bid ask lastPrice = side_Sell)
      /\ ((0 < lastPrice)%Q -> uptick = false -> downtick = false ->
            Complete.DetermineTradeSide price bid ask lastPrice =
              if flt bidDistance askDistance then side_Sell
              else if flt askDistance bidDistance then side_Buy
              else side_Unknown)).
Proof.
  cbv zeta. unfold Complete.DetermineTradeSide.
  split; [intros ->; reflexivity|].
  split; [intros -> ->; reflexivity|].
  intros -> ->.
  split; [intros H; apply Qgtb_le in H; rewrite H; reflexivity|].
  split; [intros H ->; apply Qgtb_gt in H; rewrite H; reflexivity|].
  split; [intros H -> ->; apply Qgtb_gt in H; rewrite H; reflexivity|].
  intros H -> ->. apply Qgtb_gt in H. rewrite H. reflexivity.
Qed.

(** A price at or above a binary32 ask is a Buy. *)
Lemma Complete_buy_at_ask (price bid ask lastPrice : Q) :
  is_binary32 ask = true -> (ask <= price)%Q ->
  Complete.DetermineTradeSide price bid ask lastPrice = side_Buy.
Proof.
  intros Hf Hp. apply (proj1 (Complete_rule price bid ask lastPrice)).
  apply is_binary32_format in Hf. destruct Hf as (Hf & _ & Hmax).
  rewrite epsilon_value. unfold fsub32, fopp, fadd32.
  set (e := (13743895 # 137438953472)%Q).
  assert (He : (0 < e)%Q) by reflexivity.
  assert (Hr : (nearest32 (ask + - e) <= ask)%Q)
    by (apply no_cross_le; [exact Hf|lra]).
  destruct (round32_cases (ask + - e)) as [[_ H]|[[-> _]|[-> _]]].
  - exfalso. lra.
  - reflexivity.
  - unfold fge, fle. apply Qle_bool_iff. lra.
Qed.

(** When the first test fails, a price at or below a binary32 bid is a Sell. *)
Lemma Complete_sell_at_bid (price bid ask lastPrice : Q) :
  is_binary32 bid = true -> (price <= bid)%Q ->
  fge (Finite price) (fsub32 (Finite ask) Complete.epsilon) = false ->
  Complete.DetermineTradeSide price bid ask lastPrice = side_Sell.
Proof.
  intros Hf Hp Hask.
  apply (proj1 (proj2 (Complete_rule price bid ask lastPrice)) Hask).
  apply is_binary32_format in Hf. destruct Hf as (Hf & Hmin & _).
  rewrite epsilon_value. unfold fadd32.
  set (e := (13743895 # 137438953472)%Q).
  assert (He : (0 < e)%Q) by reflexivity.
  assert (Hr : (bid <= nearest32 (bid + e))%Q)
    by (apply no_cross_ge; [exact Hf|lra]).
  destruct (round32_cases (bid + e)) as [[-> _]|[[_ H]|[-> _]]].
  - reflexivity.
  - exfalso. lra.
  - unfold fle. apply Qle_bool_iff. lra.
Qed.

(** C5 (as amended).  FIXED: without two positive quotes the classifier
    is the specified one (the last price decides).  With two positive
    quotes the side is Buy exactly when the price is at or above the
    [float] midpoint, the binary32 value of [(bid + ask) / 2.0f], else
    Sell.  For binary32 inputs whose quote sum is in range, a price at
    or above the exact midpoint is a Buy, and so, the quotes not being
    crossed, is a price at or above the ask; a price below the bid is a
    Sell.  COMPLETE, with epsilon the [float] 0.0001f and every sum and
    difference rounded: a price at or above [ask - epsilon] is Buy, else
    at or below [bid + epsilon] is Sell; else the last price decides (up
    by more than epsilon Buy, down by more than epsilon Sell, otherwise
    the nearer quote, at equal distance Unknown), and without a positive
    last price the result is Unknown.  So a price at or above a binary32
    ask is a Buy, and a price at or below a binary32 bid is a Sell when
    the first test has not fired. *)
Theorem C5_trade_side_rules (price bid ask lastPrice : Q) :
  (~ ((0 < bid)%Q /\ (0 < ask)%Q) ->
     Fixed.DetermineTradeSide price bid ask lastPrice
     = Spec.Classify price bid ask lastPrice)
  /\ ((0 < bid)%Q -> (0 < ask)%Q ->
      Fixed.DetermineTradeSide price bid ask lastPrice
      = if fge (Finite price) (Fixed.midpoint bid ask) then side_Buy else side_Sell)
  /\ ((0 < bid)%Q -> (0 < ask)%Q -> (bid + ask <= FLT_MAX)%Q ->
      is_binary32 price = true -> ((bid + ask) / 2 <= price)%Q ->
      Fixed.DetermineTradeSide price bid ask lastPrice = side_Buy)
  /\ ((0 < bid)%Q -> (bid <= ask)%Q -> (bid + ask <= FLT_MAX)%Q ->
      is_binary32 price = true -> (ask <= price)%Q ->
      Fixed.DetermineTradeSide price bid ask lastPrice = side_Buy)
  /\ ((0 < bid)%Q -> (bid <= ask)%Q -> is_binary32 bid = true -> (price < bid)%Q ->
      Fixed.DetermineTradeSide price bid ask lastPrice = side_Sell)
  /\ (let at_ask := fge (Finite price) (fsub32 (Finite ask) Complete.epsilon) in
      let at_bid := fle (Finite price) (fadd32 (Finite bid) Complete.epsilon) in
      let uptick := fgt (Finite price) (fadd32 (Finite lastPrice) Complete.epsilon) in
      let downtick := flt (Finite price) (fsub32 (Finite lastPrice) Complete.epsilon) in
      let bidDistance :=
        if Qgtb price bid then fsub32 (Finite price) (Finite bid)
        else fsub32 (Finite bid) (Finite price) in
      let askDistance :=
        if Qgtb price ask then fsub32 (Finite price) (Finite ask)
        else fsub32 (Finite ask) (Finite price) in
      (at_ask = true -> Complete.DetermineTradeSide price bid ask lastPrice = side_Buy)
      /\ (at_ask = false -> at_bid = true ->
          Complete.DetermineTradeSide price bid ask lastPrice = side_Sell)
      /\ (at_ask = false -> at_bid = false ->
          ((lastPrice <= 0)%Q ->
             Complete.DetermineTradeSide price bid ask lastPrice = side_Unknown)
          /\ ((0 < lastPrice)%Q -> uptick = true ->
                Complete.DetermineTradeSide price bid ask lastPrice = side_Buy)
          /\ ((0 < lastPrice)%Q -> uptick = false -> downtick = true ->
                Complete.DetermineTradeSide price bid ask lastPrice = side_Sell)
          /\ ((0 < lastPrice)%Q -> uptick = false -> downtick = false ->
                Complete.DetermineTradeSide price bid ask lastPrice =
                  if flt bidDistance askDistance then side_Sell
                  else if flt askDistance bidDistance then side_Buy
                  else side_Unknown))
      /\ (is_binary32 ask = true -> (ask <= price)%Q ->
          Complete.DetermineTradeSide price bid ask lastPrice = side_Buy)
      /\ (is_binary32 bid = true -> (price <= bid)%Q -> at_ask = false ->
          Complete.DetermineTradeSide price bid ask lastPrice = side_Sell)).
Proof.
  split; [apply Fixed_agrees_unquoted|].
  split; [apply Fixed_midpoint_rule|].
  split; [apply Fixed_buy_from_midpoint|].
  split.
  { intros Hb Hle Hsum Hp Ha.
    apply Fixed_buy_from_midpoint; try assumption; [lra|]. rewrite half. lra. }
  split.
  { intros Hb Hle Hf Hp. apply Fixed_sell_below_bid; try assumption. lra. }
  cbv zeta.
  pose proof (Complete_rule price bid ask lastPrice) as (H1 & H2 & H3).
  split; [exact H1|]. split; [exact H2|]. split; [exact H3|].
  split; [apply Complete_buy_at_ask|].
  intros Hf Hp Hask. now apply Complete_sell_at_bid.
Qed.

(** An instance: quotes 99/101 and a price at the ask, in both variants. *)
Lemma C5_trade_side_rules_witness :
  Fixed.DetermineTradeSide 101 99 101 0 = side_Buy
  /\ Complete.DetermineTradeSide 101 99 101 0 = side_Buy.
Proof.
  split.
  - apply (proj1 (proj2 (proj2 (proj2 (C5_trade_side_rules 101 99 101 0))))).
    all: try (vm_compute; reflexivity). all: vm_compute; discriminate.
  - apply (proj1 (proj2 (proj2 (proj2 (proj2 (proj2 (proj2 (proj2 (proj2
             (C5_trade_side_rules 101 99 101 0)))))))))).
    all: try (vm_compute; reflexivity). all: vm_compute; discriminate.
Defined.

(** C5 as stated fails.  FIXED: with the [float]s nearest to
    1.0003 and 1.0007 as quotes and the one nearest to 1.0005 as price,
    the price is inside the spread and below the exact midpoint, a Sell
    by the rule; the sum of the quotes rounds down, the [float] midpoint
    is the price itself, and the code answers Buy.  COMPLETE, quotes
    100/102 and last price 102: the price 101.5 is above the midpoint,
    the rule says Buy, the code sees a downtick and answers Sell; with
    no quotes at all and a falling price the rule says Sell and the code
    answers Buy.  The thresholds of COMPLETE are [float]s too: with the
    ones nearest to 1.0848 and 1.0851 as quotes, to 1.0850 as price and
    to 1.0852 as last price, [ask - epsilon] rounds to the price, the
    first test fires and the answer is Buy, where the exact difference
    is above the price. *)
Lemma C5_trade_side_counterexample :
  (round32 (10005 # 10000) = Finite (4196401 # 4194304)
   /\ round32 (10003 # 10000) = Finite (8391125 # 8388608)
   /\ round32 (10007 # 10000) = Finite (524655 # 524288)
   /\ Spec.Classify (4196401 # 4194304) (8391125 # 8388608) (524655 # 524288) 0
      = side_Sell
   /\ Fixed.midpoint (8391125 # 8388608) (524655 # 524288)
      = Finite (4196401 # 4194304)
   /\ Fixed.DetermineTradeSide (4196401 # 4194304) (8391125 # 8388608)
        (524655 # 524288) 0 = side_Buy)
  /\ (Spec.Classify (203 # 2) 100 102 102 = side_Buy
      /\ Complete.DetermineTradeSide (203 # 2) 100 102 102 = side_Sell)
  /\ (Spec.Classify 99 0 0 100 = side_Sell
      /\ Complete.DetermineTradeSide 99 0 0 100 = side_Buy)
  /\ (round32 (10850 # 10000) = Finite (1137705 # 1048576)
      /\ round32 (10848 # 10000) = Finite (4549981 # 4194304)
      /\ round32 (10851 # 10000) = Finite (9102479 # 8388608)
      /\ round32 (10852 # 10000) = Finite (9103317 # 8388608)
      /\ fsub32 (Finite (9102479 # 8388608)) Complete.epsilon
         = Finite (1137705 # 1048576)
      /\ Complete.DetermineTradeSide (1137705 # 1048576) (4549981 # 4194304)
           (9102479 # 8388608) (9103317 # 8388608) = side_Buy).
Proof. repeat split; vm_compute; reflexivity. Qed.

End ClassifierFacts.

(** ** Tick normalisation ([ExportTickData]) *)

Module NormalizerFacts.

Import Cxx Host Ticks States QFacts.

Lemma uint32_id (z : Z) : 0 <= z < 2 ^ 32 -> uint32 z = z.
Proof. intros H. unfold uint32. now apply Z.mod_small. Qed.




Lemma Complete_emits_iff_test (sc : SCStudyInterface) (g : Globals) :
  is_Some (snd (Complete.ExportTickData sc g)) <-> Complete.isNewTrade sc g = true.
Proof.
  unfold Complete.ExportTickData.
  destruct (Qgtb (Bid sc) 0 && Qgtb (Ask sc) 0);
    destruct (Complete.isNewTrade sc g); cbn [snd];
    split; intros H; try reflexivity; try discriminate;
    try (eexists; reflexivity); destruct H as [? H]; discriminate.
Qed.


(** An emitted tick carries the price and the volume of the snapshot. *)
Lemma Complete_emitted_tick (sc : SCStudyInterface) (g : Globals) (t : TickTrade) :
  snd (Complete.ExportTickData sc g) = Some t ->
  price t = Close sc (Index sc) /\ size t = Complete.ActualVolume sc g.
Proof.
  unfold Complete.ExportTickData.
  destruct (Qgtb (Bid sc) 0 && Qgtb (Ask sc) 0);
    destruct (Complete.isNewTrade sc g); cbn [snd]; intros H;
    try discriminate; injection H as <-; split; reflexivity.
Qed.




End NormalizerFacts.

(** ** The circular tick buffer *)

Module TickBufferFacts.

Import Cxx Host Ticks States.

Lemma size_t_id (z : Z) : 0 <= z < 2 ^ 64 -> size_t z = z.
Proof. intros H. unfold size_t. now apply Z.mod_small. Qed.

Lemma mod_shift_neq (m j d : Z) : 0 < m -> 0 < d < m -> (j + d) mod m <> j mod m.
Proof.
  intros Hm Hd Heq.
  assert (H : ((j + d) - j) mod m = 0).
  { rewrite Zminus_mod, Heq, Z.sub_diag. apply Z.mod_0_l. lia. }
  replace (j + d - j) with d in H by lia.
  rewrite Z.mod_small in H; lia.
Qed.

Lemma wf_new (size : Z) : 0 < size < 2 ^ 63 -> wf_buffer (TickBuffer_new size).
Proof.
  intros H. unfold wf_buffer, TickBuffer_new. cbn.
  rewrite length_replicate. repeat split; lia.
Qed.

Lemma wf_AddTick (t : TickTrade) (b : TickBuffer) : wf_buffer b -> wf_buffer (AddTick t b).
Proof.
  intros (Hm & Hlen & Hw & Hs). unfold wf_buffer, AddTick, uint16. cbn.
  rewrite length_insert. repeat split; try lia.
  - apply Z.mod_pos_bound. lia.
  - apply Z.mod_pos_bound. lia.
  - apply Z.mod_pos_bound. lia.
  - apply Z.mod_pos_bound. lia.
Qed.

Lemma represents_new (size : Z) : 0 < size < 2 ^ 63 -> represents [] (TickBuffer_new size).
Proof.
  intros H. split; [now apply wf_new|].
  unfold TickBuffer_new. cbn [length buffer writeIndex maxSize sequenceCounter Z.of_nat].
  repeat split.
  - intros j Hj. lia.
  - intros i Hi. apply lookup_replicate_2. lia.
Qed.

Lemma stored_app_old (h : list TickTrade) (t : TickTrade) (j : Z) :
  0 <= j < Z.of_nat (length h) -> Spec.stored (h ++ [t]) j = Spec.stored h j.
Proof.
  intros Hj. unfold Spec.stored. rewrite lookup_app_l by lia. reflexivity.
Qed.

Lemma stored_app_new (h : list TickTrade) (t : TickTrade) :
  Spec.stored (h ++ [t]) (Z.of_nat (length h))
  = Some (set_sequence t (uint16 (Z.of_nat (length h)))).
Proof.
  unfold Spec.stored. rewrite Nat2Z.id.
  rewrite lookup_app_r by lia. now rewrite Nat.sub_diag.
Qed.

Lemma represents_AddTick (h : list TickTrade) (t : TickTrade) (b : TickBuffer) :
  represents h b -> represents (h ++ [t]) (AddTick t b).
Proof.
  intros (Hwf & Hw & Hs & Hlive & Hfree).
  pose proof Hwf as (Hm & Hlen & Hwr & Hsr).
  split; [now apply wf_AddTick|].
  rewrite length_app. cbn [length]. rewrite Nat2Z.inj_add. cbn [Z.of_nat Pos.of_succ_nat].
  set (N := Z.of_nat (length h)) in *.
  unfold AddTick. cbn [buffer writeIndex maxSize sequenceCounter].
  repeat split.
  - rewrite size_t_id by lia. rewrite Hw. apply Zplus_mod_idemp_l.
  - rewrite Hs. unfold uint16. apply Zplus_mod_idemp_l.
  - intros j Hj Hlo. destruct (Z.eq_dec j N) as [-> | Hne].
    + rewrite <- Hw. rewrite list_lookup_insert_eq by lia.
      rewrite Hs. unfold N. now rewrite stored_app_new.
    + rewrite stored_app_old by (fold N; lia).
      rewrite list_lookup_insert_ne.
      * apply Hlive; lia.
      * rewrite Hw. intros Heq. apply Z2Nat.inj in Heq;
          try (apply Z.mod_pos_bound; lia).
        apply (mod_shift_neq (maxSize b) j (N - j)); try lia.
        replace (j + (N - j)) with N by lia. lia.
  - intros i Hi. rewrite list_lookup_insert_ne.
    + apply Hfree. lia.
    + rewrite Hw, Z.mod_small by lia. lia.
Qed.

Lemma represents_AddTicks (ticks h : list TickTrade) (b : TickBuffer) :
  represents h b -> represents (h ++ ticks) (AddTicks ticks b).
Proof.
  revert h b. induction ticks as [|t ticks IH]; intros h b H.
  - now rewrite app_nil_r.
  - cbn. replace (h ++ t :: ticks) with ((h ++ [t]) ++ ticks)
      by now rewrite <- app_assoc.
    apply IH. now apply represents_AddTick.
Qed.

(** Every buffer the exporters can reach: a new one, then pushes. *)
Lemma represents_pushed (size : Z) (ticks : list TickTrade) :
  0 < size < 2 ^ 63 -> represents ticks (AddTicks ticks (TickBuffer_new size)).
Proof.
  intros H. apply (represents_AddTicks ticks [] _). now apply represents_new.
Qed.

Lemma omap_none {A B : Type} (f : A -> option B) (l : list A) :
  (forall x, x ∈ l -> f x = None) -> omap f l = [].
Proof.
  induction l as [|x l IH]; intros H; [reflexivity|].
  cbn. rewrite (H x) by left. apply IH. intros y Hy. apply H. now right.
Qed.

Lemma omap_seqZ_shift {B : Type} (f g : Z -> option B) (s1 s2 k : Z) :
  (forall i, 0 <= i < k -> f (s1 + i) = g (s2 + i)) ->
  omap f (seqZ s1 k) = omap g (seqZ s2 k).
Proof.
  intros H.
  rewrite <- (Z.add_0_r s1), <- (Z.add_0_r s2), <- !fmap_add_seqZ.
  assert (Hgen : forall l : list Z, (forall i, i ∈ l -> 0 <= i < k) ->
            omap f (Z.add s1 <$> l) = omap g (Z.add s2 <$> l)).
  { induction l as [|x l IH]; intros Hl; [reflexivity|].
    cbn. rewrite (H x) by (apply Hl; left).
    rewrite IH; [reflexivity|]. intros i Hi. apply Hl. now right. }
  apply Hgen. intros i Hi. apply elem_of_seqZ in Hi. lia.
Qed.

(** [GetRecentTicks] returns what the specification calls [Recent]: the
    valid ones among the last [min(count, maxSize)] ticks pushed, oldest
    first, each with the sequence number it was stored under. *)
Theorem GetRecentTicks_spec (h : list TickTrade) (b : TickBuffer) (count : Z) :
  represents h b -> 0 <= count ->
  GetRecentTicks count b = Spec.Recent h (maxSize b) count.
Proof.
  intros (Hwf & Hw & Hs & Hlive & Hfree) Hc.
  pose proof Hwf as (Hm & Hlen & Hwr & Hsr).
  unfold GetRecentTicks, Spec.Recent.
  set (N := Z.of_nat (length h)) in *.
  set (m := maxSize b) in *.
  replace (if count <? m then count else m) with (Z.min count m)
    by (destruct (Z.ltb_spec count m); lia).
  set (a := Z.min count m).
  set (k := Z.min a N).
  assert (Hidx : forall i, 0 <= i < a -> recent_index b a i = (N - a + i) mod m).
  { intros i Hi. unfold recent_index. fold m.
    assert (0 <= writeIndex b < m) by (unfold m; lia).
    rewrite size_t_id by lia.
    rewrite Hw. fold m.
    replace (N mod m - a + i + m) with (N mod m + (- a + i + m)) by lia.
    rewrite Zplus_mod_idemp_l.
    replace (N + (- a + i + m)) with (N - a + i + 1 * m) by lia.
    apply Z_mod_plus_full. }
  replace a with ((a - k) + k) at 1 by lia.
  rewrite seqZ_app by lia. rewrite omap_app.
  rewrite omap_none; cycle 1.
  { intros x Hx. apply elem_of_seqZ in Hx.
    rewrite Hidx by lia.
    replace ((N - a + x) mod m) with (N - a + x + m); cycle 1.
    { symmetry. rewrite <- (Z_mod_plus_full (N - a + x) 1 m).
      rewrite Z.mul_1_l. apply Z.mod_small. lia. }
    rewrite Hfree by lia. reflexivity. }
  cbn [app]. rewrite Z.add_0_l.
  apply omap_seqZ_shift. intros i Hi.
  rewrite Hidx by lia.
  replace (N - a + (a - k + i)) with (N - k + i) by lia.
  rewrite Hlive by lia.
  destruct (Spec.stored h (N - k + i)); reflexivity.
Qed.

(** [Recent] never has more than [min(n, capacity)] entries. *)
Lemma Recent_length (h : list TickTrade) (capacity n : Z) :
  0 <= n -> 0 <= capacity ->
  Z.of_nat (length (Spec.Recent h capacity n)) <= Z.min n capacity.
Proof.
  intros Hn Hc. unfold Spec.Recent.
  set (k := Z.min (Z.min n capacity) (Z.of_nat (length h))).
  assert (Hlen : forall (f : Z -> option TickTrade) (l : list Z),
            (length (omap f l) <= length l)%nat).
  { intros f l. induction l as [|x l IH]; cbn; [lia|].
    destruct (f x); cbn; lia. }
  specialize (Hlen (fun j => Spec.stored h j ≫= Spec.valid)
                (seqZ (Z.of_nat (length h) - k) k)).
  rewrite length_seqZ in Hlen. lia.
Qed.

(** Every entry of [Recent] is one of the ticks pushed, as it was stored,
    and its timestamp is positive. *)
Lemma Recent_written (h : list TickTrade) (capacity n : Z) (e : TickTrade) :
  e ∈ Spec.Recent h capacity n ->
  exists j t, h !! Z.to_nat j = Some t /\ 0 <= j
              /\ e = set_sequence t (uint16 j) /\ 0 < timestamp_us e.
Proof.
  unfold Spec.Recent. intros He.
  apply list_elem_of_omap in He. destruct He as (j & Hj & Hst).
  apply elem_of_seqZ in Hj.
  unfold Spec.stored in Hst.
  destruct (h !! Z.to_nat j) as [t|] eqn:Ht; [|discriminate].
  cbn in Hst. unfold Spec.valid in Hst.
  destruct (0 <? timestamp_us (set_sequence t (uint16 j))) eqn:Ets; [|discriminate].
  injection Hst as <-. exists j, t.
  split; [assumption|]. split; [lia|]. split; [reflexivity|].
  now apply Z.ltb_lt in Ets.
Qed.

Lemma maxSize_AddTicks (ticks : list TickTrade) (b : TickBuffer) :
  maxSize (AddTicks ticks b) = maxSize b.
Proof.
  revert b. induction ticks as [|t ticks IH]; intros b; [reflexivity|].
  cbn. now rewrite IH.
Qed.

(** [GetRecentTicks] has at most [min(count, maxSize)] entries. *)
Theorem GetRecentTicks_length (h : list TickTrade) (b : TickBuffer) (count : Z) :
  represents h b -> 0 <= count ->
  Z.of_nat (length (GetRecentTicks count b)) <= Z.min count (maxSize b).
Proof.
  intros Hrep Hc. rewrite (GetRecentTicks_spec h) by assumption.
  apply Recent_length; [assumption|].
  destruct Hrep as ((Hm & _) & _). lia.
Qed.

(** Every entry [GetRecentTicks] returns was pushed: it is one of the
    ticks of the history, with the sequence number it got. *)
Theorem GetRecentTicks_written (h : list TickTrade) (b : TickBuffer) (count : Z)
    (e : TickTrade) :
  represents h b -> 0 <= count ->
  e ∈ GetRecentTicks count b ->
  exists j t, h !! Z.to_nat j = Some t /\ 0 <= j
              /\ e = set_sequence t (uint16 j) /\ 0 < timestamp_us e.
Proof.
  intros Hrep Hc. rewrite (GetRecentTicks_spec h) by assumption.
  apply Recent_written.
Qed.

Lemma sequence_stored (h : list TickTrade) (j : Z) (e : TickTrade) :
  Spec.stored h j ≫= Spec.valid = Some e -> sequence e = uint16 j.
Proof.
  unfold Spec.stored. destruct (h !! Z.to_nat j) as [t|]; [|discriminate].
  cbn. unfold Spec.valid.
  destruct (0 <? _); [|discriminate]. now intros [= <-].
Qed.

Lemma omap_cons_case {A B : Type} (f : A -> option B) (x : A) (l : list A) :
  omap f (x :: l) = match f x with Some y => y :: omap f l | None => omap f l end.
Proof. reflexivity. Qed.

Lemma sequences_increasing (h : list TickTrade) (k : nat) (s : Z) :
  0 <= s -> s + Z.of_nat k <= 2 ^ 16 ->
  let l := sequence <$> omap (fun j => Spec.stored h j ≫= Spec.valid) (seqZ s (Z.of_nat k)) in
  Forall (fun x => s <= x < s + Z.of_nat k) l /\ StronglySorted Z.lt l.
Proof.
  revert s. induction k as [|k IH]; intros s Hs Hk; cbn zeta.
  - cbn. split; constructor.
  - rewrite seqZ_cons by lia.
    replace (Z.pred (Z.of_nat (S k))) with (Z.of_nat k) by lia.
    specialize (IH (Z.succ s) ltac:(lia) ltac:(lia)). cbn zeta in IH.
    destruct IH as [IHr IHs]. rewrite omap_cons_case.
    destruct (Spec.stored h s ≫= Spec.valid) as [e|] eqn:E.
    + rewrite fmap_cons. apply sequence_stored in E. unfold uint16 in E.
      rewrite Z.mod_small in E by lia. rewrite E. split.
      * constructor; [lia|]. eapply Forall_impl; [exact IHr|]. cbn. intros; lia.
      * constructor; [exact IHs|]. eapply Forall_impl; [exact IHr|]. cbn. intros; lia.
    + split; [|exact IHs]. eapply Forall_impl; [exact IHr|]. cbn. intros; lia.
Qed.

(** As long as no more than 65536 ticks were pushed, the entries
    [GetRecentTicks] returns carry strictly increasing sequence numbers. *)
Theorem GetRecentTicks_sorted (h : list TickTrade) (b : TickBuffer) (count : Z) :
  represents h b -> 0 <= count ->
  Z.of_nat (length h) <= 2 ^ 16 ->
  StronglySorted Z.lt (sequence <$> GetRecentTicks count b).
Proof.
  intros Hrep Hc Hlen. rewrite (GetRecentTicks_spec h) by assumption.
  unfold Spec.Recent.
  destruct Hrep as ((Hm & _) & _).
  set (N := Z.of_nat (length h)) in *.
  set (k := Z.min (Z.min count (maxSize b)) N).
  pose proof (sequences_increasing h (Z.to_nat k) (N - k)) as H.
  rewrite Z2Nat.id in H by lia.
  apply H; lia.
Qed.

(** Three ticks through a buffer of two slots. *)
Lemma GetRecentTicks_length_witness :
  let h := [tick_of 1 100 1; tick_of 2 101 1; tick_of 3 102 1] in
  Z.of_nat (length (GetRecentTicks 5 (AddTicks h (TickBuffer_new 2))))
  <= Z.min 5 (maxSize (AddTicks h (TickBuffer_new 2))).
Proof.
  cbv zeta.
  apply (GetRecentTicks_length [tick_of 1 100 1; tick_of 2 101 1; tick_of 3 102 1]);
    [apply represents_pushed; lia | lia].
Defined.

Lemma GetRecentTicks_written_witness :
  let h := [tick_of 1 100 1; tick_of 2 101 1; tick_of 3 102 1] in
  exists j t, h !! Z.to_nat j = Some t /\ 0 <= j
              /\ set_sequence (tick_of 3 102 1) 2 = set_sequence t (uint16 j)
              /\ 0 < timestamp_us (set_sequence (tick_of 3 102 1) 2).
Proof.
  cbv zeta.
  apply (GetRecentTicks_written [tick_of 1 100 1; tick_of 2 101 1; tick_of 3 102 1]
           (AddTicks [tick_of 1 100 1; tick_of 2 101 1; tick_of 3 102 1] (TickBuffer_new 2)) 1);
    [apply represents_pushed; lia | lia | vm_compute; left].
Defined.

Lemma GetRecentTicks_sorted_witness :
  let h := [tick_of 1 100 1; tick_of 2 101 1; tick_of 3 102 1] in
  StronglySorted Z.lt (sequence <$> GetRecentTicks 5 (AddTicks h (TickBuffer_new 2))).
Proof.
  cbv zeta.
  apply (GetRecentTicks_sorted [tick_of 1 100 1; tick_of 2 101 1; tick_of 3 102 1]);
    [apply represents_pushed; lia | lia | cbn; lia].
Defined.

(** C7, the sequence order: the source gives a tick a 16-bit sequence
    number (uint16_t sequence, the sequence number for ordering), so the
    65537th tick pushed gets number 0 again.  In the 20000-slot buffer of
    the exporters, after 65537 ticks the two most recent entries come
    back in chronological order with the sequence numbers 65535 and 0:
    the numbers decrease. *)
Theorem C7_sequence_number_wraps :
  sequence <$> GetRecentTicks 2
                 (AddTicks (replicate (Z.to_nat 65537) (tick_of 1 100 1))
                           (TickBuffer_new 20000))
  = [65535; 0].
Proof.
  rewrite (GetRecentTicks_spec (replicate (Z.to_nat 65537) (tick_of 1 100 1)));
    [| apply represents_pushed; lia | lia].
  rewrite maxSize_AddTicks.
  vm_compute. reflexivity.
Qed.

End TickBufferFacts.

(** ** The claims on tick emission and on the frame of a skip *)

Module NormalizerClaims.

Import Cxx Host Ticks States QFacts NormalizerFacts TickBufferFacts.






End NormalizerClaims.

(** ** The windowed VWAP *)

Module VwapFacts.

Import Cxx Host Ticks States QFacts FloatFacts NormalizerFacts TickBufferFacts.

Lemma total_volume_nonneg (l : list TickTrade) :
  sizes_in_range l -> 0 <= Spec.total_volume l.
Proof.
  induction 1 as [|t l Ht Hl IH]; cbn; [lia|].
  unfold Spec.total_volume in IH. lia.
Qed.

Lemma totalVol_acc (l : list TickTrade) (acc : Z) :
  sizes_in_range l -> 0 <= acc -> acc + Spec.total_volume l < 2 ^ 32 ->
  fold_left (fun a t => uint32 (a + size t)) l acc = acc + Spec.total_volume l.
Proof.
  intros Hl. revert acc. induction Hl as [|t l Ht Hl IH]; intros acc Hacc Hsum; cbn.
  - lia.
  - pose proof (total_volume_nonneg l Hl) as Hnn.
    cbn in Hsum. unfold Spec.total_volume in Hnn.
    rewrite uint32_id by lia. rewrite IH by (unfold Spec.total_volume; lia).
    unfold Spec.total_volume. lia.
Qed.

(** Without wrap-around the [uint32_t] total is the sum of the sizes. *)
Lemma totalVol_exact (l : list TickTrade) :
  sizes_in_range l -> Spec.total_volume l < 2 ^ 32 ->
  totalVol l = Spec.total_volume l.
Proof.
  intros Hl Hsum. unfold totalVol. rewrite totalVol_acc; auto; lia.
Qed.

(** An empty window gives the current price, exactly. *)
Lemma vwap_empty_window (n : Z) (b : TickBuffer) (CurrentPrice : Q) :
  GetRecentTicks n b = [] -> WindowedVWAP n b CurrentPrice = Finite CurrentPrice.
Proof. intros H. unfold WindowedVWAP. now rewrite H. Qed.

(** A window whose [uint32_t] total is zero gives the current price, exactly. *)
Lemma vwap_zero_total (n : Z) (b : TickBuffer) (CurrentPrice : Q) :
  totalVol (GetRecentTicks n b) = 0 -> WindowedVWAP n b CurrentPrice = Finite CurrentPrice.
Proof.
  intros H. unfold WindowedVWAP, vwap_of. rewrite H.
  now destruct (GetRecentTicks n b).
Qed.

Lemma Qabs_grid (k e : Z) : (Qabs (inject_Z k * 2 ^ e) == inject_Z (Z.abs k) * 2 ^ e)%Q.
Proof.
  rewrite Qabs_Qmult. pose proof (pow2_pos e) as P.
  rewrite (Qabs_pos (2 ^ e)) by lra. reflexivity.
Qed.

Lemma units_bound (e ka kp s : Z) :
  0 <= s ->
  (Qabs (inject_Z ka * 2 ^ e) + Qabs (inject_Z kp * 2 ^ e) * inject_Z s < 2 ^ (24 + e))%Q ->
  Z.abs ka + Z.abs kp * s < 2 ^ 24.
Proof.
  intros Hs H. rewrite !Qabs_grid, (pow2_add 24 e) in H.
  pose proof (pow2_pos e) as P.
  assert (H' : (inject_Z (Z.abs ka + Z.abs kp * s) * 2 ^ e < inject_Z (2 ^ 24) * 2 ^ e)%Q).
  { rewrite inject_Z_plus, inject_Z_mult, (pow2_inject 24) by lia.
    eapply Qle_lt_trans; [|exact H]. apply Qle_lteq. right. ring. }
  apply Qmult_lt_r in H'; [|exact P]. now rewrite <- Zlt_Qlt in H'.
Qed.

Lemma step_exact (e : Z) (a p : Q) (s : Z) :
  -149 <= e <= 104 -> on_grid e a -> on_grid e p -> 0 <= s < 2 ^ 24 ->
  (Qabs a + Qabs p * inject_Z s < 2 ^ (24 + e))%Q ->
  exists r,
    fadd32 (Finite a) (fmul32 (Finite p) (of_uint32 s)) = Finite r
    /\ (r == a + p * inject_Z s)%Q /\ on_grid e r.
Proof.
  intros He (ka & Ha) (kp & Hp) Hs Hb.
  assert (HbZ : Z.abs ka + Z.abs kp * s < 2 ^ 24).
  { apply (units_bound e); [lia|]. now rewrite <- Ha, <- Hp. }
  destruct (grid_exact s 0 (inject_Z s)) as (s' & Es & Hs');
    [change (2 ^ 0)%Q with 1%Q; ring | lia | lia |].
  unfold of_uint32. rewrite Es. cbn [fmul32].
  destruct (grid_exact (kp * s) e (p * s')) as (m & Em & Hm).
  { rewrite Hp, Hs', inject_Z_mult. ring. }
  { rewrite Z.abs_mul, (Z.abs_eq s) by lia. pose proof (Z.abs_nonneg ka). lia. }
  { exact He. }
  rewrite Em. cbn [fadd32].
  destruct (grid_exact (ka + kp * s) e (a + m)) as (r & Er & Hr).
  { rewrite Ha, Hm, Hp, Hs', inject_Z_plus, inject_Z_mult. ring. }
  { pose proof (Z.abs_triangle ka (kp * s)) as T.
    rewrite Z.abs_mul, (Z.abs_eq s) in T by lia. lia. }
  { exact He. }
  exists r. split; [exact Er|]. split.
  - rewrite Hr, Hm, Hs'. reflexivity.
  - exists (ka + kp * s). rewrite Hr, Ha, Hm, Hp, Hs', inject_Z_plus, inject_Z_mult. ring.
Qed.

Lemma weight_nonneg (l : list TickTrade) :
  Forall (fun t => 0 <= size t < 2 ^ 24) l -> (0 <= weight l)%Q.
Proof.
  induction 1 as [|t l Ht _ IH]; [cbn; lra|].
  change (weight (t :: l)) with (Qabs (price t) * inject_Z (size t) + weight l)%Q.
  pose proof (Qabs_nonneg (price t)) as Hp.
  assert (Hs : (0 <= inject_Z (size t))%Q) by (change 0%Q with (inject_Z 0); rewrite <- Zle_Qle; lia).
  pose proof (Qmult_le_0_compat _ _ Hp Hs). lra.
Qed.

Lemma weightedSum_exact_acc (e : Z) (l : list TickTrade) :
  -149 <= e <= 104 ->
  Forall (fun t => on_grid e (price t)) l ->
  Forall (fun t => 0 <= size t < 2 ^ 24) l ->
  forall a, on_grid e a -> (Qabs a + weight l < 2 ^ (24 + e))%Q ->
  exists r,
    fold_left (fun acc t => fadd32 acc (fmul32 (Finite (price t)) (of_uint32 (size t))))
      l (Finite a) = Finite r
    /\ (r == a + Spec.weighted_price_sum l)%Q.
Proof.
  intros He Hg Hs. revert Hs. induction Hg as [|t l Ht Hg IH]; intros Hs a Ha Hb.
  - exists a. split; [reflexivity|]. cbn. ring.
  - inversion Hs as [|? ? Hst Hsl]; subst. cbn [fold_left].
    pose proof (weight_nonneg l Hsl) as Hw.
    change (weight (t :: l)) with (Qabs (price t) * inject_Z (size t) + weight l)%Q in Hb.
    destruct (step_exact e a (price t) (size t) He Ha Ht Hst) as (r1 & E1 & Hr1 & G1);
      [lra|].
    rewrite E1.
    destruct (IH Hsl r1 G1) as (r & Er & Hr).
    + assert (T : (Qabs r1 <= Qabs a + Qabs (price t) * inject_Z (size t))%Q).
      { rewrite Hr1. eapply Qle_trans; [apply Qabs_triangle|].
        rewrite Qabs_Qmult.
        assert (Hsz : (0 <= inject_Z (size t))%Q)
          by (change 0%Q with (inject_Z 0); rewrite <- Zle_Qle; lia).
        rewrite (Qabs_pos (inject_Z (size t))) by exact Hsz. lra. }
      lra.
    + exists r. split; [exact Er|]. rewrite Hr, Hr1.
      change (Spec.weighted_price_sum (t :: l))
        with (price t * inject_Z (size t) + Spec.weighted_price_sum l)%Q.
      ring.
Qed.

Lemma sizes_below_total (l : list TickTrade) (n : Z) :
  sizes_in_range l -> Spec.total_volume l < n ->
  Forall (fun t => 0 <= size t < n) l.
Proof.
  intros Hl. revert n. induction Hl as [|t l Ht Hl IH]; intros n Hn; [constructor|].
  cbn in Hn. pose proof (total_volume_nonneg l Hl) as Hnn.
  unfold Spec.total_volume in Hnn.
  constructor; [lia|]. apply IH. unfold Spec.total_volume. lia.
Qed.

(** While the prices of the window are multiples of a power of two (a
    tick size such as 0.25) and the sizes, weighted by the prices in that
    unit, add up to less than 2^24, no [float] operation of the VWAP
    block rounds before the division: the VWAP is the volume-weighted
    mean of the window, rounded once to binary32. *)
Theorem vwap_single_rounding (recentTicks : list TickTrade) (CurrentPrice : Q) (e : Z) :
  -149 <= e <= 104 ->
  sizes_in_range recentTicks ->
  Forall (fun t => on_grid e (price t)) recentTicks ->
  (weight recentTicks < 2 ^ (24 + e))%Q ->
  0 < Spec.total_volume recentTicks < 2 ^ 24 ->
  vwap_of recentTicks CurrentPrice = round32 (Spec.WindowedVWAP recentTicks CurrentPrice).
Proof.
  intros He Hsz Hg Hw Htot.
  assert (Htv : totalVol recentTicks = Spec.total_volume recentTicks)
    by (apply totalVol_exact; [exact Hsz|lia]).
  pose proof (sizes_below_total recentTicks (2 ^ 24) Hsz ltac:(lia)) as Hs24.
  destruct (weightedSum_exact_acc e recentTicks He Hg Hs24 0) as (ws & Ews & Hws).
  { exists 0. ring. }
  { change (Qabs 0) with 0%Q. lra. }
  destruct (grid_exact (Spec.total_volume recentTicks) 0
              (inject_Z (Spec.total_volume recentTicks))) as (tv & Etv & Htv');
    [change (2 ^ 0)%Q with 1%Q; ring | lia | lia |].
  unfold vwap_of, Spec.WindowedVWAP.
  destruct recentTicks as [|t l]; [cbn in Htot; lia|].
  rewrite Htv. destruct (Z.ltb_spec 0 (Spec.total_volume (t :: l))); [|lia].
  destruct (Z.eqb_spec (Spec.total_volume (t :: l)) 0); [lia|].
  unfold weightedSum. rewrite Ews. unfold of_uint32. rewrite Etv. cbn [fdiv32].
  assert (Hnz : ~ (tv == 0)%Q).
  { rewrite Htv'. intros E. unfold Qeq, inject_Z in E. cbn [Qnum Qden] in E. lia. }
  destruct (Qeq_bool tv 0) eqn:E0; [apply Qeq_bool_iff in E0; contradiction|].
  apply round32_proper. rewrite Hws, Htv'. apply Qdiv_comp; [ring|reflexivity].
Qed.

(** Two ticks at 23000.25 and 23000.50, in units of 0.25. *)
Lemma vwap_single_rounding_witness :
  vwap_of [tick_of 1 (2300025 # 100) 37; tick_of 2 (230005 # 10) 5] 0
  = round32 (Spec.WindowedVWAP [tick_of 1 (2300025 # 100) 37; tick_of 2 (230005 # 10) 5] 0).
Proof.
  apply (vwap_single_rounding _ 0 (-2)).
  - lia.
  - repeat constructor; cbn; lia.
  - repeat constructor; cbn.
    + exists 92001. reflexivity.
    + exists 92002. reflexivity.
  - reflexivity.
  - cbn. lia.
Defined.

(** The mean itself is a [float] computation: over 200 ticks of 37
    contracts at 23000.25 the accumulated sum is rounded at every step,
    and the quotient is 23000.224609375, not the common price. *)
Lemma vwap_is_rounded :
  vwap_of (replicate 200 (tick_of 1 (2300025 # 100) 37)) 0
  = Finite (11776115 # 512)
  /\ (Spec.WindowedVWAP (replicate 200 (tick_of 1 (2300025 # 100) 37)) 0
      == 2300025 # 100)%Q
  /\ is_binary32 (2300025 # 100) = true.
Proof. split; [|split]; vm_compute; reflexivity. Qed.


End VwapFacts.

(** ** Snapshot validation in the bridge study *)

Module ValidationFacts.

Import Cxx Host States QFacts.

Section Study.

Variable atof : string -> float.

Ltac pick := first [assumption | left; pick | right; pick].

Ltac contra :=
  match goal with
  | H1 : (?a < ?b)%Q, H2 : (?b <= ?a)%Q |- _ => exact (Qlt_not_le _ _ H1 H2)
  | _ => lia
  end.

(** What [isValidData] rejects. *)
Lemma isValidData_false_iff (sc : SCStudyInterface) :
  Bridge.isValidData sc = false <->
  (Close sc (Index sc) <= 0)%Q
  \/ (Close sc (Index sc) < Bridge.MIN_VALID_PRICE)%Q
  \/ (Volume sc (Index sc) < 0)%Q
  \/ (High sc (Index sc) < Low sc (Index sc))%Q
  \/ (Close sc (Index sc) < Low sc (Index sc))%Q
  \/ (High sc (Index sc) < Close sc (Index sc))%Q
  \/ (0 < Index sc
      /\ (0 < Close sc (Index sc - 1))%Q
      /\ (Bridge.MAX_PRICE_CHANGE_PERCENT
          < Bridge.changePercent (Close sc (Index sc)) (Close sc (Index sc - 1)))%Q).
Proof.
  unfold Bridge.isValidData.
  destruct (Qle_bool (Close sc (Index sc)) 0) eqn:E1; cbn [orb];
    [apply Qle_bool_iff in E1; split; [intros _; pick | reflexivity]
    | apply Qle_bool_gt in E1].
  destruct (Qltb (Close sc (Index sc)) Bridge.MIN_VALID_PRICE) eqn:E2;
    [apply Qltb_lt in E2; split; [intros _; pick | reflexivity]
    | apply Qltb_ge in E2].
  destruct (Qltb (Volume sc (Index sc)) 0) eqn:E3;
    [apply Qltb_lt in E3; split; [intros _; pick | reflexivity]
    | apply Qltb_ge in E3].
  destruct (Qltb (High sc (Index sc)) (Low sc (Index sc))) eqn:E4;
    [apply Qltb_lt in E4; split; [intros _; pick | reflexivity]
    | apply Qltb_ge in E4].
  destruct (Qltb (Close sc (Index sc)) (Low sc (Index sc))) eqn:E5; cbn [orb];
    [apply Qltb_lt in E5; split; [intros _; pick | reflexivity]
    | apply Qltb_ge in E5].
  destruct (Qgtb (Close sc (Index sc)) (High sc (Index sc))) eqn:E6;
    [apply Qgtb_gt in E6; split; [intros _; pick | reflexivity]
    | apply Qgtb_le in E6].
  destruct (0 <? Index sc) eqn:E7; cbn [andb];
    [apply Z.ltb_lt in E7 | apply Z.ltb_ge in E7].
  - destruct (Qgtb (Close sc (Index sc - 1)) 0) eqn:E8; cbn [andb];
      [apply Qgtb_gt in E8 | apply Qgtb_le in E8].
    + destruct (Qgtb _ Bridge.MAX_PRICE_CHANGE_PERCENT) eqn:E9;
        [apply Qgtb_gt in E9 | apply Qgtb_le in E9].
      * split; [intros _; do 6 right; auto | reflexivity].
      * split; [discriminate|].
        intros [H|[H|[H|[H|[H|[H|(_ & _ & H)]]]]]]; exfalso; contra.
    + split; [discriminate|].
      intros [H|[H|[H|[H|[H|[H|(_ & H & _)]]]]]]; exfalso; contra.
  - split; [discriminate|].
    intros [H|[H|[H|[H|[H|[H|(H & _ & _)]]]]]]; exfalso; contra.
Qed.

(** A rejected snapshot: the study counts a validation error, records the
    time of the attempt, and touches nothing else. *)
Lemma rejected_snapshot_frame (sc : SCStudyInterface) (inp : Bridge.Inputs) (s : Bridge.Study) :
  1 <= Index sc -> Index sc = ArraySize sc - 1 ->
  Bridge.update_due sc inp (Bridge.state s) = true ->
  Bridge.isValidData sc = false ->
  let s' := Bridge.scsf_MinhOSBridgeStudy atof sc inp s in
  Bridge.market_data_file s' = Bridge.market_data_file s
  /\ Bridge.channel s' = Bridge.channel s
  /\ Bridge.packetsWritten (Bridge.state s') = Bridge.packetsWritten (Bridge.state s)
  /\ Bridge.tradesExecuted (Bridge.state s') = Bridge.tradesExecuted (Bridge.state s)
  /\ Bridge.validationErrors (Bridge.state s') = Bridge.validationErrors (Bridge.state s) + 1
  /\ Bridge.lastUpdate (Bridge.state s') = uint32 (clock sc).
Proof.
  intros Hidx Hlast Hdue Hinv. cbv zeta.
  unfold Bridge.scsf_MinhOSBridgeStudy.
  destruct (Z.ltb_spec (Index sc) 1); [lia|].
  assert (Heq : (Index sc =? ArraySize sc - 1) = true) by now apply Z.eqb_eq.
  rewrite Heq. cbn [negb].
  assert (Hdue' : Bridge.update_due sc inp
            (Bridge.state
               (Bridge.with_state
                  (Bridge.set_tradingEnabled (Bridge.Input_EnableTrading inp)
                     (Bridge.state
                        (Bridge.with_state
                           (Bridge.initialize sc inp (Bridge.state s)) s)))
                  (Bridge.with_state (Bridge.initialize sc inp (Bridge.state s)) s)))
            = true).
  { unfold Bridge.update_due in *. cbn [Bridge.state Bridge.with_state
      Bridge.set_tradingEnabled Bridge.lastUpdate].
    unfold Bridge.initialize.
    destruct (Bridge.initialized (Bridge.state s)); exact Hdue. }
  rewrite Hdue', Hinv. cbn [negb].
  cbn [Bridge.with_state Bridge.state Bridge.market_data_file Bridge.channel
       Bridge.incr_validationErrors Bridge.set_lastUpdate Bridge.set_tradingEnabled
       Bridge.packetsWritten Bridge.tradesExecuted Bridge.validationErrors
       Bridge.lastUpdate].
  unfold Bridge.initialize.
  destruct (Bridge.initialized (Bridge.state s)); repeat split; reflexivity.
Qed.

(** C9 (as amended).  [isValidData] rejects a snapshot if and only if the
    price is at most 0 or below 0.01 (MIN_VALID_PRICE), or the volume is
    negative, or the high is below the low, or the price is outside
    [low, high], or there is a previous bar with a positive close and the
    change from it exceeds 50 percent.  When the study rejects a snapshot
    the market-data file and the command channel are left as they were
    and no packet is counted; the study only counts a validation error
    and records the time of the attempt. *)
Theorem C9_invalid_snapshot (sc : SCStudyInterface) (inp : Bridge.Inputs) (s : Bridge.Study) :
  (Bridge.isValidData sc = false <->
     (Close sc (Index sc) <= 0)%Q
     \/ (Close sc (Index sc) < Bridge.MIN_VALID_PRICE)%Q
     \/ (Volume sc (Index sc) < 0)%Q
     \/ (High sc (Index sc) < Low sc (Index sc))%Q
     \/ (Close sc (Index sc) < Low sc (Index sc))%Q
     \/ (High sc (Index sc) < Close sc (Index sc))%Q
     \/ (0 < Index sc
         /\ (0 < Close sc (Index sc - 1))%Q
         /\ (Bridge.MAX_PRICE_CHANGE_PERCENT
             < Bridge.changePercent (Close sc (Index sc)) (Close sc (Index sc - 1)))%Q))
  /\ (1 <= Index sc -> Index sc = ArraySize sc - 1 ->
      Bridge.update_due sc inp (Bridge.state s) = true ->
      Bridge.isValidData sc = false ->
      let s' := Bridge.scsf_MinhOSBridgeStudy atof sc inp s in
      Bridge.market_data_file s' = Bridge.market_data_file s
      /\ Bridge.channel s' = Bridge.channel s
      /\ Bridge.packetsWritten (Bridge.state s') = Bridge.packetsWritten (Bridge.state s)
      /\ Bridge.tradesExecuted (Bridge.state s') = Bridge.tradesExecuted (Bridge.state s)
      /\ Bridge.validationErrors (Bridge.state s')
         = Bridge.validationErrors (Bridge.state s) + 1
      /\ Bridge.lastUpdate (Bridge.state s') = uint32 (clock sc)).
Proof.
  split.
  - apply isValidData_false_iff.
  - apply rejected_snapshot_frame.
Qed.

End Study.

(** A bar that closes at 80 after a close at 40 (a change of 100 percent)
    is rejected. *)
Lemma C9_invalid_snapshot_witness :
  Bridge.isValidData (bar 40 80 70 90 10) = false.
Proof.
  apply (proj1 (C9_invalid_snapshot (fun _ => Finite 0) (bar 40 80 70 90 10)
                  {| Bridge.Input_UpdateInterval := 1000; Bridge.Input_EnableLogging := false;
                     Bridge.Input_EnableTrading := false;
                     Bridge.Input_TradeCheckInterval := 500 |}
                  {| Bridge.state :=
                       {| Bridge.initialized := false; Bridge.lastUpdate := 0;
                          Bridge.lastTradeCheck := 0; Bridge.packetsWritten := 0;
                          Bridge.validationErrors := 0; Bridge.tradesExecuted := 0;
                          Bridge.startTime := 0; Bridge.tradingEnabled := false |};
                     Bridge.market_data_file := None;
                     Bridge.market_writable := true;
                     Bridge.temp_writable := true;
                     Bridge.market_deletable := true;
                     Bridge.temp_movable := true;
                     Bridge.channel := channel_with None |})).
  do 6 right. repeat split; vm_compute; reflexivity.
Defined.

(** C9 as stated fails.  A bar closing at 1/128 inside its range
    [1/256, 1/64], unchanged from the previous close, meets none of the
    listed conditions, and [isValidData] rejects it: the price is below
    MIN_VALID_PRICE.  So does a bar closing at 100 inside [99, 101] with
    volume -1. *)
Lemma C9_invalid_snapshot_counterexample :
  (Bridge.isValidData (bar (1 # 128) (1 # 128) (1 # 256) (1 # 64) 1) = false
   /\ ~ Spec.InvalidSnapshot (bar (1 # 128) (1 # 128) (1 # 256) (1 # 64) 1))
  /\ (Bridge.isValidData (bar 100 100 99 101 (-1)) = false
      /\ ~ Spec.InvalidSnapshot (bar 100 100 99 101 (-1))).
Proof.
  split; split; try (vm_compute; reflexivity);
    unfold Spec.InvalidSnapshot; cbv zeta;
    intros [H|[H|[H|[H|H]]]]; vm_compute in H;
    solve [discriminate | apply H; reflexivity].
Qed.

End ValidationFacts.

(** ** Order construction *)

Module ExecutorFacts.

Import Cxx Host States QFacts.

Lemma validated_true (sc : SCStudyInterface) (cmd : Bridge.TradeCommand) :
  Bridge.validated sc cmd = true ->
  AllowEntryWithWorkingOrders sc = true
  /\ SendOrdersToTradeService sc = true
  /\ negb (empty (Bridge.symbol cmd))
       && negb (CompareNoCase_eq (Symbol sc) (c_str (Bridge.symbol cmd))) = false
  /\ (Bridge.quantity cmd <=? 0) = false
  /\ (Bridge.MAX_POSITION_SIZE <? Bridge.quantity cmd) = false
  /\ Qle_bool (Ask sc) 0 || Qle_bool (Bid sc) 0 = false.
Proof.
  unfold Bridge.validated. rewrite !andb_true_iff.
  intros ((((((Ha & Hs) & Hsym) & Hq) & Hmax) & Hask) & Hbid).
  repeat split; try assumption.
  - destruct (empty (Bridge.symbol cmd)); cbn in *; [reflexivity|].
    now rewrite Hsym.
  - apply Z.ltb_lt in Hq. apply Z.leb_gt. lia.
  - apply Z.leb_le in Hmax. apply Z.ltb_ge. lia.
  - unfold Qgtb, Qltb in Hask, Hbid. apply negb_true_iff in Hask, Hbid.
    now rewrite Hask, Hbid.
Qed.

(** A validated Buy goes to [BuyEntry] and its fill price is the ask. *)
Lemma executeTrade_buy (sc : SCStudyInterface) (cmd : Bridge.TradeCommand)
    (fillPrice : float) (w : World) :
  Bridge.validated sc cmd = true -> Bridge.action cmd = "BUY"%string ->
  Bridge.executeTrade sc cmd fillPrice w
  = (order_result sc BuyEntry (Bridge.order_of cmd), Finite (Ask sc),
     emit (EvHostOrder BuyEntry (Bridge.order_of cmd)
             (order_result sc BuyEntry (Bridge.order_of cmd))) w).
Proof.
  intros Hv Hact. apply validated_true in Hv.
  destruct Hv as (Ha & Hs & Hsym & Hq & Hmax & Hquote).
  unfold Bridge.executeTrade.
  rewrite Ha, Hs, Hsym, Hq, Hmax, Hquote, Hact. reflexivity.
Qed.

(** A validated Sell goes to [SellEntry] and its fill price is the bid. *)
Lemma executeTrade_sell (sc : SCStudyInterface) (cmd : Bridge.TradeCommand)
    (fillPrice : float) (w : World) :
  Bridge.validated sc cmd = true -> Bridge.action cmd = "SELL"%string ->
  Bridge.executeTrade sc cmd fillPrice w
  = (order_result sc SellEntry (Bridge.order_of cmd), Finite (Bid sc),
     emit (EvHostOrder SellEntry (Bridge.order_of cmd)
             (order_result sc SellEntry (Bridge.order_of cmd))) w).
Proof.
  intros Hv Hact. apply validated_true in Hv.
  destruct Hv as (Ha & Hs & Hsym & Hq & Hmax & Hquote).
  unfold Bridge.executeTrade.
  rewrite Ha, Hs, Hsym, Hq, Hmax, Hquote, Hact. reflexivity.
Qed.

(** A validated command whose action is neither BUY nor SELL, letter for
    letter, reaches no host call: the two tests on the action have no
    [else] branch, and the order id stays 0. *)
Lemma executeTrade_other (sc : SCStudyInterface) (cmd : Bridge.TradeCommand)
    (fillPrice : float) (w : World) :
  Bridge.validated sc cmd = true ->
  Bridge.action cmd <> "BUY"%string -> Bridge.action cmd <> "SELL"%string ->
  Bridge.executeTrade sc cmd fillPrice w
  = (0, if Bridge.is_limit cmd then Bridge.price cmd else Finite (Bid sc), w).
Proof.
  intros Hv Hb Hs. apply validated_true in Hv.
  destruct Hv as (Ha & Hse & Hsym & Hq & Hmax & Hquote).
  apply String.eqb_neq in Hb, Hs.
  unfold Bridge.executeTrade.
  rewrite Ha, Hse, Hsym, Hq, Hmax, Hquote, Hb, Hs. reflexivity.
Qed.

(** A command that fails a check reaches no host call. *)
Lemma executeTrade_not_validated (sc : SCStudyInterface) (cmd : Bridge.TradeCommand)
    (fillPrice : float) (w : World) :
  Bridge.validated sc cmd = false ->
  Bridge.executeTrade sc cmd fillPrice w = (0, fillPrice, w).
Proof.
  unfold Bridge.validated, Bridge.executeTrade.
  destruct (AllowEntryWithWorkingOrders sc); cbn [negb andb]; [|reflexivity].
  destruct (SendOrdersToTradeService sc); cbn [negb andb]; [|reflexivity].
  destruct (empty (Bridge.symbol cmd)); cbn [negb andb orb].
  - destruct (Z.ltb_spec 0 (Bridge.quantity cmd)), (Z.leb_spec (Bridge.quantity cmd) 0);
      try lia; cbn [andb]; [|reflexivity].
    destruct (Z.leb_spec (Bridge.quantity cmd) Bridge.MAX_POSITION_SIZE),
             (Z.ltb_spec Bridge.MAX_POSITION_SIZE (Bridge.quantity cmd));
      try lia; cbn [andb]; [|reflexivity].
    unfold Qgtb, Qltb.
    destruct (Qle_bool (Ask sc) 0); cbn [negb andb orb]; [reflexivity|].
    destruct (Qle_bool (Bid sc) 0); cbn [negb andb orb]; [reflexivity|discriminate].
  - destruct (CompareNoCase_eq (Symbol sc) (c_str (Bridge.symbol cmd)));
      cbn [negb andb orb]; [|reflexivity].
    destruct (Z.ltb_spec 0 (Bridge.quantity cmd)), (Z.leb_spec (Bridge.quantity cmd) 0);
      try lia; cbn [andb]; [|reflexivity].
    destruct (Z.leb_spec (Bridge.quantity cmd) Bridge.MAX_POSITION_SIZE),
             (Z.ltb_spec Bridge.MAX_POSITION_SIZE (Bridge.quantity cmd));
      try lia; cbn [andb]; [|reflexivity].
    unfold Qgtb, Qltb.
    destruct (Qle_bool (Ask sc) 0); cbn [negb andb orb]; [reflexivity|].
    destruct (Qle_bool (Bid sc) 0); cbn [negb andb orb]; [reflexivity|discriminate].
Qed.

(** The FIXED executor: an accepted Buy or Sell is submitted once, as the
    order [Fixed.order_of] builds, and answered once. *)
Lemma Fixed_ExecuteTrade_submits (sc : SCStudyInterface) (symbol side : string)
    (quantity : Z) (price : float) (orderType : string) (w : World) (bs : buy_sell) :
  0 < quantity ->
  fle price (Finite 0) && negb (CompareNoCase_eq orderType "MARKET") = false ->
  (CompareNoCase_eq side "BUY" = true /\ bs = BSE_BUY)
  \/ (CompareNoCase_eq side "BUY" = false /\ CompareNoCase_eq side "SELL" = true
      /\ bs = BSE_SELL) ->
  Fixed.ExecuteTrade sc symbol side quantity price orderType w
  = Fixed.submit_order sc
      (Fixed.order_of quantity price orderType bs ("MINH_" +:+ decimal (clock sc)))
      ("MINH_" +:+ decimal (clock sc)) w.
Proof.
  intros Hq Hp Hside. unfold Fixed.ExecuteTrade.
  destruct (Z.leb_spec quantity 0); [lia|]. rewrite Hp.
  destruct Hside as [(Hb & ->) | (Hb & Hs & ->)]; rewrite Hb; [reflexivity|].
  rewrite Hs. reflexivity.
Qed.

(** The symbol of a command is compared as a C string: what follows a
    NUL is not seen, and the symbol NQ, NUL, X passes for the chart NQ. *)
Lemma validated_symbol_cut :
  Bridge.validated (snapshot 100 5 99 101)
    {| Bridge.command_id := "c1"; Bridge.action := "BUY";
       Bridge.symbol := String "N" (String "Q" (String Ascii.zero "X"));
       Bridge.quantity := 2; Bridge.price := Finite 0; Bridge.order_type := "MARKET" |}
  = true.
Proof. reflexivity. Qed.

(** C8 (as amended).  Bridge: a command that passes the checks of
    [executeTrade] and whose action is BUY, letter for letter, is handed
    to [BuyEntry] and the fill price recorded is the current ask; one
    whose action is SELL is handed to [SellEntry] and the fill price is
    the current bid; with any other action no order reaches the host and
    the order id returned is 0.  The order handed over is a market order
    for the quantity of the command whatever its order type (the type is
    forced to market), also when the command is a LIMIT with a positive
    price, whose requested price is only carried in Price1.  FIXED: a
    Buy or Sell (in any letter case) for a positive quantity, whose
    price is not at or below 0 unless the order type is MARKET, is
    submitted once through [SubmitNewOrder]; a LIMIT command (in any
    letter case) as a limit order carrying the requested price, any
    other as a market order; the responses of this variant record no
    fill price. *)
Theorem C8_order_construction (sc : SCStudyInterface) (cmd : Bridge.TradeCommand)
    (fillPrice : float) (w : World)
    (symbol side orderType : string) (quantity : Z) (price : float) (bs : buy_sell) :
  (Bridge.validated sc cmd = true ->
     let order := Bridge.order_of cmd in
     (Bridge.action cmd = "BUY"%string ->
        Bridge.executeTrade sc cmd fillPrice w
        = (order_result sc BuyEntry order, Finite (Ask sc),
           emit (EvHostOrder BuyEntry order (order_result sc BuyEntry order)) w))
     /\ (Bridge.action cmd = "SELL"%string ->
           Bridge.executeTrade sc cmd fillPrice w
           = (order_result sc SellEntry order, Finite (Bid sc),
              emit (EvHostOrder SellEntry order (order_result sc SellEntry order)) w))
     /\ (Bridge.action cmd <> "BUY"%string -> Bridge.action cmd <> "SELL"%string ->
           fst (fst (Bridge.executeTrade sc cmd fillPrice w)) = 0
           /\ snd (Bridge.executeTrade sc cmd fillPrice w) = w)
     /\ OrderType order = SCT_ORDERTYPE_MARKET
     /\ OrderQuantity order = Bridge.quantity cmd
     /\ Price1 order = (if Bridge.is_limit cmd then Bridge.price cmd else Finite 0))
  /\ (0 < quantity ->
      fle price (Finite 0) && negb (CompareNoCase_eq orderType "MARKET") = false ->
      (CompareNoCase_eq side "BUY" = true /\ bs = BSE_BUY)
      \/ (CompareNoCase_eq side "BUY" = false /\ CompareNoCase_eq side "SELL" = true
          /\ bs = BSE_SELL) ->
      let orderId := ("MINH_" +:+ decimal (clock sc))%string in
      let order := Fixed.order_of quantity price orderType bs orderId in
      Fixed.ExecuteTrade sc symbol side quantity price orderType w
      = Fixed.submit_order sc order orderId w
      /\ filter (fun e => is_order e) (new_events w (Fixed.submit_order sc order orderId w))
         = [EvHostOrder SubmitNewOrder order (order_result sc SubmitNewOrder order)]
      /\ OrderQuantity order = quantity
      /\ BuySell order = bs
      /\ (CompareNoCase_eq orderType "LIMIT" = true ->
            OrderType order = SCT_ORDERTYPE_LIMIT /\ Price1 order = price)
      /\ (CompareNoCase_eq orderType "LIMIT" = false ->
            OrderType order = SCT_ORDERTYPE_MARKET)
      /\ Forall (fun e => match e with
                          | EvWriteResponse _ r => resp_fill_price r = None
                          | _ => True
                          end)
           (new_events w (Fixed.submit_order sc order orderId w))).
Proof.
  split.
  - intros Hv. cbv zeta.
    split; [now apply executeTrade_buy|].
    split; [now apply executeTrade_sell|].
    split; [|repeat split].
    intros Hb Hs. rewrite (executeTrade_other sc cmd fillPrice w Hv Hb Hs).
    split; reflexivity.
  - intros Hq Hp Hside. cbv zeta.
    split; [now apply Fixed_ExecuteTrade_submits|].
    split.
    { unfold Fixed.submit_order, submit, new_events, Fixed.WriteTradeResponse,
        write_response_file, emit.
      cbn [trace responses_writable].
      destruct (0 <? _); destruct (responses_writable w); cbn [trace];
        rewrite <- ?app_assoc, drop_app_length; reflexivity. }
    split; [reflexivity|]. split; [reflexivity|].
    split; [intros Hl; cbn; now rewrite Hl|].
    split; [intros Hl; cbn; now rewrite Hl|].
    unfold Fixed.submit_order, submit, new_events, Fixed.WriteTradeResponse,
      write_response_file, emit.
    cbn [trace responses_writable].
    destruct (0 <? _); destruct (responses_writable w); cbn [trace];
      rewrite <- ?app_assoc, drop_app_length; repeat constructor.
Qed.

(** A market Buy of 2 with quotes 99/101: [BuyEntry], fill price 101. *)
Lemma C8_order_construction_witness :
  let cmd := {| Bridge.command_id := "c1"; Bridge.action := "BUY"; Bridge.symbol := "NQ";
                Bridge.quantity := 2; Bridge.price := Finite 0;
                Bridge.order_type := "MARKET" |} in
  snd (fst (Bridge.executeTrade (snapshot 100 5 99 101) cmd (Finite 0) (channel_with None)))
  = Finite 101.
Proof.
  cbv zeta.
  rewrite (proj1 (proj1 (C8_order_construction
             (snapshot 100 5 99 101)
             {| Bridge.command_id := "c1"; Bridge.action := "BUY"; Bridge.symbol := "NQ";
                Bridge.quantity := 2; Bridge.price := Finite 0;
                Bridge.order_type := "MARKET" |}
             (Finite 0) (channel_with None) "NQ" "BUY" "MARKET" 2 (Finite 0) BSE_BUY)
             eq_refl) eq_refl).
  reflexivity.
Defined.

(** C8 as stated fails in the bridge.  A LIMIT Buy of 2 at 100 with quotes
    99/101 selects a limit order and the nominal fill price 100; the order
    that reaches the host is a market order and the fill price returned
    is the ask, 101.  And a command that passes every check with the
    action buy in lower case is not executed at all. *)
Lemma C8_order_construction_counterexample :
  let cmd := {| Bridge.command_id := "c1"; Bridge.action := "BUY"; Bridge.symbol := "NQ";
                Bridge.quantity := 2; Bridge.price := Finite 100;
                Bridge.order_type := "LIMIT" |} in
  let lower := {| Bridge.command_id := "c2"; Bridge.action := "buy"; Bridge.symbol := "NQ";
                  Bridge.quantity := 2; Bridge.price := Finite 0;
                  Bridge.order_type := "MARKET" |} in
  let sc := snapshot 100 5 99 101 in
  (Bridge.validated sc cmd = true
   /\ Bridge.selected_order_type cmd = SCT_ORDERTYPE_LIMIT
   /\ Spec.nominal_fill_price (Bridge.is_limit cmd) true (Bridge.price cmd) (Bid sc) (Ask sc)
      = Finite 100
   /\ Bridge.executeTrade sc cmd (Finite 0) (channel_with None)
      = (1, Finite 101,
         emit (EvHostOrder BuyEntry
                 {| OrderQuantity := 2; OrderType := SCT_ORDERTYPE_MARKET;
                    Price1 := Finite 100;
                    BuySell := BSE_UNDEFINED; TextTag := EmptyString |} 1)
              (channel_with None)))
  /\ (Bridge.validated sc lower = true
      /\ Bridge.executeTrade sc lower (Finite 0) (channel_with None)
         = (0, Finite 99, channel_with None)).
Proof. cbv zeta. repeat split. Qed.

End ExecutorFacts.

(** ** The string functions *)

Module CxxFacts.

Import Cxx.

Lemma length_substring (s : string) (n m : nat) :
  String.length (String.substring n m s) = Nat.min m (String.length s - n).
Proof.
  revert n m. induction s as [|c s IH]; intros n m.
  - destruct n, m; reflexivity.
  - destruct n as [|n].
    + destruct m as [|m]; [reflexivity|]. cbn. now rewrite IH, Nat.sub_0_r.
    + cbn. apply IH.
Qed.

Lemma size_nonneg (s : string) : 0 <= size s.
Proof. unfold size. lia. Qed.

Lemma length_append (a b : string) :
  String.length (a +:+ b) = (String.length a + String.length b)%nat.
Proof.
  induction a as [|c a IH]; [reflexivity|].
  change (S (String.length (a +:+ b)) = S (String.length a + String.length b)).
  now rewrite IH.
Qed.

Lemma size_append (a b : string) : size (a +:+ b) = size a + size b.
Proof. unfold size. rewrite length_append. lia. Qed.

Lemma index_ge (s needle : string) (n i : nat) :
  String.index n needle s = Some i -> (n <= i)%nat.
Proof.
  revert n i. induction s as [|c s IH]; intros n i E.
  - destruct n; [lia|]. cbn in E. discriminate.
  - destruct n as [|n]; [lia|]. cbn in E.
    destruct (String.index n needle s) as [j|] eqn:Ej; [|discriminate].
    injection E as <-. apply IH in Ej. lia.
Qed.

(** A match of a non-empty needle lies inside the string, at or after [pos]. *)
Lemma find_bounds (s needle : string) (pos : Z) :
  0 <= pos -> 0 < size needle ->
  find s needle pos <> npos ->
  pos <= find s needle pos /\ find s needle pos + size needle <= size s.
Proof.
  intros Hpos Hn. unfold find.
  destruct (Z.ltb_spec (size s) pos); [congruence|].
  destruct (String.index (Z.to_nat pos) needle s) as [i|] eqn:E; [|congruence].
  intros _. split.
  - apply index_ge in E. lia.
  - pose proof (index_correct1 _ _ _ _ E) as Hsub.
    apply (f_equal String.length) in Hsub. rewrite length_substring in Hsub.
    unfold size in *. lia.
Qed.

Lemma find_first_of_from_bounds (chars s : string) (i pos : Z) :
  find_first_of_from chars s i pos <> npos ->
  i <= find_first_of_from chars s i pos < i + size s
  /\ pos <= find_first_of_from chars s i pos.
Proof.
  revert i. induction s as [|c s IH]; intros i; cbn [find_first_of_from].
  - congruence.
  - unfold size. cbn [String.length]. rewrite Nat2Z.inj_succ.
    destruct (Z.leb_spec pos i); cbn [andb].
    + destruct (char_in c chars); [intros _; lia|].
      intros H'. specialize (IH (i + 1) H'). unfold size in IH. lia.
    + intros H'. specialize (IH (i + 1) H'). unfold size in IH. lia.
Qed.

(** [find_first_of] returns a position inside the string, at or after [pos]. *)
Lemma find_first_of_bounds (s chars : string) (pos : Z) :
  find_first_of s chars pos <> npos ->
  pos <= find_first_of s chars pos < size s.
Proof.
  intros H. unfold find_first_of in *.
  pose proof (find_first_of_from_bounds chars s 0 pos H). lia.
Qed.

Lemma substr_ok (s : string) (pos n : Z) :
  pos <= size s ->
  substr s pos n
  = Ok (String.substring (Z.to_nat pos) (Z.to_nat (Z.min n (size s - pos))) s).
Proof.
  intros H. unfold substr. destruct (Z.ltb_spec (size s) pos); [lia|reflexivity].
Qed.

Lemma leading_le (p : ascii -> bool) (s : string) : 0 <= leading p s <= size s.
Proof.
  unfold size. induction s as [|c s IH]; cbn [leading String.length]; [lia|].
  destruct (p c); lia.
Qed.

Lemma skip_while_le (p : ascii -> bool) (s : string) (pos : Z) :
  0 <= pos <= size s -> pos <= skip_while p s pos <= size s.
Proof.
  intros H. unfold skip_while. destruct (Z.leb_spec (size s) pos); [lia|].
  pose proof (leading_le p (String.substring (Z.to_nat pos) (String.length s) s)) as Hl.
  unfold size in *. rewrite length_substring in Hl. lia.
Qed.

End CxxFacts.

(** ** Command parsing *)

Module ParserFacts.

Import Cxx Host States CxxFacts TickBufferFacts.

Lemma size_number_key (key : string) : size (JSONParser.number_key key) = size key + 3.
Proof.
  unfold JSONParser.number_key. rewrite !size_append. unfold quote_str, size. cbn. lia.
Qed.

Lemma size_string_key (key : string) : size (JSONParser.string_key key) = size key + 4.
Proof.
  unfold JSONParser.string_key. rewrite !size_append. unfold quote_str, size. cbn. lia.
Qed.

Lemma fits_bound (s : string) : fits s -> size s < 2 ^ 63.
Proof. unfold fits, max_size. lia. Qed.

(** [ExtractString] returns the string field of the specification, or
    the empty string when there is none. *)
Lemma ExtractString_field (json key : string) :
  fits json ->
  JSONParser.ExtractString json key
  = Ok (match Spec.string_field json key with Some t => t | None => EmptyString end).
Proof.
  intros Hfit%fits_bound. unfold JSONParser.ExtractString, Spec.string_field.
  pose proof (size_nonneg key) as Hk. pose proof (size_string_key key) as Hsk.
  destruct (Z.eqb_spec (find json (JSONParser.string_key key) 0) npos) as [|Hpos];
    [reflexivity|].
  apply find_bounds in Hpos; [|lia|lia].
  rewrite size_t_id by lia.
  set (start := find json (JSONParser.string_key key) 0 + size (JSONParser.string_key key)) in *.
  destruct (Z.eqb_spec (find json quote_str start) npos) as [|Hend]; [reflexivity|].
  apply find_bounds in Hend; [|lia|unfold quote_str, size; cbn; lia].
  assert (Hq : size quote_str = 1) by reflexivity.
  rewrite size_t_id by lia. rewrite substr_ok by lia.
  rewrite Z.min_l by lia. reflexivity.
Qed.

Lemma numeric_extract {A : Type} (conv : string -> result A) (d : A) (json key : string) :
  fits json ->
  (let searchKey := JSONParser.number_key key in
   let pos := find json searchKey 0 in
   if pos =? npos then Ok d
   else
     let start := size_t (pos + size searchKey) in
     let end_ := find_first_of json ",}" start in
     if end_ =? npos then Ok d
     else Ok (try_catch_all (bind (substr json start (size_t (end_ - start))) conv) d))
  = Ok (match Spec.numeric_field json key with
        | Some t => try_catch_all (conv t) d
        | None => d
        end).
Proof.
  intros Hfit%fits_bound. cbv zeta. unfold Spec.numeric_field.
  pose proof (size_nonneg key) as Hk. pose proof (size_number_key key) as Hsk.
  destruct (Z.eqb_spec (find json (JSONParser.number_key key) 0) npos) as [|Hpos];
    [reflexivity|].
  apply find_bounds in Hpos; [|lia|lia].
  rewrite size_t_id by lia.
  set (start := find json (JSONParser.number_key key) 0 + size (JSONParser.number_key key)) in *.
  destruct (Z.eqb_spec (find_first_of json ",}" start) npos) as [|Hend]; [reflexivity|].
  apply find_first_of_bounds in Hend.
  rewrite size_t_id by lia. rewrite substr_ok by lia.
  rewrite Z.min_l by lia. reflexivity.
Qed.

(** [ExtractInt] returns what [std::stoi] reads at the start of the
    numeric field, and 0 when there is no field or [std::stoi] throws. *)
Lemma ExtractInt_field (json key : string) :
  fits json ->
  JSONParser.ExtractInt json key
  = Ok (match Spec.numeric_field json key with
        | Some t => try_catch_all (stoi t) 0
        | None => 0
        end).
Proof. apply (numeric_extract stoi 0). Qed.

Lemma ExtractFloat_field (stof : string -> result float) (json key : string) :
  fits json ->
  JSONParser.ExtractFloat stof json key
  = Ok (match Spec.numeric_field json key with
        | Some t => try_catch_all (stof t) (Finite 0)
        | None => Finite 0
        end).
Proof. apply (numeric_extract stof (Finite 0)). Qed.

(** The quoted fields of the bridge parser never throw. *)
Lemma quoted_field_ok (json key : string) (keylen : Z) (dflt : string) :
  fits json -> 0 <= keylen < 2 ^ 63 ->
  exists v, Bridge.quoted_field json key keylen dflt = Ok v.
Proof.
  intros Hfit%fits_bound Hlen. unfold Bridge.quoted_field.
  destruct (Z.eqb_spec (find json key 0) npos) as [|Hpos]; cbn [negb]; [eauto|].
  unfold find_char.
  set (start := find json (String dquote EmptyString) (size_t (find json key 0 + keylen))).
  destruct (Z.eqb_spec start npos) as [|Hstart]; cbn [negb andb]; [eauto|].
  destruct (Z.eqb_spec (find json (String dquote EmptyString) (size_t (start + 1))) npos);
    cbn [negb andb]; [eauto|].
  assert (H0 : 0 <= size_t (find json key 0 + keylen))
    by (unfold size_t; apply Z.mod_pos_bound; lia).
  subst start. apply find_bounds in Hstart; [|exact H0|reflexivity].
  change (size (String dquote EmptyString)) with 1 in Hstart.
  rewrite (size_t_id (_ + 1)) by lia.
  rewrite substr_ok by lia. eauto.
Qed.

(** The numeric fields of the bridge parser never throw, the key being
    as long as the source says. *)
Lemma number_text_ok (json key : string) (keylen : Z) :
  fits json -> 0 < size key -> keylen = size key ->
  exists v, Bridge.number_text json key keylen = Ok v.
Proof.
  intros Hfit%fits_bound Hk ->. unfold Bridge.number_text.
  destruct (Z.eqb_spec (find json key 0) npos) as [|Hpos]; cbn [negb]; [eauto|].
  apply find_bounds in Hpos; [|lia|lia].
  rewrite size_t_id by lia.
  pose proof (skip_while_le Bridge.space_or_colon json (find json key 0 + size key)
                ltac:(lia)) as Hskip.
  unfold substr_from. rewrite substr_ok by lia. cbn [bind]. eauto.
Qed.

Section Parsers.

Variable stof : string -> result float.
Variable atof : string -> float.

(** [parseTradeCommand] never throws. *)
Lemma parseTradeCommand_total (json : string) :
  fits json -> exists r, Bridge.parseTradeCommand atof json = Ok r.
Proof.
  intros Hfit. unfold Bridge.parseTradeCommand.
  repeat match goal with
  | |- context [Bridge.quoted_field json ?k ?n ?d] =>
      let H := fresh in
      destruct (quoted_field_ok json k n d Hfit ltac:(lia)) as [? H];
      rewrite H; clear H; cbn [bind]
  | |- context [Bridge.number_text json ?k ?n] =>
      let H := fresh in
      destruct (number_text_ok json k n Hfit ltac:(vm_compute; reflexivity)
                  ltac:(vm_compute; reflexivity)) as [? H];
      rewrite H; clear H; cbn [bind]
  end.
  eauto.
Qed.

(** The flag [parseTradeCommand] returns. *)
Lemma parseTradeCommand_flag (json : string) (flag : bool) (cmd : Bridge.TradeCommand) :
  Bridge.parseTradeCommand atof json = Ok (flag, cmd) ->
  flag = negb (empty (Bridge.command_id cmd)) && negb (empty (Bridge.action cmd))
         && (0 <? Bridge.quantity cmd).
Proof.
  unfold Bridge.parseTradeCommand.
  repeat match goal with
  | |- context [bind ?m _] => destruct m; cbn [bind]; [|discriminate]
  end.
  now intros [= <- <-].
Qed.

(** One poll of the FIXED exporter never throws. *)
Lemma Fixed_poll_total (sc : SCStudyInterface) (w : World) :
  (forall text, command_file w = Some text -> fits text) ->
  exists w', Fixed.ProcessTradeCommands stof sc w = Ok w'.
Proof.
  intros Hfit. unfold Fixed.ProcessTradeCommands.
  destruct (command_file w) as [content|]; [|eauto].
  specialize (Hfit content eq_refl).
  destruct (empty content); [eauto|].
  rewrite !ExtractString_field, ExtractInt_field, ExtractFloat_field by assumption.
  cbn [bind]. destruct (_ && _); eauto.
Qed.

(** In the FIXED exporter a command whose quantity is not positive has no
    effect beyond the read. *)
Lemma Fixed_poll_nonpositive_quantity (sc : SCStudyInterface) (w : World)
    (content : string) (q : Z) :
  fits content -> command_file w = Some content ->
  JSONParser.ExtractInt content "quantity" = Ok q -> q <= 0 ->
  Fixed.ProcessTradeCommands stof sc w = Ok (emit (EvReadCommand content) w).
Proof.
  intros Hfit Hfile Hq Hle. unfold Fixed.ProcessTradeCommands. rewrite Hfile.
  destruct (empty content); [reflexivity|].
  rewrite Hq. rewrite !ExtractString_field, ExtractFloat_field by assumption.
  cbn [bind]. destruct (Z.ltb_spec 0 q); [lia|].
  now rewrite andb_false_r.
Qed.

(** In the COMPLETE exporter such a command is answered REJECTED under
    the id INVALID, and no order is issued. *)
Lemma Complete_poll_nonpositive_quantity (sc : SCStudyInterface) (OutputPath : string)
    (w : World) (text : string) (q : Z) :
  fits (getline_concat text) -> command_file w = Some text ->
  JSONParser.ExtractInt (getline_concat text) "quantity" = Ok q -> q <= 0 ->
  Complete.ProcessTradeCommands stof sc OutputPath w
  = Ok (Complete.WriteTradeResponse sc OutputPath "INVALID" "REJECTED"
          "Invalid trade command format or missing required fields"
          (emit (EvReadCommand text) w)).
Proof.
  intros Hfit Hfile Hq Hle. unfold Complete.ProcessTradeCommands. rewrite Hfile.
  rewrite Hq. rewrite !ExtractString_field, ExtractFloat_field by assumption.
  cbn [bind]. destruct (Z.ltb_spec 0 q); [lia|].
  now rewrite andb_false_r.
Qed.

(** In the bridge a command whose quantity is not positive is answered
    REJECTED under the id unknown, after the file is removed, and no
    order is issued. *)
Lemma Bridge_poll_nonpositive_quantity (sc : SCStudyInterface) (w : World)
    (text : string) (flag : bool) (cmd : Bridge.TradeCommand) :
  command_file w = Some text -> empty (getline_concat text) = false ->
  Bridge.parseTradeCommand atof (getline_concat text) = Ok (flag, cmd) ->
  Bridge.quantity cmd <= 0 ->
  Bridge.processTradeCommands atof sc w
  = (true,
     write_response_file Bridge.TRADE_RESPONSES_FILE
       (Bridge.createTradeResponse sc "unknown" "REJECTED" "Invalid command format"
          (Finite 0))
       (remove_command_file (emit (EvReadCommand text) w))).
Proof.
  intros Hfile Hne Hparse Hq. unfold Bridge.processTradeCommands.
  rewrite Hfile, Hne. cbn [negb]. rewrite Hparse.
  apply parseTradeCommand_flag in Hparse.
  destruct (Z.ltb_spec 0 (Bridge.quantity cmd)); [lia|].
  rewrite andb_false_r in Hparse. now subst flag.
Qed.

End Parsers.

(** C10 (as amended).  For every string a [std::string] can hold, the
    extraction functions and the bridge parser return without an
    exception.  A string field whose key pattern or closing quote is
    missing comes out empty, and otherwise is the text up to the next
    quote.  A numeric field whose key or terminator (comma or brace) is
    missing comes out 0; otherwise it is what [std::stoi] or [std::stof]
    reads at the start of the text, whatever follows the number, and 0
    when that conversion throws.  A command whose quantity comes out 0
    or less is not executed: FIXED does nothing after the read, COMPLETE
    answers REJECTED under the id INVALID, the bridge answers REJECTED
    under the id unknown. *)
Theorem C10_extraction_total (stof : string -> result float) (atof : string -> float)
    (json key : string) (sc : SCStudyInterface) (w : World) :
  fits json ->
  JSONParser.ExtractString json key
    = Ok (match Spec.string_field json key with Some t => t | None => EmptyString end)
  /\ JSONParser.ExtractInt json key
     = Ok (match Spec.numeric_field json key with
           | Some t => try_catch_all (stoi t) 0
           | None => 0
           end)
  /\ JSONParser.ExtractFloat stof json key
     = Ok (match Spec.numeric_field json key with
           | Some t => try_catch_all (stof t) (Finite 0)
           | None => Finite 0
           end)
  /\ (exists r, Bridge.parseTradeCommand atof json = Ok r)
  /\ (forall q, command_file w = Some json ->
        JSONParser.ExtractInt json "quantity" = Ok q -> q <= 0 ->
        Fixed.ProcessTradeCommands stof sc w = Ok (emit (EvReadCommand json) w))
  /\ (forall q text OutputPath, json = getline_concat text -> command_file w = Some text ->
        JSONParser.ExtractInt json "quantity" = Ok q -> q <= 0 ->
        Complete.ProcessTradeCommands stof sc OutputPath w
        = Ok (Complete.WriteTradeResponse sc OutputPath "INVALID" "REJECTED"
                "Invalid trade command format or missing required fields"
                (emit (EvReadCommand text) w)))
  /\ (forall flag cmd text, json = getline_concat text -> command_file w = Some text ->
        empty json = false ->
        Bridge.parseTradeCommand atof json = Ok (flag, cmd) ->
        Bridge.quantity cmd <= 0 ->
        Bridge.processTradeCommands atof sc w
        = (true,
           write_response_file Bridge.TRADE_RESPONSES_FILE
             (Bridge.createTradeResponse sc "unknown" "REJECTED" "Invalid command format"
                (Finite 0))
             (remove_command_file (emit (EvReadCommand text) w)))).
Proof.
  intros Hfit.
  split; [now apply ExtractString_field|].
  split; [now apply ExtractInt_field|].
  split; [now apply ExtractFloat_field|].
  split; [now apply parseTradeCommand_total|].
  split; [|split].
  - intros q Hfile Hq Hle. now apply (Fixed_poll_nonpositive_quantity stof sc w json q).
  - intros q text OutputPath -> Hfile Hq Hle.
    now apply (Complete_poll_nonpositive_quantity stof sc OutputPath w text q).
  - intros flag cmd text -> Hfile Hne Hparse Hq.
    now apply (Bridge_poll_nonpositive_quantity atof sc w text flag cmd).
Qed.

(** A quantity that is no number: the field comes out 0. *)
Lemma C10_extraction_total_witness :
  JSONParser.ExtractInt (json_of "{'symbol':'NQ','side':'BUY','quantity':abc}") "quantity"
  = Ok 0.
Proof.
  rewrite (proj1 (proj2 (C10_extraction_total (fun _ => Ok (Finite 0)) (fun _ => Finite 0)
                           (json_of "{'symbol':'NQ','side':'BUY','quantity':abc}")
                           "quantity" (snapshot 100 5 99 101) (channel_with None)
                           ltac:(vm_compute; discriminate)))).
  vm_compute. reflexivity.
Defined.

(** C10 as stated fails.  The quantity text 5x is no JSON number, yet the
    field comes out 5 and the FIXED exporter submits an order for 5
    contracts; so does [atoi] in the bridge.  A symbol whose closing
    quote is missing comes out as the text up to the next quote, and in
    the bridge a numeric command id 123 comes out as the name of the
    next key. *)
Lemma C10_extraction_total_counterexample :
  let json :=
    json_of "{'symbol':'NQ','side':'BUY','order_type':'MARKET','quantity':5x}" in
  (Spec.numeric_field json "quantity" = Some "5x"%string
   /\ Spec.json_integer "5x" = false
   /\ JSONParser.ExtractInt json "quantity" = Ok 5
   /\ (exists w' order,
         Fixed.ProcessTradeCommands (fun _ => Ok (Finite 0)) (snapshot 100 5 99 101)
           (channel_with (Some json)) = Ok w'
         /\ filter (fun e => is_order e) (trace w')
            = [EvHostOrder SubmitNewOrder order 1]
         /\ OrderQuantity order = 5)
   /\ atoi "5x" = 5)
  /\ JSONParser.ExtractString (json_of "{'symbol':'NQ,'side':'BUY'}") "symbol"
     = Ok "NQ,"%string
  /\ (exists cmd,
        Bridge.parseTradeCommand (fun _ => Finite 0)
          (json_of "{'command_id':123,'action':'BUY','quantity':1}") = Ok (true, cmd)
        /\ Bridge.command_id cmd = "action"%string).
Proof.
  cbv zeta. split; [|split].
  - split; [vm_compute; reflexivity|]. split; [reflexivity|].
    split; [vm_compute; reflexivity|]. split; [|reflexivity].
    eexists. eexists. split; [vm_compute; reflexivity|].
    split; [vm_compute; reflexivity|]. reflexivity.
  - vm_compute. reflexivity.
  - eexists. split; [vm_compute; reflexivity|]. reflexivity.
Qed.

End ParserFacts.

(** ** The command channel *)

Module ChannelFacts.

Import Cxx Host States CxxFacts ParserFacts.

Lemma continues_refl (w : World) : continues w [] w.
Proof. unfold continues. now rewrite app_nil_r. Qed.

Lemma continues_trans (w w1 w2 : World) (e1 e2 : list Event) :
  continues w e1 w1 -> continues w1 e2 w2 -> continues w (e1 ++ e2) w2.
Proof.
  intros (Ht1 & Hc1 & Hw1 & Hr1) (Ht2 & Hc2 & Hw2 & Hr2). unfold continues.
  rewrite Ht2, Ht1, Hc2, Hc1, Hw2, Hw1, Hr2, Hr1, app_assoc. auto.
Qed.

Lemma continues_emit (e : Event) (w : World) : continues w [e] (emit e w).
Proof. unfold continues, emit. cbn. auto. Qed.

Lemma new_events_continues (w w' : World) (evs : list Event) :
  continues w evs w' -> new_events w w' = evs.
Proof.
  intros (Ht & _). unfold new_events. rewrite Ht. apply drop_app_length.
Qed.

Lemma continues_write (path : string) (r : TradeResponse) (w : World) :
  continues w (if responses_writable w then [EvWriteResponse path r] else [])
    (write_response_file path r w)
  /\ (responses_writable w = true ->
      response_files (write_response_file path r w) !! path = Some r).
Proof.
  unfold write_response_file. destruct (responses_writable w) eqn:E.
  - split.
    + unfold continues, emit. cbn. auto.
    + intros _. cbn. apply lookup_insert_eq.
  - split; [apply continues_refl | discriminate].
Qed.

Lemma continues_submit (sc : SCStudyInterface) (call : host_call) (o : s_SCNewOrder)
    (w : World) :
  continues w [EvHostOrder call o (order_result sc call o)] (snd (submit sc call o w)).
Proof. unfold submit. cbn [snd]. apply continues_emit. Qed.

(** The call that removes the command file: the file is gone when the
    file system permits, and stays otherwise. *)
Lemma remove_effect (w : World) :
  trace (remove_command_file w) = trace w ++ [EvRemoveCommand]
  /\ command_file (remove_command_file w)
     = (if command_removable w then None else command_file w)
  /\ responses_writable (remove_command_file w) = responses_writable w
  /\ command_removable (remove_command_file w) = command_removable w.
Proof. unfold remove_command_file, emit. cbn. auto. Qed.

(** [executeTrade] of the bridge issues at most one host order, and none
    for a command that fails a check or whose action is neither BUY nor
    SELL. *)
Lemma Bridge_executeTrade_effect (sc : SCStudyInterface) (cmd : Bridge.TradeCommand)
    (fillPrice : float) (w : World) :
  exists orders,
    continues w orders (snd (Bridge.executeTrade sc cmd fillPrice w))
    /\ Forall (fun e => is_order e = true) orders
    /\ (Bridge.validated sc cmd = false
        \/ (Bridge.action cmd <> "BUY"%string /\ Bridge.action cmd <> "SELL"%string) ->
        orders = [] /\ fst (fst (Bridge.executeTrade sc cmd fillPrice w)) = 0).
Proof.
  destruct (Bridge.validated sc cmd) eqn:Hv.
  - destruct (String.eqb (Bridge.action cmd) "BUY") eqn:Hb;
      [|destruct (String.eqb (Bridge.action cmd) "SELL") eqn:Hs].
    + apply String.eqb_eq in Hb.
      rewrite (ExecutorFacts.executeTrade_buy sc cmd fillPrice w Hv Hb). cbn [snd].
      eexists. split; [apply continues_emit|]. split; [repeat constructor|].
      intros [H|[H _]]; [discriminate|contradiction].
    + apply String.eqb_eq in Hs.
      rewrite (ExecutorFacts.executeTrade_sell sc cmd fillPrice w Hv Hs). cbn [snd].
      eexists. split; [apply continues_emit|]. split; [repeat constructor|].
      intros [H|[_ H]]; [discriminate|contradiction].
    + apply String.eqb_neq in Hb, Hs.
      rewrite (ExecutorFacts.executeTrade_other sc cmd fillPrice w Hv Hb Hs). cbn.
      exists []. split; [apply continues_refl|]. split; [constructor|]. auto.
  - rewrite (ExecutorFacts.executeTrade_not_validated sc cmd fillPrice w Hv). cbn.
    exists []. split; [apply continues_refl|]. split; [constructor|]. auto.
Qed.

Lemma orders_are_outputs (evs : list Event) :
  Forall (fun e => is_order e = true) evs -> Forall is_output evs.
Proof.
  intros H. eapply Forall_impl; [exact H|].
  intros [] He; cbn in He; try discriminate. split; reflexivity.
Qed.

(** [WriteTradeResponse] of the FIXED exporter writes one response, named
    after the order id, when the file can be written. *)
Lemma Fixed_WriteTradeResponse_effect (sc : SCStudyInterface)
    (outputPath orderId status message : string) (w : World) :
  exists r,
    resp_id r = orderId /\ resp_status r = status /\ resp_fill_price r = None
    /\ continues w
         (if responses_writable w
          then [EvWriteResponse (outputPath +:+ "trade_response_" +:+ orderId +:+ ".json") r]
          else [])
         (Fixed.WriteTradeResponse sc outputPath orderId status message w).
Proof.
  unfold Fixed.WriteTradeResponse. eexists. split; [|split; [|split]].
  4: apply continues_write. all: reflexivity.
Qed.

(** [ExecuteTrade] of the FIXED exporter: at most one host order, then
    one response under the generated order id. *)
Lemma Fixed_ExecuteTrade_effect (sc : SCStudyInterface) (symbol side : string)
    (quantity : Z) (price : float) (orderType : string) (w : World) :
  exists orders r,
    Forall (fun e => is_order e = true) orders
    /\ resp_id r = ("MINH_" +:+ decimal (clock sc))%string
    /\ resp_fill_price r = None
    /\ continues w
         (orders ++
          (if responses_writable w
           then [EvWriteResponse
                   (Input_OutputPath sc +:+ "trade_response_"
                    +:+ ("MINH_" +:+ decimal (clock sc)) +:+ ".json") r]
           else []))
         (Fixed.ExecuteTrade sc symbol side quantity price orderType w).
Proof.
  unfold Fixed.ExecuteTrade.
  assert (Hplain : forall status message,
            exists orders r,
              Forall (fun e => is_order e = true) orders
              /\ resp_id r = ("MINH_" +:+ decimal (clock sc))%string
              /\ resp_fill_price r = None
              /\ continues w
                   (orders ++
                    (if responses_writable w
                     then [EvWriteResponse
                             (Input_OutputPath sc +:+ "trade_response_"
                              +:+ ("MINH_" +:+ decimal (clock sc)) +:+ ".json") r]
                     else []))
                   (Fixed.WriteTradeResponse sc (Input_OutputPath sc)
                      ("MINH_" +:+ decimal (clock sc)) status message w)).
  { intros status message.
    destruct (Fixed_WriteTradeResponse_effect sc (Input_OutputPath sc)
                ("MINH_" +:+ decimal (clock sc)) status message w)
      as (r & Hid & _ & Hfp & Hc).
    exists [], r. cbn [app]. auto using Forall_nil. }
  assert (Hsubmit : forall order,
            exists orders r,
              Forall (fun e => is_order e = true) orders
              /\ resp_id r = ("MINH_" +:+ decimal (clock sc))%string
              /\ resp_fill_price r = None
              /\ continues w
                   (orders ++
                    (if responses_writable w
                     then [EvWriteResponse
                             (Input_OutputPath sc +:+ "trade_response_"
                              +:+ ("MINH_" +:+ decimal (clock sc)) +:+ ".json") r]
                     else []))
                   (Fixed.submit_order sc order ("MINH_" +:+ decimal (clock sc)) w)).
  { intros order. unfold Fixed.submit_order, submit.
    set (w1 := emit _ w).
    assert (Hc1 : continues w [EvHostOrder SubmitNewOrder order
                                 (order_result sc SubmitNewOrder order)] w1)
      by apply continues_emit.
    assert (Hw1 : responses_writable w1 = responses_writable w) by apply Hc1.
    destruct (0 <? order_result sc SubmitNewOrder order);
      match goal with
      | |- context [Fixed.WriteTradeResponse sc ?p ?i ?st ?m w1] =>
          destruct (Fixed_WriteTradeResponse_effect sc p i st m w1)
            as (r & Hid & _ & Hfp & Hc)
      end;
      rewrite Hw1 in Hc;
      (eexists; exists r; split; [|split; [exact Hid|split; [exact Hfp|]]];
       [|eapply continues_trans; [exact Hc1|exact Hc]]; repeat constructor). }
  destruct (quantity <=? 0); [apply Hplain|].
  destruct (fle price (Finite 0) && _); [apply Hplain|].
  destruct (CompareNoCase_eq side "BUY"); [apply Hsubmit|].
  destruct (CompareNoCase_eq side "SELL"); [apply Hsubmit|apply Hplain].
Qed.

(** [ExecuteTrade] of the v2 and COMPLETE exporters: at most one host order. *)
Lemma V2_ExecuteTrade_effect (sc : SCStudyInterface) (symbol side : string)
    (quantity : Z) (price : float) (orderType : string) (w : World) :
  exists orders,
    Forall (fun e => is_order e = true) orders
    /\ continues w orders (V2.ExecuteTrade sc symbol side quantity price orderType w).
Proof.
  unfold V2.ExecuteTrade.
  destruct (String.eqb side "BUY"); [|destruct (String.eqb side "SELL")].
  - eexists. split; [|apply continues_submit]. repeat constructor.
  - eexists. split; [|apply continues_submit]. repeat constructor.
  - exists []. split; [constructor|apply continues_refl].
Qed.

Section Polls.

Variable stof : string -> result float.
Variable atof : string -> float.

(** One poll of the bridge that finds a command with some content: the
    read, the call that removes the file, at most one host order, at
    most one response. *)
Lemma Bridge_poll_effect (sc : SCStudyInterface) (w : World) (text : string) :
  command_file w = Some text -> empty (getline_concat text) = false ->
  let w' := snd (Bridge.processTradeCommands atof sc w) in
  exists orders resp,
    trace w' = trace w ++ EvReadCommand text :: EvRemoveCommand :: orders ++ resp
    /\ Forall (fun e => is_order e = true) orders
    /\ Forall (fun e => is_response e = true) resp
    /\ command_file w' = (if command_removable w then None else Some text)
    /\ responses_writable w' = responses_writable w
    /\ command_removable w' = command_removable w
    /\ (responses_writable w = false -> resp = [])
    /\ (responses_writable w = true -> fits (getline_concat text) ->
        exists r,
          resp = [EvWriteResponse Bridge.TRADE_RESPONSES_FILE r]
          /\ response_files w' !! Bridge.TRADE_RESPONSES_FILE = Some r
          /\ exists flag cmd,
               Bridge.parseTradeCommand atof (getline_concat text) = Ok (flag, cmd)
               /\ (flag = true ->
                   resp_id r = Bridge.command_id cmd
                   /\ (Bridge.validated sc cmd = false
                       \/ (Bridge.action cmd <> "BUY"%string
                           /\ Bridge.action cmd <> "SELL"%string) ->
                       orders = [] /\ resp_status r = "REJECTED"%string))
               /\ (flag = false -> resp_id r = "unknown"%string
                                   /\ resp_status r = "REJECTED"%string /\ orders = [])).
Proof.
  intros Hfile Hne. cbv zeta. unfold Bridge.processTradeCommands.
  rewrite Hfile, Hne. cbn [negb].
  set (w0 := emit (EvReadCommand text) w).
  pose proof (remove_effect w0) as (Hrt & Hrc & Hrw & Hrr).
  set (w1 := remove_command_file w0) in *.
  assert (Ht1 : trace w1 = trace w ++ [EvReadCommand text; EvRemoveCommand]).
  { rewrite Hrt. unfold w0, emit. cbn. now rewrite <- app_assoc. }
  assert (Hw1 : responses_writable w1 = responses_writable w) by (rewrite Hrw; reflexivity).
  assert (Hr1 : command_removable w1 = command_removable w) by (rewrite Hrr; reflexivity).
  assert (Hc1 : command_file w1 = if command_removable w then None else Some text).
  { rewrite Hrc. unfold w0, emit. cbn. now rewrite Hfile. }
  destruct (Bridge.parseTradeCommand atof (getline_concat text)) as [[[|] cmd]|e] eqn:Hparse.
  - (* parsed *)
    destruct (Bridge_executeTrade_effect sc cmd (Finite 0) w1)
      as (orders & (Ht2 & Hc2 & Hw2 & Hr2) & Hord & Hnv).
    destruct (Bridge.executeTrade sc cmd (Finite 0) w1) as [[orderId fillPrice] w2] eqn:Hexec.
    cbn [fst snd] in *.
    set (response := if 0 <? orderId then _ else _).
    pose proof (continues_write Bridge.TRADE_RESPONSES_FILE response w2)
      as ((Ht3 & Hc3 & Hw3 & Hr3) & Hlook).
    exists orders, (if responses_writable w2 then
                      [EvWriteResponse Bridge.TRADE_RESPONSES_FILE response] else []).
    split; [rewrite Ht3, Ht2, Ht1, <- !app_assoc; reflexivity|].
    split; [exact Hord|].
    split; [destruct (responses_writable w2); repeat constructor|].
    split; [rewrite Hc3, Hc2; exact Hc1|].
    split; [rewrite Hw3, Hw2; exact Hw1|].
    split; [rewrite Hr3, Hr2; exact Hr1|].
    split; [intros Hwr; rewrite Hw2, Hw1, Hwr; reflexivity|].
    intros Hwr _. exists response.
    assert (Hwr2 : responses_writable w2 = true) by (rewrite Hw2, Hw1; exact Hwr).
    rewrite Hwr2. split; [reflexivity|]. split; [now apply Hlook|].
    exists true, cmd. split; [reflexivity|]. split; [|discriminate].
    intros _. split.
    + unfold response. destruct (0 <? orderId); reflexivity.
    + intros Hv. destruct (Hnv Hv) as [-> Hz]. split; [reflexivity|].
      unfold response. rewrite Hz. reflexivity.
  - (* not a command *)
    set (response := Bridge.createTradeResponse sc "unknown" "REJECTED"
                       "Invalid command format" (Finite 0)).
    pose proof (continues_write Bridge.TRADE_RESPONSES_FILE response w1)
      as ((Ht3 & Hc3 & Hw3 & Hr3) & Hlook).
    cbn [snd].
    exists [], (if responses_writable w1 then
                  [EvWriteResponse Bridge.TRADE_RESPONSES_FILE response] else []).
    split; [rewrite Ht3, Ht1, <- !app_assoc; reflexivity|].
    split; [constructor|].
    split; [destruct (responses_writable w1); repeat constructor|].
    split; [rewrite Hc3; exact Hc1|].
    split; [rewrite Hw3; exact Hw1|].
    split; [rewrite Hr3; exact Hr1|].
    split; [intros Hwr; rewrite Hw1, Hwr; reflexivity|].
    intros Hwr _. exists response.
    assert (Hwr1 : responses_writable w1 = true) by (rewrite Hw1; exact Hwr).
    rewrite Hwr1. split; [reflexivity|]. split; [now apply Hlook|].
    exists false, cmd. split; [reflexivity|]. split; [discriminate|].
    intros _. repeat split; reflexivity.
  - (* an exception inside the try block *)
    cbn [snd]. exists [], [].
    split; [rewrite Ht1; reflexivity|].
    split; [constructor|]. split; [constructor|].
    split; [exact Hc1|]. split; [exact Hw1|]. split; [exact Hr1|].
    split; [reflexivity|].
    intros _ Hfit. exfalso.
    destruct (parseTradeCommand_total atof _ Hfit) as [r Hr]. congruence.
Qed.

(** One poll of the FIXED exporter on a command that passes its test:
    the read, at most one order, the response, and last the call that
    removes the file. *)
Lemma Fixed_poll_effect (sc : SCStudyInterface) (w : World) (text : string) :
  fits text -> command_file w = Some text -> Fixed.command_accepted text = true ->
  exists w' orders r,
    Fixed.ProcessTradeCommands stof sc w = Ok w'
    /\ trace w'
       = trace w ++ EvReadCommand text
                    :: orders
                    ++ (if responses_writable w
                        then [EvWriteResponse
                                (Input_OutputPath sc +:+ "trade_response_"
                                 +:+ ("MINH_" +:+ decimal (clock sc)) +:+ ".json") r]
                        else [])
                    ++ [EvRemoveCommand]
    /\ Forall (fun e => is_order e = true) orders
    /\ resp_id r = ("MINH_" +:+ decimal (clock sc))%string
    /\ command_file w' = (if command_removable w then None else Some text).
Proof.
  intros Hfit Hfile Hacc. unfold Fixed.ProcessTradeCommands. rewrite Hfile.
  unfold Fixed.command_accepted in Hacc. apply andb_true_iff in Hacc.
  destruct Hacc as [Hne Hacc]. apply negb_true_iff in Hne. rewrite Hne.
  rewrite !ExtractString_field, ExtractInt_field in Hacc by assumption.
  rewrite !ExtractString_field, ExtractInt_field, ExtractFloat_field by assumption.
  cbn [bind]. rewrite Hacc. cbv zeta.
  set (w0 := emit (EvReadCommand text) w).
  match goal with
  | |- context [Fixed.ExecuteTrade sc ?sy ?si ?q ?p ?ot w0] =>
      destruct (Fixed_ExecuteTrade_effect sc sy si q p ot w0)
        as (orders & r & Hord & Hid & _ & (Ht & Hc & Hw & Hr));
      set (w1 := Fixed.ExecuteTrade sc sy si q p ot w0) in *
  end.
  pose proof (remove_effect w1) as (Hrt & Hrc & _).
  exists (remove_command_file w1), orders, r.
  split; [reflexivity|]. split; [|split; [exact Hord|split; [exact Hid|]]].
  - rewrite Hrt, Ht. unfold w0, emit. cbn [trace responses_writable].
    rewrite <- !app_assoc. reflexivity.
  - rewrite Hrc, Hr, Hc. unfold w0, emit. cbn. now rewrite Hfile.
Qed.

(** One poll of the FIXED exporter on a command that fails its test: the
    read, and nothing else; the file stays. *)
Lemma Fixed_poll_not_accepted (sc : SCStudyInterface) (w : World) (text : string) :
  fits text -> command_file w = Some text -> Fixed.command_accepted text = false ->
  Fixed.ProcessTradeCommands stof sc w = Ok (emit (EvReadCommand text) w).
Proof.
  intros Hfit Hfile Hacc. unfold Fixed.ProcessTradeCommands. rewrite Hfile.
  unfold Fixed.command_accepted in Hacc.
  destruct (empty text); [reflexivity|]. cbn [negb andb] in Hacc.
  rewrite !ExtractString_field, ExtractInt_field in Hacc by assumption.
  rewrite !ExtractString_field, ExtractInt_field, ExtractFloat_field by assumption.
  cbn [bind]. now rewrite Hacc.
Qed.

(** One poll of the v2 exporter that finds its three keys and returns:
    the read, at most one order, the response, and last the call that
    removes the file. *)
Lemma V2_poll_effect (sc : SCStudyInterface) (OutputPath : string) (w w' : World)
    (text : string) :
  command_file w = Some text -> V2.keys_present (getline_concat text) = true ->
  V2.ProcessTradeCommands stof sc OutputPath w = Ok w' ->
  exists orders resp,
    trace w' = trace w ++ EvReadCommand text :: orders ++ resp ++ [EvRemoveCommand]
    /\ Forall (fun e => is_order e = true) orders
    /\ Forall (fun e => is_response e = true) resp
    /\ command_file w' = (if command_removable w then None else Some text).
Proof.
  intros Hfile Hkeys. unfold V2.ProcessTradeCommands. rewrite Hfile.
  unfold V2.keys_present in Hkeys. rewrite Hkeys.
  repeat match goal with
  | |- bind ?m _ = Ok _ -> _ => destruct m; cbn [bind]; [|discriminate]
  end.
  cbv zeta. intros [= <-].
  set (w0 := emit (EvReadCommand text) w).
  match goal with
  | |- context [V2.ExecuteTrade sc ?sy ?si ?q ?p ?ot w0] =>
      destruct (V2_ExecuteTrade_effect sc sy si q p ot w0)
        as (orders & Hord & (Ht & Hc & Hw & Hr));
      set (w1 := V2.ExecuteTrade sc sy si q p ot w0) in *
  end.
  unfold V2.WriteTradeResponse.
  match goal with
  | |- context [write_response_file ?p ?r w1] =>
      pose proof (proj1 (continues_write p r w1)) as (Ht2 & Hc2 & Hw2 & Hr2);
      set (w2 := write_response_file p r w1) in *;
      exists orders, (if responses_writable w1 then [EvWriteResponse p r] else [])
  end.
  pose proof (remove_effect w2) as (Hrt & Hrc & _).
  split; [|split; [exact Hord|split]].
  - rewrite Hrt, Ht2, Ht. unfold w0, emit. cbn [trace].
    rewrite <- !app_assoc. reflexivity.
  - destruct (responses_writable w1); repeat constructor.
  - rewrite Hrc, Hr2, Hr, Hc2, Hc. unfold w0, emit. cbn. now rewrite Hfile.
Qed.

End Polls.

Lemma outputs_app (a b : list Event) : Forall is_output a -> Forall is_output b ->
  Forall is_output (a ++ b).
Proof. intros. now apply Forall_app. Qed.

Lemma responses_are_outputs (evs : list Event) :
  Forall (fun e => is_response e = true) evs -> Forall is_output evs.
Proof.
  intros H. eapply Forall_impl; [exact H|].
  intros [] He; cbn in He; try discriminate. split; reflexivity.
Qed.

Lemma filter_responses_of_orders (evs : list Event) :
  Forall (fun e => is_order e = true) evs -> filter (fun e => is_response e) evs = [].
Proof.
  induction 1 as [|e evs He _ IH]; [reflexivity|].
  rewrite filter_cons_False; [exact IH|].
  destruct e; cbn in *; try discriminate; auto.
Qed.

Lemma filter_orders_of_responses (evs : list Event) :
  Forall (fun e => is_response e = true) evs -> filter (fun e => is_order e) evs = [].
Proof.
  induction 1 as [|e evs He _ IH]; [reflexivity|].
  rewrite filter_cons_False; [exact IH|].
  destruct e; cbn in *; try discriminate; auto.
Qed.

(** C1 (as amended).  Bridge: in every poll that finds the command file
    with some content beyond line feeds, the call that removes the file
    comes right after the read, before the command is parsed and before
    any order or response.  When the removal succeeds the file is gone
    and the next poll finds no file; when it fails the file stays and the
    next poll reads the same content again.  A file without content is
    read and left in place.  FIXED and v2 exporters: the removal is
    called at the end of a poll that executed the command, after the
    order and the response; when it succeeds the file is gone and the
    next poll reads nothing, when it fails the file stays.  FIXED
    executes a command that passes its field test, v2 one whose three
    keys are found and whose numbers convert.  A command the FIXED
    exporter does not accept is read and left in place, and the next poll
    reads it again. *)
Theorem C1_command_consumption (stof : string -> result float) (atof : string -> float)
    (sc : SCStudyInterface) (OutputPath : string) (w : World) (text : string) :
  command_file w = Some text ->
  (empty (getline_concat text) = false ->
     let w' := snd (Bridge.processTradeCommands atof sc w) in
     (exists rest,
        new_events w w' = EvReadCommand text :: EvRemoveCommand :: rest
        /\ Forall is_output rest)
     /\ (command_removable w = true ->
         Spec.removed_on_read text w w'
         /\ Bridge.processTradeCommands atof sc w' = (false, w'))
     /\ (command_removable w = false ->
         command_file w' = Some text
         /\ exists rest,
              new_events w' (snd (Bridge.processTradeCommands atof sc w'))
              = EvReadCommand text :: EvRemoveCommand :: rest))
  /\ (empty (getline_concat text) = true ->
      Bridge.processTradeCommands atof sc w = (true, emit (EvReadCommand text) w)
      /\ command_file (emit (EvReadCommand text) w) = Some text)
  /\ (fits text -> Fixed.command_accepted text = true ->
      exists w' mid,
        Fixed.ProcessTradeCommands stof sc w = Ok w'
        /\ new_events w w' = EvReadCommand text :: mid ++ [EvRemoveCommand]
        /\ Forall is_output mid
        /\ (command_removable w = true ->
            command_file w' = None /\ Fixed.ProcessTradeCommands stof sc w' = Ok w')
        /\ (command_removable w = false -> command_file w' = Some text))
  /\ (fits text -> Fixed.command_accepted text = false ->
      exists w',
        Fixed.ProcessTradeCommands stof sc w = Ok w'
        /\ new_events w w' = [EvReadCommand text]
        /\ command_file w' = Some text
        /\ exists w'',
             Fixed.ProcessTradeCommands stof sc w' = Ok w''
             /\ new_events w' w'' = [EvReadCommand text])
  /\ (forall w', V2.keys_present (getline_concat text) = true ->
        V2.ProcessTradeCommands stof sc OutputPath w = Ok w' ->
        exists mid,
          new_events w w' = EvReadCommand text :: mid ++ [EvRemoveCommand]
          /\ Forall is_output mid
          /\ (command_removable w = true ->
              command_file w' = None
              /\ V2.ProcessTradeCommands stof sc OutputPath w' = Ok w')
          /\ (command_removable w = false -> command_file w' = Some text)).
Proof.
  intros Hfile. split; [|split; [|split; [|split]]].
  - intros Hne. cbv zeta.
    destruct (Bridge_poll_effect atof sc w text Hfile Hne)
      as (orders & resp & Ht & Hord & Hresp & Hc & _ & Hr & _).
    assert (Hnew : new_events w (snd (Bridge.processTradeCommands atof sc w))
                   = EvReadCommand text :: EvRemoveCommand :: orders ++ resp).
    { unfold new_events. rewrite Ht. apply drop_app_length. }
    assert (Hout : Forall is_output (orders ++ resp)).
    { apply outputs_app; [now apply orders_are_outputs|now apply responses_are_outputs]. }
    split; [exists (orders ++ resp); split; assumption|]. split.
    + intros Hrem. rewrite Hrem in Hc. split.
      * exists (orders ++ resp). split; [exact Hnew|]. split; [exact Hout|exact Hc].
      * unfold Bridge.processTradeCommands at 1. now rewrite Hc.
    + intros Hrem. rewrite Hrem in Hc. split; [exact Hc|].
      destruct (Bridge_poll_effect atof sc _ text Hc Hne)
        as (orders' & resp' & Ht' & _).
      exists (orders' ++ resp'). unfold new_events. rewrite Ht'. apply drop_app_length.
  - intros He. unfold Bridge.processTradeCommands. rewrite Hfile, He. cbn.
    split; [reflexivity|exact Hfile].
  - intros Hfit Hacc.
    destruct (Fixed_poll_effect stof sc w text Hfit Hfile Hacc)
      as (w' & orders & r & Hrun & Ht & Hord & _ & Hc).
    exists w'. eexists. split; [exact Hrun|]. split; [|split; [|split]].
    + unfold new_events. rewrite Ht, drop_app_length. rewrite app_assoc. reflexivity.
    + apply outputs_app; [now apply orders_are_outputs|].
      destruct (responses_writable w); repeat constructor.
    + intros Hrem. rewrite Hrem in Hc. split; [exact Hc|].
      unfold Fixed.ProcessTradeCommands. now rewrite Hc.
    + intros Hrem. now rewrite Hrem in Hc.
  - intros Hfit Hacc.
    pose proof (Fixed_poll_not_accepted stof sc w text Hfit Hfile Hacc) as Hrun.
    pose proof (continues_emit (EvReadCommand text) w) as Hcont.
    assert (Hfile' : command_file (emit (EvReadCommand text) w) = Some text).
    { destruct Hcont as (_ & Hc & _). now rewrite Hc. }
    eexists. split; [exact Hrun|]. split; [now apply new_events_continues|].
    split; [exact Hfile'|].
    eexists. split; [exact (Fixed_poll_not_accepted stof sc _ text Hfit Hfile' Hacc)|].
    apply new_events_continues, continues_emit.
  - intros w' Hkeys Hrun.
    destruct (V2_poll_effect stof sc OutputPath w w' text Hfile Hkeys Hrun)
      as (orders & resp & Ht & Hord & Hresp & Hc).
    eexists. split; [|split; [|split]].
    + unfold new_events. rewrite Ht, drop_app_length. rewrite app_assoc. reflexivity.
    + apply outputs_app; [now apply orders_are_outputs|now apply responses_are_outputs].
    + intros Hrem. rewrite Hrem in Hc. split; [exact Hc|].
      unfold V2.ProcessTradeCommands. now rewrite Hc.
    + intros Hrem. now rewrite Hrem in Hc.
Qed.

(** The market Buy of scenario 2 in the bridge: removed on read. *)
Lemma C1_command_consumption_witness :
  let text := json_of
    "{'command_id':'c1','action':'BUY','symbol':'NQ','quantity':2,'order_type':'MARKET'}" in
  Spec.removed_on_read text (channel_with (Some text))
    (snd (Bridge.processTradeCommands (fun _ => Finite 0) (snapshot 100 5 100 101)
            (channel_with (Some text)))).
Proof.
  cbv zeta.
  refine (proj1 (proj1 (proj2 (proj1
            (C1_command_consumption (fun _ => Ok (Finite 0)) (fun _ => Finite 0)
               (snapshot 100 5 100 101) EmptyString (channel_with (Some _)) _ eq_refl) _))
            eq_refl)).
  reflexivity.
Defined.

(** C1 as stated fails.  In the FIXED exporter a command with quantity 0
    is read and left in place, and the next poll reads the same content
    again; a valid command is removed only after the order went to the
    host and the response was written.  In the bridge a command file
    that cannot be removed is read, and its order sent, in every poll. *)
Lemma C1_command_consumption_counterexample :
  let sc := snapshot 100 5 100 101 in
  let stof := fun _ : string => Ok (Finite 0) in
  let atof := fun _ : string => Finite 0 in
  let bad := json_of "{'symbol':'NQ','side':'BUY','order_type':'MARKET','quantity':0}" in
  let good := json_of "{'symbol':'NQ','side':'BUY','order_type':'MARKET','quantity':2}" in
  let cmd := json_of
    "{'command_id':'c1','action':'BUY','symbol':'NQ','quantity':2,'order_type':'MARKET'}" in
  (exists w1 w2,
     Fixed.ProcessTradeCommands stof sc (channel_with (Some bad)) = Ok w1
     /\ command_file w1 = Some bad
     /\ Fixed.ProcessTradeCommands stof sc w1 = Ok w2
     /\ trace w2 = [EvReadCommand bad; EvReadCommand bad])
  /\ (exists w3 order path r,
        Fixed.ProcessTradeCommands stof sc (channel_with (Some good)) = Ok w3
        /\ trace w3 = [EvReadCommand good; EvHostOrder SubmitNewOrder order 1;
                       EvWriteResponse path r; EvRemoveCommand])
  /\ (exists order path r,
        let w1 := snd (Bridge.processTradeCommands atof sc (locked_channel_with (Some cmd))) in
        let w2 := snd (Bridge.processTradeCommands atof sc w1) in
        command_file w1 = Some cmd
        /\ trace w2 = [EvReadCommand cmd; EvRemoveCommand; EvHostOrder BuyEntry order 1;
                       EvWriteResponse path r;
                       EvReadCommand cmd; EvRemoveCommand; EvHostOrder BuyEntry order 1;
                       EvWriteResponse path r]).
Proof.
  cbv zeta. split; [|split].
  - eexists. eexists. split; [vm_compute; reflexivity|].
    split; [reflexivity|]. split; [vm_compute; reflexivity|]. reflexivity.
  - eexists. eexists. eexists. eexists. split; [vm_compute; reflexivity|]. reflexivity.
  - eexists. eexists. eexists. split; [vm_compute; reflexivity|].
    vm_compute. reflexivity.
Qed.

(** C2 (as amended).  Bridge: a poll that reads a command with some
    content writes, when the response file can be written, exactly one
    response, to the one response file: under the command's command_id
    when [parseTradeCommand] accepts it, REJECTED and without a host
    order when a check of [executeTrade] fails or the action is neither
    BUY nor SELL; under the id unknown, REJECTED and without a host
    order, when [parseTradeCommand] does not accept it.  When the
    response file cannot be written the poll writes no response.  FIXED:
    a command that passes the field test gets, when the response file
    can be written, exactly one response, under the generated id MINH_
    followed by the clock reading, and none when the file cannot be
    written; a command that fails the field test gets no response and no
    order. *)
Theorem C2_one_response (stof : string -> result float) (atof : string -> float)
    (sc : SCStudyInterface) (w : World) (text : string) :
  command_file w = Some text ->
  (empty (getline_concat text) = false ->
     let w' := snd (Bridge.processTradeCommands atof sc w) in
     (responses_writable w = true -> fits (getline_concat text) ->
      exists r flag cmd,
        Spec.one_response w w' r
        /\ response_files w' !! Bridge.TRADE_RESPONSES_FILE = Some r
        /\ Bridge.parseTradeCommand atof (getline_concat text) = Ok (flag, cmd)
        /\ (flag = true -> resp_id r = Bridge.command_id cmd)
        /\ (flag = true -> Bridge.validated sc cmd = false ->
            resp_status r = "REJECTED"%string
            /\ filter (fun e => is_order e) (new_events w w') = [])
        /\ (flag = true ->
            Bridge.action cmd <> "BUY"%string -> Bridge.action cmd <> "SELL"%string ->
            resp_status r = "REJECTED"%string
            /\ filter (fun e => is_order e) (new_events w w') = [])
        /\ (flag = false ->
            resp_id r = "unknown"%string /\ resp_status r = "REJECTED"%string
            /\ filter (fun e => is_order e) (new_events w w') = []))
     /\ (responses_writable w = false ->
         filter (fun e => is_response e) (new_events w w') = []))
  /\ (fits text -> Fixed.command_accepted text = true ->
      exists w',
        Fixed.ProcessTradeCommands stof sc w = Ok w'
        /\ (responses_writable w = true ->
            exists r, Spec.one_response w w' r
                      /\ resp_id r = ("MINH_" +:+ decimal (clock sc))%string)
        /\ (responses_writable w = false ->
            filter (fun e => is_response e) (new_events w w') = []))
  /\ (fits text -> Fixed.command_accepted text = false ->
      exists w',
        Fixed.ProcessTradeCommands stof sc w = Ok w'
        /\ filter (fun e => is_response e) (new_events w w') = []
        /\ filter (fun e => is_order e) (new_events w w') = []
        /\ response_files w' = response_files w).
Proof.
  intros Hfile. split; [|split].
  - intros Hne. cbv zeta.
    destruct (Bridge_poll_effect atof sc w text Hfile Hne)
      as (orders & resp & Ht & Hord & Hresp & Hc & _ & _ & Hnone & Hone).
    assert (Hnew : new_events w (snd (Bridge.processTradeCommands atof sc w))
                   = EvReadCommand text :: EvRemoveCommand :: orders ++ resp).
    { unfold new_events. rewrite Ht. apply drop_app_length. }
    split.
    + intros Hwr Hfit.
      destruct (Hone Hwr Hfit) as (r & -> & Hlook & flag & cmd & Hparse & Htrue & Hfalse).
      exists r, flag, cmd. unfold Spec.one_response. rewrite Hnew.
      split; [|split; [exact Hlook|split; [exact Hparse|split; [|split; [|split]]]]].
      * exists Bridge.TRADE_RESPONSES_FILE.
        rewrite filter_cons_False by (cbn; auto).
        rewrite filter_cons_False by (cbn; auto).
        rewrite filter_app, (filter_responses_of_orders orders Hord). reflexivity.
      * intros Hf. now apply Htrue.
      * intros Hf Hv. destruct (Htrue Hf) as (_ & Hrej).
        destruct (Hrej (or_introl Hv)) as (-> & Hst).
        split; [exact Hst|]. reflexivity.
      * intros Hf Hb Hs. destruct (Htrue Hf) as (_ & Hrej).
        destruct (Hrej (or_intror (conj Hb Hs))) as (-> & Hst).
        split; [exact Hst|]. reflexivity.
      * intros Hf. destruct (Hfalse Hf) as (Hid & Hst & ->).
        repeat split; assumption.
    + intros Hwr. rewrite Hnew, (Hnone Hwr), app_nil_r.
      rewrite filter_cons_False by (cbn; auto).
      rewrite filter_cons_False by (cbn; auto).
      now apply filter_responses_of_orders.
  - intros Hfit Hacc.
    destruct (Fixed_poll_effect stof sc w text Hfit Hfile Hacc)
      as (w' & orders & r & Hrun & Ht & Hord & Hid & Hc).
    exists w'. split; [exact Hrun|]. split.
    + intros Hwr. exists r. split; [|exact Hid].
      rewrite Hwr in Ht. unfold Spec.one_response. eexists.
      unfold new_events. rewrite Ht, drop_app_length.
      rewrite filter_cons_False by (cbn; auto).
      rewrite filter_app, (filter_responses_of_orders orders Hord). reflexivity.
    + intros Hwr. rewrite Hwr in Ht.
      unfold new_events. rewrite Ht, drop_app_length.
      rewrite filter_cons_False by (cbn; auto).
      rewrite filter_app, (filter_responses_of_orders orders Hord). reflexivity.
  - intros Hfit Hacc. eexists.
    split; [exact (Fixed_poll_not_accepted stof sc w text Hfit Hfile Hacc)|].
    rewrite (new_events_continues _ _ _ (continues_emit (EvReadCommand text) w)).
    repeat split; reflexivity.
Qed.

(** Scenario 3 in the bridge: a command with quantity 0 is answered
    REJECTED under the id unknown, and no order reaches the host. *)
Lemma C2_one_response_witness :
  let text := json_of "{'command_id':'c3','action':'BUY','symbol':'NQ','quantity':0}" in
  let w := channel_with (Some text) in
  let w' := snd (Bridge.processTradeCommands (fun _ => Finite 0) (snapshot 100 5 100 101) w) in
  exists r,
    Spec.one_response w w' r
    /\ resp_id r = "unknown"%string /\ resp_status r = "REJECTED"%string
    /\ filter (fun e => is_order e) (new_events w w') = [].
Proof.
  cbv zeta.
  destruct (proj1 (proj1 (C2_one_response (fun _ => Ok (Finite 0)) (fun _ => Finite 0)
                            (snapshot 100 5 100 101)
                            (channel_with
                               (Some (json_of
                                  "{'command_id':'c3','action':'BUY','symbol':'NQ','quantity':0}")))
                            _ eq_refl)
                     eq_refl) eq_refl ltac:(vm_compute; discriminate))
    as (r & flag & cmd & Hone & _ & Hparse & _ & _ & _ & Hfalse).
  exists r. split; [exact Hone|]. apply Hfalse.
  vm_compute in Hparse. now injection Hparse as <- _.
Defined.

(** C2 as stated fails on the FIXED exporter: a command with quantity 0
    is read and gets no response at all, and the response to a valid
    command is filed under a generated id, not under an id of the
    command. *)
Lemma C2_one_response_counterexample :
  let sc := snapshot 100 5 100 101 in
  let stof := fun _ : string => Ok (Finite 0) in
  let bad := json_of "{'command_id':'c3','symbol':'NQ','side':'BUY','quantity':0}" in
  let good := json_of
    "{'command_id':'c1','symbol':'NQ','side':'BUY','order_type':'MARKET','quantity':2}" in
  (exists w1,
     Fixed.ProcessTradeCommands stof sc (channel_with (Some bad)) = Ok w1
     /\ trace w1 = [EvReadCommand bad]
     /\ response_files w1 = ∅)
  /\ (exists w2 order path r,
        Fixed.ProcessTradeCommands stof sc (channel_with (Some good)) = Ok w2
        /\ trace w2 = [EvReadCommand good; EvHostOrder SubmitNewOrder order 1;
                       EvWriteResponse path r; EvRemoveCommand]
        /\ resp_id r = "MINH_1700000000000000"%string).
Proof.
  cbv zeta. split.
  - eexists. split; [vm_compute; reflexivity|]. split; reflexivity.
  - eexists. eexists. eexists. eexists. split; [vm_compute; reflexivity|].
    split; reflexivity.
Qed.

End ChannelFacts.

(** ** JSON escaping in the bridge *)

Module EscapeFacts.

Import Cxx BridgeJSON.

Lemma escape_letter_is_letter (c l : ascii) :
  escape_letter c = Some l -> is_escape_letter l = true.
Proof.
  unfold escape_letter.
  repeat match goal with |- context [if ?b then _ else _] => destruct b end;
    intros [= <-]; reflexivity.
Qed.

(** The letter determines the character that was replaced. *)
Lemma escape_letter_inj (c d l : ascii) :
  escape_letter c = Some l -> escape_letter d = Some l -> c = d.
Proof.
  unfold escape_letter. intros Hc Hd.
  rewrite <- (ascii_nat_embedding c), <- (ascii_nat_embedding d).
  repeat match type of Hc with
         | context [if (?n =? ?k)%nat then _ else _] =>
             destruct (Nat.eqb_spec n k) as [->|?]
         end; try discriminate;
  repeat match type of Hd with
         | context [if (?n =? ?k)%nat then _ else _] =>
             destruct (Nat.eqb_spec n k) as [->|?]
         end; try discriminate; try reflexivity;
  injection Hc as <-; discriminate.
Qed.

Lemma plain_char_not_backslash (c : ascii) :
  escape_letter c = None -> Ascii.eqb c backslash = false.
Proof.
  intros H. apply Ascii.eqb_neq. intros ->. discriminate.
Qed.

Lemma escapeJsonString_cons (c : ascii) (rest : string) :
  escapeJsonString (String c rest)
  = match escape_letter c with
    | Some l => String backslash (String l (escapeJsonString rest))
    | None => String c (escapeJsonString rest)
    end.
Proof. reflexivity. Qed.

(** Different inputs have different escaped forms, so the text can be
    recovered from what [escapeJsonString] wrote. *)
Theorem escapeJsonString_injective (a b : string) :
  escapeJsonString a = escapeJsonString b <-> a = b.
Proof.
  split; [|now intros ->].
  revert b. induction a as [|c a IH]; intros [|d b]; rewrite ?escapeJsonString_cons.
  - reflexivity.
  - cbn [escapeJsonString]. destruct (escape_letter d); discriminate.
  - cbn [escapeJsonString]. destruct (escape_letter c); discriminate.
  - destruct (escape_letter c) as [l|] eqn:Ec; destruct (escape_letter d) as [m|] eqn:Ed.
    + intros [= -> E]. f_equal; [now apply (escape_letter_inj c d m)|now apply IH].
    + intros [= <- _]. apply plain_char_not_backslash in Ed.
      now rewrite Ascii.eqb_refl in Ed.
    + intros [= -> _]. apply plain_char_not_backslash in Ec.
      now rewrite Ascii.eqb_refl in Ec.
    + intros [= -> E]. f_equal. now apply IH.
Qed.

(** In the text [escapeJsonString] writes, the quote, the backslash and
    the five control characters occur in escape pairs only. *)
Theorem escapeJsonString_escaped (input : string) :
  escaped_text (escapeJsonString input) = true.
Proof.
  induction input as [|c rest IH]; [reflexivity|].
  rewrite escapeJsonString_cons.
  destruct (escape_letter c) as [l|] eqn:Ec.
  - cbn [escaped_text]. rewrite Ascii.eqb_refl.
    now rewrite (escape_letter_is_letter c l Ec), IH.
  - cbn [escaped_text]. now rewrite (plain_char_not_backslash c Ec), Ec.
Qed.

Lemma length_escapeJsonString (input : string) :
  (String.length input <= String.length (escapeJsonString input)
   <= 2 * String.length input)%nat.
Proof.
  induction input as [|c rest IH]; [cbn; lia|].
  rewrite escapeJsonString_cons. destruct (escape_letter c); cbn [String.length]; lia.
Qed.

(** The text comes out unchanged exactly when it holds none of the seven
    characters; any other character, a control character below 32 too,
    is copied as it is.  The result is at most twice as long. *)
Theorem escapeJsonString_plain (input : string) :
  (escapeJsonString input = input <-> plain input = true)
  /\ size input <= size (escapeJsonString input) <= 2 * size input.
Proof.
  split; [|unfold size; pose proof (length_escapeJsonString input); lia].
  induction input as [|c rest IH]; [easy|].
  rewrite escapeJsonString_cons. cbn [plain].
  destruct (escape_letter c) as [l|] eqn:Ec.
  - split; [|discriminate]. intros E. apply (f_equal String.length) in E.
    cbn [String.length] in E. pose proof (length_escapeJsonString rest). lia.
  - split.
    + intros [= E]. now apply IH.
    + intros H. f_equal. now apply IH.
Qed.

End EscapeFacts.

(** ** Symbol filters and symbol cleaning *)

Module FilterFacts.

Import Cxx Host Exporter CxxFacts.

Lemma length_ToUpperCase (s : string) : String.length (ToUpperCase s) = String.length s.
Proof. induction s as [|c s IH]; [reflexivity|]. cbn. now rewrite IH. Qed.

Lemma index_app_skip (pre x needle : string) :
  String.index (String.length pre) needle (pre +:+ x)
  = (fun k => (String.length pre + k)%nat) <$> String.index 0 needle x.
Proof.
  induction pre as [|c pre IH].
  - change (EmptyString +:+ x) with x. cbn [String.length].
    destruct (String.index 0 needle x); reflexivity.
  - change (String c pre +:+ x) with (String c (pre +:+ x)).
    cbn [String.length String.index]. rewrite IH.
    destruct (String.index 0 needle x); reflexivity.
Qed.

Lemma comma_index_first (s : string) :
  String.index 0 "," s
  = (fun _ => String.length (FixedStudy.first_term s)) <$> FixedStudy.after_comma s.
Proof.
  induction s as [|c s IH]; [reflexivity|].
  cbn [String.index FixedStudy.first_term FixedStudy.after_comma String.prefix].
  destruct (Ascii.eqb_spec c ","%char) as [->|Hc].
  - destruct (ascii_dec "," ","); [|congruence]. now destruct s.
  - destruct (ascii_dec "," c) as [E|_]; [congruence|].
    rewrite IH. now destruct (FixedStudy.after_comma s).
Qed.

Lemma split_at_comma (s : string) :
  s = FixedStudy.first_term s
      +:+ match FixedStudy.after_comma s with
          | Some rest => String ","%char rest
          | None => EmptyString
          end.
Proof.
  induction s as [|c s IH]; [reflexivity|].
  cbn [FixedStudy.first_term FixedStudy.after_comma].
  destruct (Ascii.eqb_spec c ","%char) as [->|Hc]; [reflexivity|].
  change (String c s = String c (FixedStudy.first_term s +:+
            match FixedStudy.after_comma s with
            | Some rest => String ","%char rest
            | None => EmptyString
            end)).
  now rewrite <- IH.
Qed.

Lemma length_first_term (s : string) :
  (String.length (FixedStudy.first_term s) <= String.length s)%nat
  /\ match FixedStudy.after_comma s with
     | Some rest =>
         String.length s = S (String.length (FixedStudy.first_term s) + String.length rest)
     | None => FixedStudy.first_term s = s
     end.
Proof.
  induction s as [|c s [IH1 IH2]]; [split; reflexivity|].
  cbn [FixedStudy.first_term FixedStudy.after_comma].
  destruct (Ascii.eqb c ","%char); cbn [String.length]; [split; lia|].
  split; [lia|]. destruct (FixedStudy.after_comma s); [lia|now rewrite IH2].
Qed.

Lemma substring_prefix_app (t rest : string) :
  String.substring 0 (String.length t) (t +:+ rest) = t.
Proof.
  induction t as [|c t IH]; [now destruct rest|].
  change (String c t +:+ rest) with (String c (t +:+ rest)).
  cbn [String.length String.substring]. now rewrite IH.
Qed.

Lemma substring_mid (pre t rest : string) :
  String.substring (String.length pre) (String.length t) (pre +:+ t +:+ rest) = t.
Proof.
  induction pre as [|c pre IH]; [exact (substring_prefix_app t rest)|].
  change (String c pre +:+ t +:+ rest) with (String c (pre +:+ t +:+ rest)).
  cbn [String.length String.substring]. apply IH.
Qed.

Lemma append_assoc (a b c : string) : (a +:+ b) +:+ c = a +:+ b +:+ c.
Proof.
  induction a as [|x a IH]; [reflexivity|].
  change (String x ((a +:+ b) +:+ c) = String x (a +:+ b +:+ c)). now rewrite IH.
Qed.

Lemma append_nil_r (a : string) : a +:+ EmptyString = a.
Proof.
  induction a as [|x a IH]; [reflexivity|].
  change (String x (a +:+ EmptyString) = String x a). now rewrite IH.
Qed.

Lemma filter_terms_unfold (c : ascii) (s : string) :
  FixedStudy.filter_terms (String c s)
  = FixedStudy.first_term (String c s)
    :: match FixedStudy.after_comma (String c s) with
       | Some rest => FixedStudy.filter_terms rest
       | None => []
       end.
Proof.
  revert c. induction s as [|d s IH]; intros c.
  - cbn. now destruct (Ascii.eqb c ","%char).
  - cbn [FixedStudy.filter_terms FixedStudy.first_term FixedStudy.after_comma] in *.
    destruct (Ascii.eqb c ","%char); [reflexivity|].
    specialize (IH d). cbn [FixedStudy.filter_terms] in IH. rewrite IH.
    reflexivity.
Qed.

Lemma find_comma_app (pre suf : string) :
  fits (pre +:+ suf) ->
  find_char (pre +:+ suf) ","%char (size pre)
  = match FixedStudy.after_comma suf with
    | Some _ => size pre + size (FixedStudy.first_term suf)
    | None => npos
    end.
Proof.
  intros Hfit. unfold find_char, find.
  rewrite size_append. pose proof (size_nonneg suf).
  destruct (Z.ltb_spec (size pre + size suf) (size pre)); [lia|].
  unfold size at 1. rewrite Nat2Z.id, index_app_skip, comma_index_first.
  destruct (FixedStudy.after_comma suf); cbn; [|reflexivity].
  unfold size. lia.
Qed.

Lemma contains_empty (haystack : string) : ContainsSubstring haystack EmptyString = true.
Proof.
  unfold ContainsSubstring, find. pose proof (size_nonneg haystack).
  destruct (Z.ltb_spec (size haystack) 0); [lia|].
  change (Z.to_nat 0) with 0%nat.
  assert (E : String.index 0 EmptyString haystack = Some 0%nat) by now destruct haystack.
  rewrite E. reflexivity.
Qed.

Lemma filter_loop_terms (sym : string) (fuel : nat) (pre suf : string) :
  fits (pre +:+ suf) -> (String.length suf < fuel)%nat ->
  FixedStudy.filter_loop fuel sym (pre +:+ suf) (size pre)
  = Done (negb (existsb (ContainsSubstring sym) (FixedStudy.filter_terms suf))).
Proof.
  revert pre suf. induction fuel as [|fuel IH]; intros pre suf Hfit Hfuel; [lia|].
  pose proof (size_nonneg pre) as Hpre. pose proof (size_nonneg suf) as Hsuf.
  assert (Hsz : size (pre +:+ suf) = size pre + size suf) by apply size_append.
  assert (Hmax : size pre + size suf <= 2 ^ 63 - 1) by (unfold fits, max_size in Hfit; lia).
  cbn [FixedStudy.filter_loop]. rewrite Hsz.
  destruct suf as [|c suf'].
  - destruct (Z.ltb_spec (size pre) (size pre + size EmptyString)) as [H|_]; [|reflexivity].
    unfold size in H. cbn in H. lia.
  - pose proof (filter_terms_unfold c suf') as Hterms.
    assert (Hlen : 0 < size (String c suf')) by (unfold size; cbn [String.length]; lia).
    remember (String c suf') as suf eqn:Esuf. clear Esuf c suf'.
    destruct (Z.ltb_spec (size pre) (size pre + size suf)) as [_|H]; [|lia].
    rewrite (find_comma_app pre suf Hfit).
    pose proof (length_first_term suf) as [Hft1 Hft2].
    pose proof (split_at_comma suf) as Hsplit.
    rewrite Hterms. clear Hterms.
    destruct (FixedStudy.after_comma suf) as [rest|] eqn:Eafter.
    + cbn beta iota in Hft2, Hsplit.
      remember (FixedStudy.first_term suf) as ft eqn:Eft. clear Eft.
      assert (Hft : 0 <= size ft) by apply size_nonneg.
      assert (Hsuf' : size suf = size ft + 1 + size rest) by (unfold size; lia).
      pose proof (size_nonneg rest) as Hrest.
      destruct (Z.eqb_spec (size pre + size ft) npos) as [E|_]; [unfold npos in E; lia|].
      replace (size pre + size ft - size pre) with (size ft) by lia.
      unfold size_t. rewrite (Z.mod_small (size ft)) by lia.
      rewrite substr_ok by lia. rewrite Hsz.
      replace (Z.min (size ft) (size pre + size suf - size pre)) with (size ft) by lia.
      unfold size at 1 2. rewrite !Nat2Z.id.
      rewrite Hsplit at 1. rewrite substring_mid.
      cbn [of_result and_then existsb].
      destruct (ContainsSubstring sym ft); [reflexivity|]. cbn [orb].
      rewrite Z.mod_small by lia.
      assert (Hs : pre +:+ suf = (pre +:+ ft +:+ ",") +:+ rest).
      { rewrite Hsplit at 1. now rewrite !append_assoc. }
      assert (Hp : size pre + size ft + 1 = size (pre +:+ ft +:+ ",")).
      { rewrite !size_append. change (size ",") with 1. lia. }
      rewrite Hs, Hp. apply IH; [now rewrite <- Hs|lia].
    + cbn beta iota in Hft2, Hsplit.
      assert (Hft : FixedStudy.first_term suf = suf) by exact Hft2.
      rewrite Hft.
      destruct (Z.eqb_spec npos npos) as [_|E]; [|congruence].
      replace (size pre + size suf - size pre) with (size suf) by lia.
      unfold size_t. rewrite (Z.mod_small (size suf)) by lia.
      rewrite substr_ok by lia. rewrite Hsz.
      replace (Z.min (size suf) (size pre + size suf - size pre)) with (size suf) by lia.
      unfold size at 1 2. rewrite !Nat2Z.id.
      pose proof (substring_mid pre suf EmptyString) as Hsub.
      rewrite append_nil_r in Hsub. rewrite Hsub.
      cbn [of_result and_then existsb].
      destruct (ContainsSubstring sym suf); [reflexivity|]. cbn [orb negb].
      rewrite Z.mod_small by lia.
      destruct fuel as [|fuel]; [unfold size in Hlen; lia|].
      cbn [FixedStudy.filter_loop]. rewrite Hsz.
      destruct (Z.ltb_spec (size pre + size suf + 1) (size pre + size suf)); [lia|reflexivity].
Qed.

Lemma toupper_idem (c : ascii) : toupper (toupper c) = toupper c.
Proof. destruct c as [[] [] [] [] [] [] [] []]; reflexivity. Qed.

Lemma ToUpperCase_idem (s : string) : ToUpperCase (ToUpperCase s) = ToUpperCase s.
Proof.
  induction s as [|c s IH]; [reflexivity|]. cbn. now rewrite toupper_idem, IH.
Qed.

Lemma fits_ToUpperCase (s : string) : fits s -> fits (ToUpperCase s).
Proof. unfold fits, size. now rewrite length_ToUpperCase. Qed.

Lemma empty_ToUpperCase (s : string) : empty (ToUpperCase s) = empty s.
Proof. now destruct s. Qed.

Lemma ToUpperCase_app (a b : string) :
  ToUpperCase (a +:+ b) = ToUpperCase a +:+ ToUpperCase b.
Proof.
  induction a as [|c a IH]; [reflexivity|].
  change (String (toupper c) (ToUpperCase (a +:+ b))
          = String (toupper c) (ToUpperCase a +:+ ToUpperCase b)).
  now rewrite IH.
Qed.

Lemma Fixed_filter_terms (symbol filter : string) :
  fits filter ->
  FixedStudy.IsSymbolFiltered symbol filter
  = Done (negb (empty filter)
          && negb (existsb (ContainsSubstring (ToUpperCase symbol))
                     (FixedStudy.filter_terms (ToUpperCase filter)))).
Proof.
  intros Hf. unfold FixedStudy.IsSymbolFiltered, SCStringToStdString.
  destruct (empty filter) eqn:E; [reflexivity|]. cbn [negb andb].
  apply (filter_loop_terms (ToUpperCase symbol) _ EmptyString (ToUpperCase filter)).
  - now apply fits_ToUpperCase.
  - lia.
Qed.

(** The FIXED filter: the chart is skipped exactly when the filter is not
    empty and none of its terms occurs in the symbol, anywhere in it and
    whatever the letter case; the loop ends and [substr] does not throw. *)
Theorem Fixed_IsSymbolFiltered_terms (symbol filter : string) :
  fits filter ->
  FixedStudy.IsSymbolFiltered symbol filter
  = Done (negb (empty filter)
          && negb (existsb (ContainsSubstring (ToUpperCase symbol))
                     (FixedStudy.filter_terms (ToUpperCase filter))))
  /\ FixedStudy.IsSymbolFiltered (ToUpperCase symbol) (ToUpperCase filter)
     = FixedStudy.IsSymbolFiltered symbol filter.
Proof.
  intros Hfit. split; [now apply Fixed_filter_terms|].
  rewrite !Fixed_filter_terms by (try apply fits_ToUpperCase; assumption).
  now rewrite !ToUpperCase_idem, empty_ToUpperCase.
Qed.

(** The default filter lets a front-month NQ contract through. *)
Lemma Fixed_IsSymbolFiltered_terms_witness :
  FixedStudy.IsSymbolFiltered "NQU25-CME" "NQ,ES,YM,RTY,VIX" = Done false
  /\ FixedStudy.IsSymbolFiltered "CLZ25" "NQ,ES,YM,RTY,VIX" = Done true.
Proof.
  split.
  - rewrite (proj1 (Fixed_IsSymbolFiltered_terms "NQU25-CME" "NQ,ES,YM,RTY,VIX"
                      ltac:(vm_compute; discriminate))).
    vm_compute. reflexivity.
  - rewrite (proj1 (Fixed_IsSymbolFiltered_terms "CLZ25" "NQ,ES,YM,RTY,VIX"
                      ltac:(vm_compute; discriminate))).
    vm_compute. reflexivity.
Defined.

Lemma empty_term_after (pre rest : string) :
  In EmptyString
     (tl (FixedStudy.filter_terms (pre +:+ String ","%char (String ","%char rest)))).
Proof.
  induction pre as [|c pre IH].
  - cbn. now left.
  - change (String c pre +:+ String ","%char (String ","%char rest))
      with (String c (pre +:+ String ","%char (String ","%char rest))).
    cbn [FixedStudy.filter_terms].
    destruct (Ascii.eqb c ","%char).
    + cbn [tl]. destruct (FixedStudy.filter_terms _) as [|t ts]; [destruct IH|].
      right. exact IH.
    + destruct (FixedStudy.filter_terms _) as [|t ts]; [destruct IH|]. exact IH.
Qed.

(** A filter that starts with a comma, or has two commas in a row, holds
    an empty term; the empty term occurs in every symbol, so such a
    filter skips no chart at all. *)
Theorem Fixed_IsSymbolFiltered_empty_term (symbol filter pre rest : string) :
  fits filter ->
  filter = String ","%char rest \/ filter = pre +:+ String ","%char (String ","%char rest) ->
  FixedStudy.IsSymbolFiltered symbol filter = Done false.
Proof.
  intros Hfit Hshape.
  rewrite (Fixed_filter_terms symbol filter Hfit).
  assert (Hin : In EmptyString (FixedStudy.filter_terms (ToUpperCase filter))).
  { destruct Hshape as [-> | ->].
    - cbn. now left.
    - rewrite ToUpperCase_app.
      change (ToUpperCase (String ","%char (String ","%char rest)))
        with (String ","%char (String ","%char (ToUpperCase rest))).
      pose proof (empty_term_after (ToUpperCase pre) (ToUpperCase rest)) as H.
      destruct (FixedStudy.filter_terms _) as [|t ts]; [destruct H|]. now right. }
  assert (E : existsb (ContainsSubstring (ToUpperCase symbol))
                (FixedStudy.filter_terms (ToUpperCase filter)) = true).
  { apply existsb_exists. exists EmptyString. split; [exact Hin|apply contains_empty]. }
  rewrite E. now rewrite andb_false_r.
Qed.

Lemma Fixed_IsSymbolFiltered_empty_term_witness :
  FixedStudy.IsSymbolFiltered "CLZ25" "NQ,,ES" = Done false.
Proof.
  apply (Fixed_IsSymbolFiltered_empty_term "CLZ25" "NQ,,ES" "NQ" "ES").
  - vm_compute. discriminate.
  - right. reflexivity.
Defined.

Lemma substring_0_ToUpperCase (n : nat) (s : string) :
  String.substring 0 n (ToUpperCase s) = ToUpperCase (String.substring 0 n s).
Proof.
  revert n. induction s as [|c s IH]; intros [|n]; try reflexivity.
  cbn. now rewrite IH.
Qed.

Lemma Complete_filter_root (symbol filter : string) :
  CompleteStudy.IsSymbolFiltered symbol filter
  = Ok (empty filter
        || ContainsSubstring (ToUpperCase filter)
             (ToUpperCase (String.substring 0 2 symbol))).
Proof.
  unfold CompleteStudy.IsSymbolFiltered, SCStringToStdString.
  destruct filter as [|f filter']; [reflexivity|].
  assert (E : (size (String f filter') =? 0) = false).
  { apply Z.eqb_neq. unfold size. cbn [String.length]. lia. }
  rewrite E. cbn [empty orb].
  remember (ToUpperCase (String f filter')) as flt eqn:Eflt. clear Eflt E.
  destruct symbol as [|a [|b [|c r]]]; try reflexivity.
  unfold substr at 1.
  destruct (Z.ltb_spec (size (ToUpperCase (String a (String b (String c r))))) 0) as [Hs|_].
  { pose proof (size_nonneg (ToUpperCase (String a (String b (String c r))))). lia. }
  assert (Hmin : Z.to_nat (Z.min 3 (size (ToUpperCase (String a (String b (String c r)))) - 0))
                 = 3%nat).
  { unfold size. cbn [ToUpperCase String.length]. lia. }
  rewrite Hmin. change (Z.to_nat 0) with 0%nat.
  cbn [ToUpperCase String.substring bind].
  assert (E0 : forall x, String.substring 0 0 x = EmptyString) by now intros [].
  rewrite !E0. reflexivity.
Qed.

(** The COMPLETE filter: a chart is accepted exactly when the filter is
    empty or the first two characters of the symbol (all of it when it is
    shorter), in upper case, occur somewhere in the upper-case filter
    text; no exception leaves the function.  So the rest of the symbol
    does not matter, and an empty symbol is always accepted. *)
Theorem Complete_IsSymbolFiltered_root (symbol filter : string) :
  CompleteStudy.IsSymbolFiltered symbol filter
  = Ok (empty filter
        || ContainsSubstring (ToUpperCase filter)
             (ToUpperCase (String.substring 0 2 symbol)))
  /\ CompleteStudy.IsSymbolFiltered (String.substring 0 2 symbol) filter
     = CompleteStudy.IsSymbolFiltered symbol filter
  /\ CompleteStudy.IsSymbolFiltered EmptyString filter = Ok true.
Proof.
  split; [apply Complete_filter_root|]. split.
  - rewrite !Complete_filter_root. do 3 f_equal.
    destruct symbol as [|a [|b [|c r]]]; reflexivity.
  - rewrite Complete_filter_root. cbn [String.substring ToUpperCase].
    now rewrite contains_empty, orb_true_r.
Qed.

Lemma clean_chars_length (s : string) :
  String.length (clean_chars s) = String.length s.
Proof. induction s as [|c s IH]; [reflexivity|]. cbn. now rewrite IH. Qed.

Lemma clean_char_idem (c : ascii) : clean_char (clean_char c) = clean_char c.
Proof.
  unfold clean_char.
  destruct (Ascii.eqb c "-"%char || Ascii.eqb c "."%char) eqn:E; [reflexivity|].
  now rewrite E.
Qed.

(** The cleaned symbol of a symbol of up to 255 characters: as long as
    the symbol, the same characters but for an underscore in place of
    every hyphen and dot, and unchanged by a second cleaning.  A longer
    symbol makes the loop write outside its array. *)
Theorem CleanSymbol_spec (Symbol : string) :
  (size Symbol <= 255 ->
     exists cleaned,
       CleanSymbol Symbol = Done cleaned
       /\ size cleaned = size Symbol
       /\ (forall i c, String.get i Symbol = Some c ->
             String.get i cleaned
             = Some (if Ascii.eqb c "-"%char || Ascii.eqb c "."%char then "_"%char else c))
       /\ (forall i, String.get i cleaned <> Some "-"%char
                     /\ String.get i cleaned <> Some "."%char)
       /\ CleanSymbol cleaned = Done cleaned)
  /\ (255 < size Symbol -> CleanSymbol Symbol = Undefined).
Proof.
  unfold CleanSymbol. split.
  - intros Hlen. exists (clean_chars Symbol).
    destruct (Z.leb_spec (size Symbol) 255); [|lia].
    assert (Hsz : size (clean_chars Symbol) = size Symbol)
      by (unfold size; now rewrite clean_chars_length).
    split; [reflexivity|]. split; [exact Hsz|]. split; [|split].
    + clear. induction Symbol as [|d s IH]; intros i c Hget; [discriminate|].
      destruct i as [|i]; cbn in *.
      * injection Hget as ->. reflexivity.
      * now apply IH.
    + clear. induction Symbol as [|d s IH]; intros i; [split; discriminate|].
      destruct i as [|i]; cbn [clean_chars String.get]; [|apply IH].
      unfold clean_char.
      destruct (Ascii.eqb_spec d "-"%char); [split; discriminate|].
      destruct (Ascii.eqb_spec d "."%char); [split; discriminate|].
      cbn [orb]. split; congruence.
    + rewrite Hsz. destruct (Z.leb_spec (size Symbol) 255); [|lia].
      f_equal. clear. induction Symbol as [|d s IH]; [reflexivity|].
      cbn. now rewrite clean_char_idem, IH.
  - intros Hlen. destruct (Z.leb_spec (size Symbol) 255); [lia|reflexivity].
Qed.

End FilterFacts.

(** ** Runs of the tick normalisers *)

Module RunFacts.

Import Cxx Host Ticks States Exporter QFacts NormalizerFacts TickBufferFacts.

(** Pushing a tick and asking for the most recent one gives that tick
    back, with the sequence number the buffer had reached; unless its
    timestamp is 0, the mark of an empty slot, and then nothing comes
    back. *)
Theorem AddTick_then_recent (t : TickTrade) (b : TickBuffer) :
  wf_buffer b ->
  GetRecentTicks 1 (AddTick t b)
  = if 0 <? timestamp_us t then [set_sequence t (sequenceCounter b)] else [].
Proof.
  intros (Hm & Hlen & Hw & Hs).
  unfold GetRecentTicks, recent_index, AddTick.
  cbn [buffer writeIndex maxSize sequenceCounter].
  replace (if 1 <? maxSize b then 1 else maxSize b) with 1
    by (destruct (Z.ltb_spec 1 (maxSize b)); lia).
  change (seqZ 0 1) with [0]. cbn [omap list_omap].
  rewrite (size_t_id (writeIndex b + 1)) by lia.
  assert (Hidx : size_t ((writeIndex b + 1) mod maxSize b - 1 + 0 + maxSize b) mod maxSize b
                 = writeIndex b).
  { pose proof (Z.mod_pos_bound (writeIndex b + 1) (maxSize b) ltac:(lia)) as Hb.
    rewrite size_t_id by lia.
    destruct (Z.eq_dec (writeIndex b + 1) (maxSize b)) as [E|E].
    - rewrite E, Z_mod_same_full. replace (0 - 1 + 0 + maxSize b) with (maxSize b - 1) by lia.
      rewrite Z.mod_small; lia.
    - rewrite (Z.mod_small (writeIndex b + 1)) by lia.
      replace (writeIndex b + 1 - 1 + 0 + maxSize b) with (writeIndex b + 1 * maxSize b) by lia.
      rewrite Z_mod_plus_full. apply Z.mod_small. lia. }
  rewrite Hidx, list_lookup_insert_eq by lia.
  cbn [timestamp_us set_sequence]. now destruct (0 <? timestamp_us t).
Qed.

Lemma AddTick_then_recent_witness :
  GetRecentTicks 1 (AddTick (tick_of 7 100 1) (TickBuffer_new 3))
  = [set_sequence (tick_of 7 100 1) 0].
Proof.
  rewrite (AddTick_then_recent (tick_of 7 100 1) (TickBuffer_new 3)
             (wf_new 3 ltac:(lia))).
  reflexivity.
Defined.

(** What one call of [ExportTickData] does to the globals, for a tick
    that is emitted and for a snapshot that is skipped. *)
Lemma Fixed_step (sc : SCStudyInterface) (g : Globals) :
  match snd (Fixed.ExportTickData sc g) with
  | Some t =>
      g_TickBuffer (fst (Fixed.ExportTickData sc g)) = AddTick t (g_TickBuffer g)
      /\ g_TotalTrades (fst (Fixed.ExportTickData sc g)) = uint32 (g_TotalTrades g + 1)
      /\ g_LastPrice (fst (Fixed.ExportTickData sc g)) = price t
      /\ trade_count t = uint32 (g_TotalTrades g + 1)
      /\ (~ (price t == g_LastPrice g)%Q \/ (g_LastPrice g == 0)%Q)
      /\ 0 < size t
  | None =>
      g_TickBuffer (fst (Fixed.ExportTickData sc g)) = g_TickBuffer g
      /\ g_TotalTrades (fst (Fixed.ExportTickData sc g)) = g_TotalTrades g
      /\ g_LastPrice (fst (Fixed.ExportTickData sc g)) = g_LastPrice g
  end.
Proof.
  unfold Fixed.ExportTickData.
  destruct (Qgtb (Volume sc (Index sc)) 0); [|cbn; auto].
  destruct (Qgtb (Bid sc) 0 && Qgtb (Ask sc) 0);
    destruct (Fixed.isNewTrade sc g) eqn:E; cbn [fst snd g_TickBuffer g_TotalTrades
      g_LastPrice trade_count price size]; auto;
    unfold Fixed.isNewTrade in E; apply andb_true_iff in E; destruct E as [Ev Ep];
    apply Z.ltb_lt in Ev; apply orb_true_iff in Ep;
    (repeat split; try reflexivity; try assumption);
    destruct Ep as [Ep|Ep]; reflect_Q; auto.
Qed.


Section Runs.

Variable step : SCStudyInterface -> Globals -> Globals * option TickTrade.

Hypothesis step_effect : forall sc g,
  match snd (step sc g) with
  | Some t =>
      g_TickBuffer (fst (step sc g)) = AddTick t (g_TickBuffer g)
      /\ g_TotalTrades (fst (step sc g)) = uint32 (g_TotalTrades g + 1)
      /\ trade_count t = uint32 (g_TotalTrades g + 1)
  | None =>
      g_TickBuffer (fst (step sc g)) = g_TickBuffer g
      /\ g_TotalTrades (fst (step sc g)) = g_TotalTrades g
  end.

Lemma run_cons (sc : SCStudyInterface) (scs : list SCStudyInterface) (g : Globals) :
  run step (sc :: scs) g
  = (fst (run step scs (fst (step sc g))),
     match snd (step sc g) with
     | Some t => t :: snd (run step scs (fst (step sc g)))
     | None => snd (run step scs (fst (step sc g)))
     end).
Proof.
  cbn [run]. destruct (step sc g) as [g1 tick]. cbn [fst snd].
  now destruct (run step scs g1).
Qed.


End Runs.




Lemma Qabs_zero (x : Q) : (Qabs x == 0)%Q <-> (x == 0)%Q.
Proof.
  split.
  - apply Qabs_case; intros Hs Ha; lra.
  - intros H. rewrite H. reflexivity.
Qed.

(** [EstimateVolume]: 1 for the first observation, 0 for an unchanged
    price, and otherwise between 1 and 1000 whatever the tick size; so a
    tick the COMPLETE exporter emits for a snapshot without host volume
    carries a size between 1 and 1000. *)
Theorem EstimateVolume_bounds (sc : SCStudyInterface) (currentPrice lastPrice : Q)
    (g : Globals) (t : TickTrade) :
  0 <= Complete.EstimateVolume sc currentPrice lastPrice <= 1000
  /\ (Complete.EstimateVolume sc currentPrice lastPrice = 0
      <-> ~ (lastPrice == 0)%Q /\ (currentPrice == lastPrice)%Q)
  /\ ((lastPrice == 0)%Q -> Complete.EstimateVolume sc currentPrice lastPrice = 1)
  /\ ((Volume sc (Index sc) <= 0)%Q -> snd (Complete.ExportTickData sc g) = Some t ->
      1 <= size t <= 1000).
Proof.
  assert (Hb : forall cur last,
            0 <= Complete.EstimateVolume sc cur last <= 1000
            /\ (Complete.EstimateVolume sc cur last = 0
                <-> ~ (last == 0)%Q /\ (cur == last)%Q)
            /\ ((last == 0)%Q -> Complete.EstimateVolume sc cur last = 1)).
  { intros cur last. unfold Complete.EstimateVolume.
    destruct (Qeq_bool last 0) eqn:E0; reflect_Q.
    - split; [lia|]. split; [|reflexivity]. split; [discriminate|]. tauto.
    - destruct (Qeq_bool (Qabs (cur - last)) 0) eqn:E1; reflect_Q.
      + apply (proj1 (Qabs_zero _)) in E1. split; [lia|]. split; [|contradiction].
        split; [|reflexivity]. intros _. split; [assumption|lra].
      + assert (Hne : ~ (cur == last)%Q).
        { intros H. apply E1. apply Qabs_zero. lra. }
        set (v := to_uint32 _).
        split; [|split; [|contradiction]].
        * destruct (Z.ltb_spec v 1); destruct (Z.ltb_spec 1000 1); try lia;
            destruct (Z.ltb_spec 1000 v); lia.
        * split; [|tauto]. intros H. exfalso. revert H.
          destruct (Z.ltb_spec v 1); destruct (Z.ltb_spec 1000 1); try lia;
            destruct (Z.ltb_spec 1000 v); lia. }
  destruct (Hb currentPrice lastPrice) as (H1 & H2 & H3).
  split; [exact H1|]. split; [exact H2|]. split; [exact H3|].
  intros Hvol Ht.
  pose proof (Complete_emitted_tick sc g t Ht) as [_ Hsz].
  assert (Hnew : Complete.isNewTrade sc g = true).
  { apply Complete_emits_iff_test. rewrite Ht. now eexists. }
  rewrite Hsz. unfold Complete.isNewTrade in Hnew. unfold Complete.ActualVolume in *.
  destruct (Qgtb (Volume sc (Index sc)) 0) eqn:Ev; reflect_Q; [lra|].
  destruct (Hb (Close sc (Index sc)) (g_LastPrice g)) as (B1 & B2 & B3).
  destruct (Z.eq_dec (Complete.EstimateVolume sc (Close sc (Index sc)) (g_LastPrice g)) 0)
    as [E|E]; [|lia].
  exfalso. rewrite E in Hnew. apply B2 in E. destruct E as [En Ee].
  destruct (Qneb _ _) eqn:Q1; reflect_Q; [contradiction|].
  cbn in Hnew. destruct (Qeq_bool (g_LastPrice g) 0) eqn:Q2; reflect_Q; [contradiction|].
  discriminate.
Qed.

End RunFacts.

(** ** The bridge study *)

Module BridgeStudyFacts.

Import Cxx Host States QFacts NormalizerFacts ExecutorFacts CxxFacts ParserFacts ChannelFacts.

Ltac count_orders :=
  repeat first [ rewrite filter_cons_False by (cbn; auto)
               | rewrite filter_cons_True by (cbn; auto) ];
  rewrite ?filter_nil; cbn [length]; lia.

Lemma new_events_app (w w' : World) (evs : list Event) :
  trace w' = trace w ++ evs -> new_events w w' = evs.
Proof. intros H. unfold new_events. rewrite H. apply drop_app_length. Qed.

Section Study.

Variable atof : string -> float.

(** The [DWORD] subtraction of the update throttle is right across the
    wrap of [GetTickCount()]: when the time that really passed since the
    last update is below 2^32 ms, the update is due exactly when that
    time has reached the interval. *)
Theorem update_due_across_wrap (sc : SCStudyInterface) (inp : Bridge.Inputs)
    (st : Bridge.StudyState) (t0 elapsed : Z) :
  Bridge.lastUpdate st = uint32 t0 ->
  clock sc = t0 + elapsed ->
  0 <= elapsed < 2 ^ 32 ->
  0 <= Bridge.Input_UpdateInterval inp < 2 ^ 32 ->
  Bridge.update_due sc inp st = (Bridge.Input_UpdateInterval inp <=? elapsed).
Proof.
  intros Hlast Hclock He Hi. unfold Bridge.update_due.
  rewrite Hlast, Hclock, (uint32_id _ Hi). f_equal.
  unfold uint32. rewrite <- Zminus_mod.
  replace (t0 + elapsed - t0) with elapsed by lia.
  apply Z.mod_small. lia.
Qed.

Lemma update_due_across_wrap_witness :
  Bridge.update_due
    {| Symbol := "NQ"; Index := 1; ArraySize := 2; Close := fun _ => 100%Q;
       Open := fun _ => 100%Q; High := fun _ => 100%Q; Low := fun _ => 100%Q;
       Volume := fun _ => 1%Q; Bid := 99; Ask := 101; TickSize := 1 # 4;
       AllowEntryWithWorkingOrders := true; SendOrdersToTradeService := true;
       Input_OutputPath := EmptyString; order_result := fun _ _ => 1;
       clock := 2 ^ 32 + 400; uninit_sequence := 0 |}
    {| Bridge.Input_UpdateInterval := 1000; Bridge.Input_EnableLogging := false;
       Bridge.Input_EnableTrading := false; Bridge.Input_TradeCheckInterval := 500 |}
    {| Bridge.initialized := true; Bridge.lastUpdate := 2 ^ 32 - 600;
       Bridge.lastTradeCheck := 0; Bridge.packetsWritten := 0;
       Bridge.validationErrors := 0; Bridge.tradesExecuted := 0;
       Bridge.startTime := 0; Bridge.tradingEnabled := false |}
  = true.
Proof.
  rewrite (update_due_across_wrap _ _ _ (2 ^ 32 - 600) 1000);
    [reflexivity | reflexivity | reflexivity | lia | cbn; lia].
Defined.

Lemma executeTrade_cases (sc : SCStudyInterface) (cmd : Bridge.TradeCommand)
    (fillPrice : float) (w : World) :
  (exists q, Bridge.executeTrade sc cmd fillPrice w = (0, q, w))
  \/ (Bridge.validated sc cmd = true
      /\ exists call q,
           (call = BuyEntry \/ call = SellEntry)
           /\ Bridge.executeTrade sc cmd fillPrice w
              = (order_result sc call (Bridge.order_of cmd), q,
                 emit (EvHostOrder call (Bridge.order_of cmd)
                         (order_result sc call (Bridge.order_of cmd))) w)).
Proof.
  destruct (Bridge.validated sc cmd) eqn:Hv.
  - destruct (String.eqb (Bridge.action cmd) "BUY") eqn:Hb;
      [|destruct (String.eqb (Bridge.action cmd) "SELL") eqn:Hs].
    + apply String.eqb_eq in Hb. right. split; [reflexivity|].
      exists BuyEntry, (Finite (Ask sc)). split; [now left|]. now apply executeTrade_buy.
    + apply String.eqb_eq in Hs. right. split; [reflexivity|].
      exists SellEntry, (Finite (Bid sc)). split; [now right|]. now apply executeTrade_sell.
    + left. apply String.eqb_neq in Hb, Hs. eexists.
      now apply executeTrade_other.
  - left. exists fillPrice. now apply executeTrade_not_validated.
Qed.

Lemma validated_bounds (sc : SCStudyInterface) (cmd : Bridge.TradeCommand) :
  Bridge.validated sc cmd = true ->
  AllowEntryWithWorkingOrders sc = true /\ SendOrdersToTradeService sc = true
  /\ 0 < Bridge.quantity cmd <= Bridge.MAX_POSITION_SIZE
  /\ (0 < Bid sc)%Q /\ (0 < Ask sc)%Q.
Proof.
  unfold Bridge.validated. rewrite !andb_true_iff.
  intros ((((((Ha & Hs) & _) & Hq) & Hmax) & Hask) & Hbid).
  apply Z.ltb_lt in Hq. apply Z.leb_le in Hmax. reflect_Q. auto.
Qed.

(** Whatever the command file holds, one poll of the bridge hands at most
    one order to the host, and only a market order for 1 to 10 contracts,
    through [BuyEntry] or [SellEntry], while both quotes are positive and
    both trading switches of the study are on. *)
Theorem Bridge_poll_orders (sc : SCStudyInterface) (w : World) :
  let w' := snd (Bridge.processTradeCommands atof sc w) in
  (length (filter (fun e => is_order e) (new_events w w')) <= 1)%nat
  /\ forall call o r, In (EvHostOrder call o r) (new_events w w') ->
       is_Some (command_file w)
       /\ OrderType o = SCT_ORDERTYPE_MARKET
       /\ 0 < OrderQuantity o <= Bridge.MAX_POSITION_SIZE
       /\ (call = BuyEntry \/ call = SellEntry)
       /\ (0 < Bid sc)%Q /\ (0 < Ask sc)%Q
       /\ AllowEntryWithWorkingOrders sc = true
       /\ SendOrdersToTradeService sc = true
       /\ r = order_result sc call o.
Proof.
  cbv zeta. unfold Bridge.processTradeCommands.
  destruct (command_file w) as [text|] eqn:Hfile.
  2:{ cbn [snd]. rewrite (new_events_app w w []) by now rewrite app_nil_r.
      split; [count_orders|]. intros call o r []. }
  destruct (empty (getline_concat text)); cbn [negb].
  1:{ cbn [snd]. rewrite (new_events_app w _ [EvReadCommand text]) by reflexivity.
      split; [count_orders|]. intros call o r [H|[]]. discriminate. }
  destruct (Bridge.parseTradeCommand atof (getline_concat text)) as [[[|] cmd]|e].
  - destruct (executeTrade_cases sc cmd (Finite 0)
                (remove_command_file (emit (EvReadCommand text) w)))
      as [[q Hex] | (Hv & call & q & Hcall & Hex)]; rewrite Hex; cbn [snd].
    + match goal with |- context [write_response_file ?p ?resp ?w0] =>
        rewrite (new_events_app w (write_response_file p resp w0)
                   (EvReadCommand text :: EvRemoveCommand
                    :: (if responses_writable w then [EvWriteResponse p resp] else [])))
      end.
      * split; [destruct (responses_writable w); count_orders|].
        intros call o r Hin. exfalso.
        destruct (responses_writable w); cbn in Hin;
          repeat (destruct Hin as [Hin|Hin]; try discriminate); exact Hin.
      * unfold write_response_file, remove_command_file, emit.
        cbn [responses_writable trace]. destruct (responses_writable w);
          cbn [trace]; rewrite <- ?app_assoc; reflexivity.
    + match goal with |- context [write_response_file ?p ?resp ?w0] =>
        rewrite (new_events_app w (write_response_file p resp w0)
                   (EvReadCommand text :: EvRemoveCommand
                    :: EvHostOrder call (Bridge.order_of cmd)
                         (order_result sc call (Bridge.order_of cmd))
                    :: (if responses_writable w then [EvWriteResponse p resp] else [])))
      end.
      * split; [destruct (responses_writable w); count_orders|].
        intros call' o r Hin.
        assert (E : EvHostOrder call' o r
                    = EvHostOrder call (Bridge.order_of cmd)
                        (order_result sc call (Bridge.order_of cmd))).
        { destruct (responses_writable w); cbn in Hin;
            repeat (destruct Hin as [Hin|Hin]; try discriminate);
            try (symmetry; exact Hin); destruct Hin. }
        injection E as -> -> ->.
        destruct (validated_bounds sc cmd Hv) as (Ha & Hs & Hq & Hb & Hk).
        split; [now eexists|]. split; [reflexivity|]. split; [exact Hq|].
        repeat split; assumption.
      * unfold write_response_file, remove_command_file, emit.
        cbn [responses_writable trace]. destruct (responses_writable w);
          cbn [trace]; rewrite <- ?app_assoc; reflexivity.
  - cbn [snd].
    match goal with |- context [write_response_file ?p ?resp ?w0] =>
      rewrite (new_events_app w (write_response_file p resp w0)
                 (EvReadCommand text :: EvRemoveCommand
                  :: (if responses_writable w then [EvWriteResponse p resp] else [])))
    end.
    + split; [destruct (responses_writable w); count_orders|].
      intros call o r Hin. exfalso.
      destruct (responses_writable w); cbn in Hin;
        repeat (destruct Hin as [Hin|Hin]; try discriminate); exact Hin.
    + unfold write_response_file, remove_command_file, emit.
      cbn [responses_writable trace]. destruct (responses_writable w);
        cbn [trace]; rewrite <- ?app_assoc; reflexivity.
  - cbn [snd].
    rewrite (new_events_app w _ [EvReadCommand text; EvRemoveCommand]).
    + split; [count_orders|]. intros call o r Hin. exfalso.
      cbn in Hin. repeat (destruct Hin as [Hin|Hin]; try discriminate); exact Hin.
    + unfold remove_command_file, emit. cbn [trace]. rewrite <- ?app_assoc. reflexivity.
Qed.

Lemma block_trading_off (sc : SCStudyInterface) (inp : Bridge.Inputs) (s : Bridge.Study) :
  Bridge.tradingEnabled (Bridge.state s) = false ->
  Bridge.process_trade_commands_block atof sc inp s = s.
Proof. intros H. unfold Bridge.process_trade_commands_block. now rewrite H. Qed.

Lemma send_market_data_frame (sc : SCStudyInterface) (s : Bridge.Study) :
  Bridge.channel (Bridge.send_market_data sc s) = Bridge.channel s
  /\ Bridge.tradesExecuted (Bridge.state (Bridge.send_market_data sc s))
     = Bridge.tradesExecuted (Bridge.state s)
  /\ Bridge.tradingEnabled (Bridge.state (Bridge.send_market_data sc s))
     = Bridge.tradingEnabled (Bridge.state s)
  /\ Bridge.lastTradeCheck (Bridge.state (Bridge.send_market_data sc s))
     = Bridge.lastTradeCheck (Bridge.state s).
Proof.
  unfold Bridge.send_market_data, Bridge.writeMarketData.
  destruct (Bridge.market_writable s); [cbn; auto|].
  destruct (Bridge.temp_writable s); [|cbn; auto]. cbn [negb].
  destruct (Bridge.market_deletable s); [|destruct (Bridge.market_data_file s)];
    try destruct (Bridge.temp_movable s); cbn; auto.
Qed.

(** With the input Enable Trading set to No the study never opens the
    command file: whatever the chart and the clock, one invocation
    leaves the command channel and the trade counter as they were. *)
Theorem Bridge_study_trading_off (sc : SCStudyInterface) (inp : Bridge.Inputs)
    (s : Bridge.Study) :
  Bridge.Input_EnableTrading inp = false ->
  Bridge.channel (Bridge.scsf_MinhOSBridgeStudy atof sc inp s) = Bridge.channel s
  /\ Bridge.tradesExecuted (Bridge.state (Bridge.scsf_MinhOSBridgeStudy atof sc inp s))
     = Bridge.tradesExecuted (Bridge.state s).
Proof.
  intros Hoff. unfold Bridge.scsf_MinhOSBridgeStudy.
  set (s1 := Bridge.with_state (Bridge.initialize sc inp (Bridge.state s)) s).
  assert (H1 : Bridge.channel s1 = Bridge.channel s
               /\ Bridge.tradesExecuted (Bridge.state s1)
                  = Bridge.tradesExecuted (Bridge.state s)).
  { unfold s1, Bridge.with_state, Bridge.initialize.
    destruct (Bridge.initialized (Bridge.state s)); cbn; auto. }
  destruct (Index sc <? 1); [exact H1|].
  destruct (negb (Index sc =? ArraySize sc - 1)); [exact H1|].
  set (s2 := Bridge.with_state
               (Bridge.set_tradingEnabled (Bridge.Input_EnableTrading inp) (Bridge.state s1)) s1).
  assert (H2 : Bridge.channel s2 = Bridge.channel s
               /\ Bridge.tradesExecuted (Bridge.state s2)
                  = Bridge.tradesExecuted (Bridge.state s)
               /\ Bridge.tradingEnabled (Bridge.state s2) = false).
  { unfold s2, s1, Bridge.with_state, Bridge.initialize.
    destruct (Bridge.initialized (Bridge.state s)); cbn; rewrite ?Hoff; auto. }
  destruct H2 as (Hc & Ht & Hen).
  destruct (Bridge.update_due sc inp (Bridge.state s2)).
  - destruct (negb (Bridge.isValidData sc)).
    + cbn. auto.
    + set (s3 := Bridge.with_state _ s2).
      pose proof (send_market_data_frame sc s3) as (Fc & Ft & Fe & _).
      rewrite block_trading_off by (rewrite Fe; exact Hen).
      rewrite Fc, Ft. unfold s3. cbn. auto.
  - rewrite block_trading_off by exact Hen. auto.
Qed.

(** Outside the last bar of the chart (while the chart loads its
    history, or with a single bar) an invocation writes no market data,
    does not touch the command channel and changes no counter and no
    timer: only the one-time initialisation can happen. *)
Theorem Bridge_study_outside_last_bar (sc : SCStudyInterface) (inp : Bridge.Inputs)
    (s : Bridge.Study) :
  Index sc < 1 \/ Index sc <> ArraySize sc - 1 ->
  let s' := Bridge.scsf_MinhOSBridgeStudy atof sc inp s in
  Bridge.market_data_file s' = Bridge.market_data_file s
  /\ Bridge.channel s' = Bridge.channel s
  /\ Bridge.packetsWritten (Bridge.state s') = Bridge.packetsWritten (Bridge.state s)
  /\ Bridge.validationErrors (Bridge.state s') = Bridge.validationErrors (Bridge.state s)
  /\ Bridge.tradesExecuted (Bridge.state s') = Bridge.tradesExecuted (Bridge.state s)
  /\ Bridge.lastUpdate (Bridge.state s') = Bridge.lastUpdate (Bridge.state s)
  /\ Bridge.lastTradeCheck (Bridge.state s') = Bridge.lastTradeCheck (Bridge.state s)
  /\ Bridge.initialized (Bridge.state s') = true.
Proof.
  intros Hbar. cbv zeta. unfold Bridge.scsf_MinhOSBridgeStudy.
  assert (H1 : forall s1, s1 = Bridge.with_state (Bridge.initialize sc inp (Bridge.state s)) s ->
            Bridge.market_data_file s1 = Bridge.market_data_file s
            /\ Bridge.channel s1 = Bridge.channel s
            /\ Bridge.packetsWritten (Bridge.state s1) = Bridge.packetsWritten (Bridge.state s)
            /\ Bridge.validationErrors (Bridge.state s1)
               = Bridge.validationErrors (Bridge.state s)
            /\ Bridge.tradesExecuted (Bridge.state s1) = Bridge.tradesExecuted (Bridge.state s)
            /\ Bridge.lastUpdate (Bridge.state s1) = Bridge.lastUpdate (Bridge.state s)
            /\ Bridge.lastTradeCheck (Bridge.state s1) = Bridge.lastTradeCheck (Bridge.state s)
            /\ Bridge.initialized (Bridge.state s1) = true).
  { intros s1 ->. unfold Bridge.with_state, Bridge.initialize.
    destruct (Bridge.initialized (Bridge.state s)) eqn:E; cbn; rewrite ?E; auto 10. }
  destruct (Z.ltb_spec (Index sc) 1); [now apply H1|].
  destruct (Z.eqb_spec (Index sc) (ArraySize sc - 1)); cbn [negb]; [lia|now apply H1].
Qed.

Lemma isValidData_true (sc : SCStudyInterface) :
  Bridge.isValidData sc = true ->
  (Bridge.MIN_VALID_PRICE <= Close sc (Index sc))%Q
  /\ (0 < Close sc (Index sc))%Q
  /\ (0 <= Volume sc (Index sc))%Q
  /\ (Low sc (Index sc) <= Close sc (Index sc))%Q
  /\ (Close sc (Index sc) <= High sc (Index sc))%Q.
Proof.
  unfold Bridge.isValidData.
  destruct (Qle_bool (Close sc (Index sc)) 0) eqn:E1; [discriminate|].
  destruct (Qltb (Close sc (Index sc)) Bridge.MIN_VALID_PRICE) eqn:E2; [discriminate|].
  cbn [orb].
  destruct (Qltb (Volume sc (Index sc)) 0) eqn:E3; [discriminate|].
  destruct (Qltb (High sc (Index sc)) (Low sc (Index sc))) eqn:E4; [discriminate|].
  destruct (Qltb (Close sc (Index sc)) (Low sc (Index sc))) eqn:E5; [discriminate|].
  destruct (Qgtb (Close sc (Index sc)) (High sc (Index sc))) eqn:E6; [discriminate|].
  intros _. reflect_Q. auto.
Qed.

Lemma to_int_bounds (x : Q) :
  (0 <= x)%Q -> (x < inject_Z (2 ^ 31))%Q ->
  0 <= to_int x <= INT_MAX
  /\ (inject_Z (to_int x) <= x)%Q /\ (x < inject_Z (to_int x) + 1)%Q.
Proof.
  destruct x as [n d]. intros H0 H1.
  assert (Hn : 0 <= n) by (unfold Qle in H0; cbn [Qnum Qden] in H0; lia).
  assert (Hlt : n < 2147483648 * Z.pos d).
  { unfold Qlt, inject_Z in H1. cbn [Qnum Qden] in H1.
    change (2 ^ 31) with 2147483648 in H1. lia. }
  unfold to_int. cbn [Qnum Qden]. rewrite Z.quot_div_nonneg by lia.
  assert (Hd : 0 <= n / Z.pos d) by (apply Z.div_pos; lia).
  assert (Hu : n / Z.pos d < 2147483648) by (apply Z.div_lt_upper_bound; lia).
  assert (E1 : (INT_MIN <=? n / Z.pos d) = true)
    by (apply Z.leb_le; unfold INT_MIN; lia).
  assert (E2 : (n / Z.pos d <=? INT_MAX) = true)
    by (apply Z.leb_le; unfold INT_MAX; lia).
  rewrite E1, E2. cbn [andb]. unfold INT_MAX.
  pose proof (Z.mul_div_le n (Z.pos d) ltac:(lia)).
  pose proof (Z.mul_succ_div_gt n (Z.pos d) ltac:(lia)).
  split; [lia|]. split.
  - unfold Qle, inject_Z. cbn [Qnum Qden]. lia.
  - rewrite <- (inject_Z_plus _ 1). unfold Qlt, inject_Z. cbn [Qnum Qden]. lia.
Qed.

(** Every market-data packet the study writes comes from a snapshot that
    passed [isValidData].  An invocation leaves the market-data file
    alone, or replaces it by the packet of the current bar, or, when the
    file could not be opened and was deleted but the temporary file could
    not be moved in its place, leaves no market-data file.  The price of
    a packet written is at least 0.01 and within the bar's range, its bid
    and ask are both positive (the quotes of the host, or the price when
    a quote is missing), and its volume is the bar's volume cut to an
    integer, not negative, while that volume is below 2^31. *)
Theorem Bridge_study_writes_valid_packets (sc : SCStudyInterface) (inp : Bridge.Inputs)
    (s : Bridge.Study) :
  let s' := Bridge.scsf_MinhOSBridgeStudy atof sc inp s in
  let p := Bridge.createBridgeMarketDataJSON sc in
  Bridge.market_data_file s' = Bridge.market_data_file s
  \/ (Bridge.market_data_file s' = None
      /\ Bridge.isValidData sc = true
      /\ Bridge.market_writable s = false /\ Bridge.temp_writable s = true
      /\ Bridge.market_deletable s = true /\ Bridge.temp_movable s = false)
  \/ (Bridge.market_data_file s' = Some p
      /\ Bridge.isValidData sc = true
      /\ (Bridge.market_writable s = true
          \/ (Bridge.temp_writable s = true /\ Bridge.temp_movable s = true
              /\ (Bridge.market_deletable s = true \/ Bridge.market_data_file s = None)))
      /\ (1 # 100 <= Bridge.md_price p)%Q
      /\ (Low sc (Index sc) <= Bridge.md_price p)%Q
      /\ (Bridge.md_price p <= High sc (Index sc))%Q
      /\ ((Volume sc (Index sc) < inject_Z (2 ^ 31))%Q ->
          0 <= Bridge.md_volume p <= INT_MAX
          /\ (inject_Z (Bridge.md_volume p) <= Volume sc (Index sc))%Q
          /\ (Volume sc (Index sc) < inject_Z (Bridge.md_volume p) + 1)%Q)
      /\ (0 < Bridge.md_bid p)%Q /\ (0 < Bridge.md_ask p)%Q).
Proof.
  cbv zeta. unfold Bridge.scsf_MinhOSBridgeStudy.
  assert (Hblock : forall x, Bridge.market_data_file
                               (Bridge.process_trade_commands_block atof sc inp x)
                             = Bridge.market_data_file x).
  { intros x. unfold Bridge.process_trade_commands_block.
    destruct (_ && _); [|reflexivity].
    destruct (Bridge.processTradeCommands atof sc (Bridge.channel x)). reflexivity. }
  destruct (Index sc <? 1); [left; reflexivity|].
  destruct (negb (Index sc =? ArraySize sc - 1)); [left; reflexivity|].
  destruct (Bridge.update_due sc inp _); [|left; now rewrite Hblock].
  destruct (Bridge.isValidData sc) eqn:Hv; cbn [negb]; [|left; reflexivity].
  rewrite Hblock.
  assert (Hpacket :
            (1 # 100 <= Bridge.md_price (Bridge.createBridgeMarketDataJSON sc))%Q
            /\ (Low sc (Index sc) <= Bridge.md_price (Bridge.createBridgeMarketDataJSON sc))%Q
            /\ (Bridge.md_price (Bridge.createBridgeMarketDataJSON sc) <= High sc (Index sc))%Q
            /\ ((Volume sc (Index sc) < inject_Z (2 ^ 31))%Q ->
                0 <= Bridge.md_volume (Bridge.createBridgeMarketDataJSON sc) <= INT_MAX
                /\ (inject_Z (Bridge.md_volume (Bridge.createBridgeMarketDataJSON sc))
                    <= Volume sc (Index sc))%Q
                /\ (Volume sc (Index sc)
                    < inject_Z (Bridge.md_volume (Bridge.createBridgeMarketDataJSON sc)) + 1)%Q)
            /\ (0 < Bridge.md_bid (Bridge.createBridgeMarketDataJSON sc))%Q
            /\ (0 < Bridge.md_ask (Bridge.createBridgeMarketDataJSON sc))%Q).
  { destruct (isValidData_true sc Hv) as (Hmin & Hpos & Hvol & Hlo & Hhi).
    unfold Bridge.createBridgeMarketDataJSON.
    cbn [Bridge.md_price Bridge.md_volume Bridge.md_bid Bridge.md_ask].
    split; [exact Hmin|]. split; [exact Hlo|]. split; [exact Hhi|].
    split; [intros Hlt; now apply to_int_bounds|].
    destruct (Qgtb (Bid sc) 0) eqn:Eb; destruct (Qgtb (Ask sc) 0) eqn:Ea;
      cbn [andb]; reflect_Q; auto. }
  unfold Bridge.send_market_data, Bridge.writeMarketData.
  cbn [Bridge.market_writable Bridge.temp_writable Bridge.market_deletable
       Bridge.temp_movable Bridge.market_data_file Bridge.with_state].
  destruct (Bridge.market_writable s) eqn:Ew.
  { right. right. split; [reflexivity|]. split; [reflexivity|]. split; [now left|exact Hpacket]. }
  destruct (Bridge.temp_writable s) eqn:Et; cbn [negb]; [|left; reflexivity].
  destruct (Bridge.market_deletable s) eqn:Ed.
  - destruct (Bridge.temp_movable s) eqn:Em.
    + right. right. split; [reflexivity|]. split; [reflexivity|].
      split; [right; auto|exact Hpacket].
    + right. left. cbn. auto 10.
  - destruct (Bridge.market_data_file s) as [kept|] eqn:Ef.
    + left. reflexivity.
    + destruct (Bridge.temp_movable s) eqn:Em.
      * right. right. split; [reflexivity|]. split; [reflexivity|].
        split; [right; auto|exact Hpacket].
      * left. reflexivity.
Qed.

(** [tradesExecuted] counts command files, not trades: when trading is
    enabled and a check is due, the counter (an [int] below [INT_MAX])
    goes up by one as soon as a command file is there, be its content
    empty, malformed or rejected, and stays as it is when there is none. *)
Theorem Bridge_trade_counter (sc : SCStudyInterface) (inp : Bridge.Inputs)
    (s : Bridge.Study) :
  Bridge.tradingEnabled (Bridge.state s) = true ->
  uint32 (Bridge.Input_TradeCheckInterval inp)
    <= uint32 (uint32 (clock sc) - Bridge.lastTradeCheck (Bridge.state s)) ->
  let s' := Bridge.process_trade_commands_block atof sc inp s in
  (command_file (Bridge.channel s) = None ->
     Bridge.tradesExecuted (Bridge.state s') = Bridge.tradesExecuted (Bridge.state s)
     /\ Bridge.channel s' = Bridge.channel s)
  /\ (forall text, command_file (Bridge.channel s) = Some text ->
        fits (getline_concat text) ->
        Bridge.tradesExecuted (Bridge.state s) < INT_MAX ->
        Bridge.tradesExecuted (Bridge.state s')
        = Bridge.tradesExecuted (Bridge.state s) + 1)
  /\ Bridge.lastTradeCheck (Bridge.state s') = uint32 (clock sc).
Proof.
  intros Hen Hdue. cbv zeta. unfold Bridge.process_trade_commands_block.
  rewrite Hen. apply Z.leb_le in Hdue. rewrite Hdue. cbn [andb].
  split; [|split].
  - intros Hnone. unfold Bridge.processTradeCommands. rewrite Hnone. cbn. auto.
  - intros text Hfile Hfit _. unfold Bridge.processTradeCommands. rewrite Hfile.
    destruct (empty (getline_concat text)); cbn [negb]; [reflexivity|].
    destruct (parseTradeCommand_total atof _ Hfit) as [[flag cmd] Hp]. rewrite Hp.
    destruct flag; [|reflexivity].
    destruct (Bridge.executeTrade _ _ _ _) as [[orderId fillPrice] w2]. reflexivity.
  - destruct (Bridge.processTradeCommands atof sc (Bridge.channel s)) as [[] w']; reflexivity.
Qed.

End Study.

End BridgeStudyFacts.

(** ** The entry points of the exporters and their executors *)

Module StudyFacts.

Import Cxx Host Ticks States Exporter QFacts CxxFacts ParserFacts ChannelFacts FilterFacts
  BridgeStudyFacts.

Lemma gmtime_in_range (u : Z) :
  0 <= u <= MAX_TIME64 -> gmtime_null (as_time_t u) = false.
Proof.
  unfold MAX_TIME64. intros H. unfold gmtime_null, as_time_t, MAX_TIME64.
  destruct (Z.ltb_spec u (2 ^ 63)); [|lia].
  apply orb_false_iff. split; [apply Z.ltb_ge|apply Z.ltb_ge]; lia.
Qed.

Lemma gmtime_out_of_range (u : Z) :
  u < 0 \/ MAX_TIME64 < u < 2 ^ 64 -> gmtime_null (as_time_t u) = true.
Proof.
  unfold MAX_TIME64. intros H. unfold gmtime_null, as_time_t, MAX_TIME64.
  apply orb_true_iff.
  destruct (Z.ltb_spec u (2 ^ 63)).
  - destruct H as [H|H]; [left|right]; apply Z.ltb_lt; lia.
  - left. apply Z.ltb_lt. lia.
Qed.

Lemma Fixed_step_time (sc : SCStudyInterface) (g : Globals) (t : TickTrade) :
  snd (Fixed.ExportTickData sc g) = Some t ->
  timestamp_us t = clock sc.
Proof.
  unfold Fixed.ExportTickData.
  destruct (Qgtb (Volume sc (Index sc)) 0); [|discriminate].
  destruct (Qgtb (Bid sc) 0 && Qgtb (Ask sc) 0);
    destruct (Fixed.isNewTrade sc g); cbn [snd]; intros [= <-]; reflexivity.
Qed.

Lemma fle_zero_false (p : float) :
  fle p (Finite 0) = false -> p = NaN \/ fgt p (Finite 0) = true.
Proof.
  destruct p as [q| | |]; cbn; intros H; auto; try discriminate.
  right. unfold fgt, flt, Qltb. now rewrite H.
Qed.

Section Studies.

Variable stof : string -> result float.

(** One invocation of the FIXED exporter, for a chart symbol of up to 255
    characters.  The time stamp of a tick written is the clock reading,
    in microseconds, and [WriteHighFrequencyTick] hands it to
    [std::gmtime] as seconds.  When no tick is written, or the time
    stamp is within the range of [std::gmtime], the invocation returns
    normally: a chart the symbol filter skips changes nothing; with tick
    capture off the globals stay and no tick file is written; with
    trading off the command channel is not touched; and a tick file
    written is the one named after the cleaned symbol, holding the tick
    [ExportTickData] emitted.  When a tick with a time stamp outside
    that range is written, the behaviour of the invocation is undefined. *)
Theorem Fixed_study_frame (sc : SCStudyInterface) (inp : StudyInputs)
    (g : Globals) (w : World) :
  Cxx.size (ChartSymbol inp) <= 255 ->
  fits (Input_SymbolFilter inp) ->
  (forall text, command_file w = Some text -> fits text) ->
  let writes t :=
    Input_TickCapture inp = true
    /\ FixedStudy.IsSymbolFiltered (ChartSymbol inp) (Input_SymbolFilter inp) = Done false
    /\ snd (Fixed.ExportTickData sc g) = Some t in
  ((forall t, writes t -> 0 <= timestamp_us t <= MAX_TIME64) ->
   exists g' file w',
     FixedStudy.scsf_MinhOSTickExporter_v3 stof sc inp g w = Done (g', file, w')
     /\ (FixedStudy.IsSymbolFiltered (ChartSymbol inp) (Input_SymbolFilter inp) = Done true ->
         g' = g /\ file = None /\ w' = w)
     /\ (Input_TickCapture inp = false -> g' = g /\ file = None)
     /\ (Input_EnableTrading inp = false -> w' = w)
     /\ (forall path t, file = Some (path, t) ->
           path = Input_OutputPath sc +:+ clean_chars (ChartSymbol inp)
                  +:+ "_ticks_v3_final.json"
           /\ snd (Fixed.ExportTickData sc g) = Some t
           /\ g' = fst (Fixed.ExportTickData sc g)))
  /\ (forall t, writes t ->
        timestamp_us t < 0 \/ MAX_TIME64 < timestamp_us t < 2 ^ 64 ->
        FixedStudy.scsf_MinhOSTickExporter_v3 stof sc inp g w = Undefined)
  /\ (forall t, snd (Fixed.ExportTickData sc g) = Some t -> timestamp_us t = clock sc).
Proof.
  intros Hsym Hflt Hcmd. cbv zeta.
  unfold FixedStudy.scsf_MinhOSTickExporter_v3.
  rewrite (Fixed_filter_terms (ChartSymbol inp) (Input_SymbolFilter inp) Hflt).
  set (filtered := _ && _).
  split; [|split; [|intros t Ht; exact (Fixed_step_time sc g t Ht)]].
  - intros Hrange. cbn [and_then].
    destruct filtered.
    { exists g, None, w. split; [reflexivity|].
      split; [auto|]. split; [auto|]. split; [auto|]. intros path t [=]. }
    destruct (Fixed_poll_total stof sc w Hcmd) as [w1 Hw1].
    destruct (Input_TickCapture inp) eqn:Hcap.
    + assert (Hexp : FixedStudy.ExportTickData sc (ChartSymbol inp) (Input_OutputPath sc) g
                     = Done (fst (Fixed.ExportTickData sc g),
                             (fun t => (Input_OutputPath sc +:+ clean_chars (ChartSymbol inp)
                                        +:+ "_ticks_v3_final.json", t))
                               <$> snd (Fixed.ExportTickData sc g))).
      { unfold FixedStudy.ExportTickData, FixedStudy.ProcessIndividualTick,
          FixedStudy.WriteHighFrequencyTick, CleanSymbol.
        destruct (Z.leb_spec (Cxx.size (ChartSymbol inp)) 255); [|lia]. cbn [and_then].
        destruct (Fixed.ExportTickData sc g) as [g1 [t|]] eqn:Ex; [|reflexivity].
        rewrite (gmtime_in_range (timestamp_us t)); [reflexivity|].
        apply Hrange. auto. }
      rewrite Hexp. cbn [and_then].
      destruct (Input_EnableTrading inp) eqn:Htr.
      * rewrite Hw1. cbn [of_result and_then].
        eexists _, _, _. split; [reflexivity|].
        split; [discriminate|]. split; [discriminate|]. split; [discriminate|].
        intros path t E. destruct (snd (Fixed.ExportTickData sc g)); [|discriminate].
        cbn in E. injection E as <- <-. auto.
      * eexists _, _, _. split; [reflexivity|].
        split; [discriminate|]. split; [discriminate|]. split; [reflexivity|].
        intros path t E. destruct (snd (Fixed.ExportTickData sc g)); [|discriminate].
        cbn in E. injection E as <- <-. auto.
    + cbn [and_then].
      destruct (Input_EnableTrading inp) eqn:Htr.
      * rewrite Hw1. cbn [of_result and_then].
        eexists _, _, _. split; [reflexivity|].
        split; [discriminate|]. split; [auto|]. split; [discriminate|].
        intros path t [=].
      * eexists _, _, _. split; [reflexivity|].
        split; [discriminate|]. split; [auto|]. split; [reflexivity|].
        intros path t [=].
  - intros t (Hcap & Hfil & Ht) Hout. injection Hfil as Hfil. rewrite Hfil, Hcap.
    cbn [and_then].
    unfold FixedStudy.ExportTickData, FixedStudy.ProcessIndividualTick,
      FixedStudy.WriteHighFrequencyTick, CleanSymbol.
    destruct (Z.leb_spec (Cxx.size (ChartSymbol inp)) 255); [|lia]. cbn [and_then].
    destruct (Fixed.ExportTickData sc g) as [g1 [t'|]]; cbn [snd] in Ht; [|discriminate].
    injection Ht as ->.
    rewrite (gmtime_out_of_range (timestamp_us t) Hout). reflexivity.
Qed.

Lemma Complete_poll_total (sc : SCStudyInterface) (OutputPath : string) (w : World) :
  (forall text, command_file w = Some text -> fits (getline_concat text)) ->
  exists w', Complete.ProcessTradeCommands stof sc OutputPath w = Ok w'.
Proof.
  intros Hfit. unfold Complete.ProcessTradeCommands.
  destruct (command_file w) as [text|]; [|eauto].
  specialize (Hfit text eq_refl).
  rewrite !ExtractString_field, ExtractInt_field, ExtractFloat_field by assumption.
  cbn [bind]. destruct (_ && _); eauto.
Qed.

(** One invocation of the COMPLETE exporter, for a chart symbol of up to
    255 characters and an update frequency whose microseconds fit an
    [int]: it returns normally; before the first bar, or sooner after
    the last processed invocation than the update frequency, it changes
    nothing at all; otherwise it records the time, and then a chart the
    symbol filter does not accept, tick capture switched off and trading
    switched off each leave their part of the state alone. *)
Theorem Complete_study_frame (sc : SCStudyInterface) (inp : StudyInputs)
    (s : CompleteStudy.StudyState) :
  Cxx.size (ChartSymbol inp) <= 255 ->
  INT_MIN <= Input_UpdateFrequency inp * 1000 <= INT_MAX ->
  (forall text, command_file (CompleteStudy.channel s) = Some text ->
                fits (getline_concat text)) ->
  exists s' file,
    CompleteStudy.scsf_MinhOSTickExporter_v3 stof sc inp s = Done (s', file)
    /\ (Index sc < 0
        \/ size_t (clock sc - CompleteStudy.g_LastProcessTime s)
           < size_t (Input_UpdateFrequency inp * 1000) ->
        s' = s /\ file = None)
    /\ (0 <= Index sc ->
        size_t (Input_UpdateFrequency inp * 1000)
          <= size_t (clock sc - CompleteStudy.g_LastProcessTime s) ->
        CompleteStudy.g_LastProcessTime s' = clock sc
        /\ (CompleteStudy.IsSymbolFiltered (ChartSymbol inp) (Input_SymbolFilter inp)
            = Ok false ->
            CompleteStudy.globals s' = CompleteStudy.globals s
            /\ CompleteStudy.channel s' = CompleteStudy.channel s /\ file = None)
        /\ (Input_TickCapture inp = false ->
            CompleteStudy.globals s' = CompleteStudy.globals s /\ file = None)
        /\ (Input_EnableTrading inp = false ->
            CompleteStudy.channel s' = CompleteStudy.channel s)).
Proof.
  intros Hsym Hfreq Hcmd. unfold CompleteStudy.scsf_MinhOSTickExporter_v3.
  destruct (Z.ltb_spec (Index sc) 0) as [Hidx|Hidx].
  { exists s, None. split; [reflexivity|]. split; [auto|]. intros; lia. }
  unfold CompleteStudy.throttle_us.
  destruct (Z.ltb_spec (Input_UpdateFrequency inp * 1000) INT_MIN); [lia|].
  destruct (Z.ltb_spec INT_MAX (Input_UpdateFrequency inp * 1000)); [lia|].
  cbn [orb and_then].
  destruct (Z.ltb_spec (size_t (clock sc - CompleteStudy.g_LastProcessTime s))
              (size_t (Input_UpdateFrequency inp * 1000))) as [Hthr|Hthr].
  { exists s, None. split; [reflexivity|]. split; [auto|]. intros; lia. }
  rewrite (Complete_filter_root (ChartSymbol inp) (Input_SymbolFilter inp)).
  set (accepted := _ || _). cbn [of_result and_then].
  destruct accepted; cbn [negb].
  2:{ eexists _, _. split; [reflexivity|]. split; [intros [|]; lia|].
      intros _ _. cbn. auto. }
  destruct (Complete_poll_total sc (Input_OutputPath sc) (CompleteStudy.channel s) Hcmd)
    as [w1 Hw1].
  cbn [CompleteStudy.globals CompleteStudy.channel].
  assert (Hexp : exists file,
            CompleteStudy.ExportTickData sc (ChartSymbol inp) (Input_OutputPath sc)
              (CompleteStudy.globals s)
            = Done (fst (Complete.ExportTickData sc (CompleteStudy.globals s)), file)).
  { unfold CompleteStudy.ExportTickData, CompleteStudy.ProcessIndividualTick, CleanSymbol.
    destruct (Z.leb_spec (Cxx.size (ChartSymbol inp)) 255); [|lia]. cbn [and_then].
    destruct (Complete.ExportTickData sc (CompleteStudy.globals s)) as [g1 [t|]];
      eexists; reflexivity. }
  destruct Hexp as [file Hexp].
  destruct (Input_TickCapture inp) eqn:Hcap; rewrite ?Hexp; cbn [and_then];
    destruct (Input_EnableTrading inp) eqn:Htr; rewrite ?Hw1; cbn [of_result and_then];
    (eexists _, _; split; [reflexivity|]; split; [intros [|]; lia|]; intros _ _;
     cbn [CompleteStudy.g_LastProcessTime CompleteStudy.globals CompleteStudy.channel];
     split; [reflexivity|]; split; [discriminate|]; split; try discriminate; auto).
Qed.

(** [ExecuteTrade] of the FIXED exporter hands the host at most one
    order, through [SubmitNewOrder], and only for a positive quantity
    and a side that is BUY or SELL in any letter case; a limit order
    carries the requested price, which has passed the test
    [price <= 0.0f]: it is above zero, or it is a NaN, and a limit
    command whose price is a NaN is submitted with that price; and every
    call, the rejected ones too, is answered with exactly one response
    under its generated id when the response file can be written. *)
Theorem Fixed_ExecuteTrade_orders (sc : SCStudyInterface) (symbol side : string)
    (quantity : Z) (price : float) (orderType : string) (w : World) :
  let w' := Fixed.ExecuteTrade sc symbol side quantity price orderType w in
  let orderId := ("MINH_" +:+ decimal (clock sc))%string in
  (length (filter (fun e => is_order e) (new_events w w')) <= 1)%nat
  /\ (length (filter (fun e => is_response e) (new_events w w'))
      = if responses_writable w then 1%nat else 0%nat)
  /\ (forall path r, In (EvWriteResponse path r) (new_events w w') ->
        resp_id r = orderId
        /\ path = (Input_OutputPath sc +:+ "trade_response_" +:+ orderId +:+ ".json")%string)
  /\ (forall call o r, In (EvHostOrder call o r) (new_events w w') ->
        call = SubmitNewOrder
        /\ OrderQuantity o = quantity /\ 0 < quantity
        /\ ((BuySell o = BSE_BUY /\ CompareNoCase_eq side "BUY" = true)
            \/ (BuySell o = BSE_SELL /\ CompareNoCase_eq side "SELL" = true))
        /\ (OrderType o = SCT_ORDERTYPE_MARKET
            \/ (OrderType o = SCT_ORDERTYPE_LIMIT /\ Price1 o = price
                /\ (price = NaN \/ fgt price (Finite 0) = true)))
        /\ TextTag o = orderId
        /\ r = order_result sc SubmitNewOrder o)
  /\ (0 < quantity -> price = NaN -> CompareNoCase_eq orderType "LIMIT" = true ->
      CompareNoCase_eq side "BUY" = true \/ CompareNoCase_eq side "SELL" = true ->
      exists o,
        filter (fun e => is_order e) (new_events w w')
        = [EvHostOrder SubmitNewOrder o (order_result sc SubmitNewOrder o)]
        /\ OrderType o = SCT_ORDERTYPE_LIMIT /\ Price1 o = NaN).
Proof.
  cbv zeta.
  match goal with
  | |- ?A /\ ?B /\ ?C /\ ?D /\ ?E => assert (Hmain : A /\ B /\ C /\ D)
  end.
  { unfold Fixed.ExecuteTrade.
    set (orderId := ("MINH_" +:+ decimal (clock sc))%string).
    assert (Hrej : forall status message,
              new_events w (Fixed.WriteTradeResponse sc (Input_OutputPath sc) orderId
                              status message w)
              = if responses_writable w
                then [EvWriteResponse
                        (Input_OutputPath sc +:+ "trade_response_" +:+ orderId +:+ ".json")
                        {| resp_id := orderId; resp_status := status; resp_message := message;
                           resp_fill_price := None; resp_timestamp := clock sc |}]
                else []).
    { intros status message. apply new_events_app.
      unfold Fixed.WriteTradeResponse, write_response_file, emit.
      destruct (responses_writable w); cbn [trace]; [reflexivity|now rewrite app_nil_r]. }
    assert (Hsub : forall order,
              exists status message,
                new_events w (Fixed.submit_order sc order orderId w)
                = EvHostOrder SubmitNewOrder order (order_result sc SubmitNewOrder order)
                  :: (if responses_writable w
                      then [EvWriteResponse
                              (Input_OutputPath sc +:+ "trade_response_" +:+ orderId +:+ ".json")
                              {| resp_id := orderId; resp_status := status;
                                 resp_message := message;
                                 resp_fill_price := None; resp_timestamp := clock sc |}]
                      else [])).
    { intros order. unfold Fixed.submit_order, submit.
      destruct (0 <? order_result sc SubmitNewOrder order);
        eexists _, _; apply new_events_app;
        unfold Fixed.WriteTradeResponse, write_response_file, emit;
        cbn [responses_writable trace]; destruct (responses_writable w); cbn [trace];
        rewrite <- ?app_assoc; reflexivity. }
    assert (Hno : forall status message,
              let evs := new_events w (Fixed.WriteTradeResponse sc (Input_OutputPath sc) orderId
                                         status message w) in
              (length (filter (fun e => is_order e) evs) <= 1)%nat
              /\ (length (filter (fun e => is_response e) evs)
                  = if responses_writable w then 1%nat else 0%nat)
              /\ (forall path r, In (EvWriteResponse path r) evs ->
                    resp_id r = orderId
                    /\ path = (Input_OutputPath sc +:+ "trade_response_" +:+ orderId
                               +:+ ".json")%string)
              /\ (forall call o r, In (EvHostOrder call o r) evs -> False)).
    { intros status message. cbv zeta. rewrite Hrej.
      destruct (responses_writable w).
      - split; [count_orders|]. split; [reflexivity|]. split.
        + intros path r [E|[]]. injection E as <- <-. auto.
        + intros call o r [E|[]]. discriminate.
      - split; [count_orders|]. split; [reflexivity|].
        split; [intros path r []|intros call o r []]. }
    assert (Hfinish : forall status message,
              let evs := new_events w (Fixed.WriteTradeResponse sc (Input_OutputPath sc) orderId
                                         status message w) in
              (length (filter (fun e => is_order e) evs) <= 1)%nat
              /\ (length (filter (fun e => is_response e) evs)
                  = if responses_writable w then 1%nat else 0%nat)
              /\ (forall path r, In (EvWriteResponse path r) evs ->
                    resp_id r = orderId
                    /\ path = (Input_OutputPath sc +:+ "trade_response_" +:+ orderId
                               +:+ ".json")%string)
              /\ (forall call o r, In (EvHostOrder call o r) evs ->
                    call = SubmitNewOrder
                    /\ OrderQuantity o = quantity /\ 0 < quantity
                    /\ ((BuySell o = BSE_BUY /\ CompareNoCase_eq side "BUY" = true)
                        \/ (BuySell o = BSE_SELL /\ CompareNoCase_eq side "SELL" = true))
                    /\ (OrderType o = SCT_ORDERTYPE_MARKET
                        \/ (OrderType o = SCT_ORDERTYPE_LIMIT /\ Price1 o = price
                            /\ (price = NaN \/ fgt price (Finite 0) = true)))
                    /\ TextTag o = orderId
                    /\ r = order_result sc SubmitNewOrder o)).
    { intros status message. destruct (Hno status message) as (H1 & H2 & H3 & H4).
      cbv zeta. split; [exact H1|]. split; [exact H2|]. split; [exact H3|].
      intros call o r Hin. destruct (H4 call o r Hin). }
    destruct (Z.leb_spec quantity 0) as [Hq|Hq]; [apply Hfinish|].
    destruct (fle price (Finite 0) && negb (CompareNoCase_eq orderType "MARKET")) eqn:Hp;
      [apply Hfinish|].
    assert (Hlimit : CompareNoCase_eq orderType "LIMIT" = true -> (price = NaN \/ fgt price (Finite 0) = true)).
    { intros Hl. unfold CompareNoCase_eq in Hl, Hp. apply String.eqb_eq in Hl.
      rewrite Hl in Hp. cbn in Hp. rewrite andb_true_r in Hp. now apply fle_zero_false. }
    assert (Hord : forall bs,
              (bs = BSE_BUY /\ CompareNoCase_eq side "BUY" = true)
              \/ (bs = BSE_SELL /\ CompareNoCase_eq side "SELL" = true) ->
              let evs := new_events w (Fixed.submit_order sc
                                         (Fixed.order_of quantity price orderType bs orderId)
                                         orderId w) in
              (length (filter (fun e => is_order e) evs) <= 1)%nat
              /\ (length (filter (fun e => is_response e) evs)
                  = if responses_writable w then 1%nat else 0%nat)
              /\ (forall path r, In (EvWriteResponse path r) evs ->
                    resp_id r = orderId
                    /\ path = (Input_OutputPath sc +:+ "trade_response_" +:+ orderId
                               +:+ ".json")%string)
              /\ (forall call o r, In (EvHostOrder call o r) evs ->
                    call = SubmitNewOrder
                    /\ OrderQuantity o = quantity /\ 0 < quantity
                    /\ ((BuySell o = BSE_BUY /\ CompareNoCase_eq side "BUY" = true)
                        \/ (BuySell o = BSE_SELL /\ CompareNoCase_eq side "SELL" = true))
                    /\ (OrderType o = SCT_ORDERTYPE_MARKET
                        \/ (OrderType o = SCT_ORDERTYPE_LIMIT /\ Price1 o = price
                            /\ (price = NaN \/ fgt price (Finite 0) = true)))
                    /\ TextTag o = orderId
                    /\ r = order_result sc SubmitNewOrder o)).
    { intros bs Hbs. cbv zeta.
      destruct (Hsub (Fixed.order_of quantity price orderType bs orderId))
        as (status & message & ->).
      split; [destruct (responses_writable w); count_orders|].
      split.
      { destruct (responses_writable w).
        - rewrite filter_cons_False by (cbn; auto).
          rewrite filter_cons_True by (cbn; auto). reflexivity.
        - rewrite filter_cons_False by (cbn; auto). reflexivity. }
      split.
      - intros path r Hin. destruct Hin as [E|Hin]; [discriminate|].
        destruct (responses_writable w); [|destruct Hin].
        destruct Hin as [E|[]]. injection E as <- <-. auto.
      - intros call o r Hin.
        assert (E : EvHostOrder call o r
                    = EvHostOrder SubmitNewOrder
                        (Fixed.order_of quantity price orderType bs orderId)
                        (order_result sc SubmitNewOrder
                           (Fixed.order_of quantity price orderType bs orderId))).
        { destruct Hin as [E|Hin]; [now symmetry|].
          destruct (responses_writable w); [|destruct Hin].
          destruct Hin as [E|[]]. discriminate. }
        injection E as -> -> ->.
        split; [reflexivity|]. split; [reflexivity|]. split; [lia|].
        split; [cbn [BuySell Fixed.order_of]; destruct Hbs as [[-> H]|[-> H]]; auto|].
        split; [|split; reflexivity].
        cbn [OrderType Price1 Fixed.order_of].
        destruct (CompareNoCase_eq orderType "LIMIT") eqn:Hl; [right|left; reflexivity].
        split; [reflexivity|]. split; [reflexivity|]. now apply Hlimit. }
    destruct (CompareNoCase_eq side "BUY") eqn:Hb; [apply Hord; auto|].
    destruct (CompareNoCase_eq side "SELL") eqn:Hs; [apply Hord; auto|].
    apply Hfinish. }
  destruct Hmain as (H1 & H2 & H3 & H4).
  split; [exact H1|]. split; [exact H2|]. split; [exact H3|]. split; [exact H4|].
  intros Hq -> Hl Hside. unfold Fixed.ExecuteTrade.
  destruct (Z.leb_spec quantity 0); [lia|]. cbn [fle andb].
  assert (Hsub : forall order,
            filter (fun e => is_order e)
              (new_events w (Fixed.submit_order sc order
                               ("MINH_" +:+ decimal (clock sc)) w))
            = [EvHostOrder SubmitNewOrder order (order_result sc SubmitNewOrder order)]).
  { intros order.
    assert (Hev : exists path r,
              new_events w (Fixed.submit_order sc order ("MINH_" +:+ decimal (clock sc)) w)
              = EvHostOrder SubmitNewOrder order (order_result sc SubmitNewOrder order)
                :: (if responses_writable w then [EvWriteResponse path r] else [])).
    { unfold Fixed.submit_order, submit.
      destruct (0 <? order_result sc SubmitNewOrder order);
        eexists _, _; apply new_events_app;
        unfold Fixed.WriteTradeResponse, write_response_file, emit;
        cbn [responses_writable trace]; destruct (responses_writable w); cbn [trace];
        rewrite <- ?app_assoc; reflexivity. }
    destruct Hev as (path & r & ->).
    rewrite filter_cons_True by (cbn; auto).
    destruct (responses_writable w); [|reflexivity].
    rewrite filter_cons_False by (cbn; auto). reflexivity. }
  destruct (CompareNoCase_eq side "BUY") eqn:Hb.
  - eexists. split; [apply Hsub|]. cbn [OrderType Price1 Fixed.order_of]. now rewrite Hl.
  - destruct Hside as [Hs|Hs]; [discriminate|]. rewrite Hs.
    eexists. split; [apply Hsub|]. cbn [OrderType Price1 Fixed.order_of]. now rewrite Hl.
Qed.

End Studies.

End StudyFacts.

(** ** The COMPLETE command poll, the timer, and sample runs *)

Module MoreFacts.

Import Cxx Host Ticks States Exporter Samples QFacts CxxFacts NormalizerFacts TickBufferFacts
  ParserFacts ChannelFacts FilterFacts RunFacts BridgeStudyFacts StudyFacts.

(** A command the COMPLETE exporter accepts (order id, symbol and side
    not empty, quantity positive) is read, answered PROCESSING, and then
    the removal of the command file is called: the file is gone when the
    removal succeeds and stays when it fails.  The fields reach the
    executor and the response as C strings, cut at their first NUL: the
    response is filed under the order id so cut, and the order goes to
    the host only when the side so cut is exactly BUY or SELL in upper
    case; the response and the removal are the same when it does not. *)
Theorem Complete_poll_accepted (stof : string -> result float) (sc : SCStudyInterface)
    (OutputPath : string) (w : World) (text orderId symbol side orderType : string)
    (quantity : Z) (price : float) :
  command_file w = Some text ->
  JSONParser.ExtractString (getline_concat text) "order_id" = Ok orderId ->
  JSONParser.ExtractString (getline_concat text) "symbol" = Ok symbol ->
  JSONParser.ExtractString (getline_concat text) "side" = Ok side ->
  JSONParser.ExtractInt (getline_concat text) "quantity" = Ok quantity ->
  JSONParser.ExtractFloat stof (getline_concat text) "price" = Ok price ->
  JSONParser.ExtractString (getline_concat text) "type" = Ok orderType ->
  empty orderId = false -> empty symbol = false -> empty side = false -> 0 < quantity ->
  exists w' order,
    Complete.ProcessTradeCommands stof sc OutputPath w = Ok w'
    /\ command_file w' = (if command_removable w then None else Some text)
    /\ new_events w w'
       = EvReadCommand text
         :: (if String.eqb (c_str side) "BUY"
             then [EvHostOrder BuyOrder order (order_result sc BuyOrder order)]
             else if String.eqb (c_str side) "SELL"
             then [EvHostOrder SellOrder order (order_result sc SellOrder order)]
             else [])
         ++ (if responses_writable w
             then [EvWriteResponse
                     (OutputPath +:+ "trade_response_" +:+ c_str orderId +:+ ".json")
                     {| resp_id := c_str orderId; resp_status := "PROCESSING";
                        resp_message :=
                          "Trade command received and processed with microsecond precision";
                        resp_fill_price := None; resp_timestamp := clock sc |}]
             else [])
         ++ [EvRemoveCommand]
    /\ OrderQuantity order = quantity /\ Price1 order = price
    /\ OrderType order
       = (if String.eqb (c_str orderType) "MARKET" || empty (c_str orderType)
          then SCT_ORDERTYPE_MARKET
          else if String.eqb (c_str orderType) "STOP" then SCT_ORDERTYPE_STOP
          else SCT_ORDERTYPE_LIMIT).
Proof.
  intros Hfile Hid Hsym Hside Hq Hp Hty Eid Esym Eside Hpos.
  unfold Complete.ProcessTradeCommands. rewrite Hfile, Hid, Hsym, Hside, Hq, Hp, Hty.
  cbn [bind]. rewrite Eid, Esym, Eside. destruct (Z.ltb_spec 0 quantity); [|lia].
  cbn [negb andb].
  eexists.
  exists {| OrderQuantity := quantity;
            OrderType :=
              if String.eqb (c_str orderType) "MARKET"
                 || (String.length (c_str orderType) =? 0)%nat
              then SCT_ORDERTYPE_MARKET
              else if String.eqb (c_str orderType) "LIMIT" then SCT_ORDERTYPE_LIMIT
              else if String.eqb (c_str orderType) "STOP" then SCT_ORDERTYPE_STOP
              else SCT_ORDERTYPE_LIMIT;
            Price1 := price;
            BuySell := BuySell new_order;
            TextTag := TextTag new_order |}.
  split; [reflexivity|]. split; [|split; [|split; [reflexivity|split; [reflexivity|]]]].
  - unfold Complete.ExecuteTrade, Complete.WriteTradeResponse, submit, write_response_file,
      remove_command_file, emit.
    destruct (String.eqb (c_str side) "BUY"); [|destruct (String.eqb (c_str side) "SELL")];
      cbn [snd responses_writable command_removable command_file];
      destruct (responses_writable w);
      cbn [command_removable command_file]; rewrite ?Hfile; reflexivity.
  - apply new_events_app.
    unfold Complete.ExecuteTrade, Complete.WriteTradeResponse, submit, write_response_file,
      remove_command_file, emit.
    destruct (String.eqb (c_str side) "BUY"); [|destruct (String.eqb (c_str side) "SELL")];
      cbn [snd responses_writable trace]; destruct (responses_writable w);
      cbn [trace app]; rewrite <- ?app_assoc; reflexivity.
  - cbn [OrderType].
    destruct (c_str orderType) as [|c rest]; [reflexivity|]. cbn [String.length empty].
    replace (S (String.length rest) =? 0)%nat with false by reflexivity.
    rewrite !orb_false_r.
    destruct (String.eqb (String c rest) "MARKET"); [reflexivity|].
    destruct (String.eqb (String c rest) "LIMIT") eqn:El; [|reflexivity].
    apply String.eqb_eq in El. rewrite El. reflexivity.
Qed.

Lemma Complete_poll_accepted_witness :
  let text := json_of
    "{'order_id':'o7','symbol':'NQ','side':'buy','quantity':2,'price':0,'type':'MARKET'}" in
  exists w',
    Complete.ProcessTradeCommands (fun _ => Ok (Finite 0)) (snapshot 100 5 99 101) "out/"
      (channel_with (Some text)) = Ok w'
    /\ command_file w' = None
    /\ new_events (channel_with (Some text)) w'
       = [EvReadCommand text;
          EvWriteResponse "out/trade_response_o7.json"
            {| resp_id := "o7"; resp_status := "PROCESSING";
               resp_message :=
                 "Trade command received and processed with microsecond precision";
               resp_fill_price := None;
               resp_timestamp := clock (snapshot 100 5 99 101) |};
          EvRemoveCommand].
Proof.
  cbv zeta.
  destruct (Complete_poll_accepted (fun _ => Ok (Finite 0)) (snapshot 100 5 99 101) "out/"
              (channel_with
                 (Some (json_of
                    "{'order_id':'o7','symbol':'NQ','side':'buy','quantity':2,'price':0,'type':'MARKET'}")))
              _ "o7" "NQ" "buy" "MARKET" 2 (Finite 0) eq_refl)
    as (w' & order & Hrun & Hfile & Hev & _);
    try (vm_compute; reflexivity).
  exists w'. split; [exact Hrun|]. split; [exact Hfile|exact Hev].
Defined.

(** [GetUnixMicroseconds]: 0 while the performance counter is not
    available; otherwise the seconds of the system clock with a
    sub-second part below a million taken from the performance counter,
    so that of two readings the one in a later second of the system
    clock is the larger. *)
Theorem GetUnixMicroseconds_seconds (timer : HighPrecisionTime)
    (now1 unix1 now2 unix2 : Z) :
  (initialized timer = false -> GetUnixMicroseconds timer now1 unix1 = Done 0)
  /\ (initialized timer = true -> size_t (frequency timer) <> 0 ->
      0 <= unix1 -> unix1 < unix2 -> unix2 * 1000000 + 1000000 <= 2 ^ 64 ->
      exists ts1 ts2,
        GetUnixMicroseconds timer now1 unix1 = Done ts1
        /\ GetUnixMicroseconds timer now2 unix2 = Done ts2
        /\ ts1 / 1000000 = unix1 /\ ts2 / 1000000 = unix2
        /\ ts1 < ts2).
Proof.
  unfold GetUnixMicroseconds. split.
  - intros ->. reflexivity.
  - intros -> Hf H1 H12 H2. cbn [negb].
    destruct (Z.eqb_spec (size_t (frequency timer)) 0); [contradiction|].
    set (m1 := size_t (size_t (now1 - startTime timer) * 1000000) / size_t (frequency timer)).
    set (m2 := size_t (size_t (now2 - startTime timer) * 1000000) / size_t (frequency timer)).
    pose proof (Z.mod_pos_bound m1 1000000 ltac:(lia)) as B1.
    pose proof (Z.mod_pos_bound m2 1000000 ltac:(lia)) as B2.
    assert (E : forall u m, 0 <= u -> u * 1000000 + 1000000 <= 2 ^ 64 -> 0 <= m < 1000000 ->
              size_t (size_t u * 1000000 + m) = u * 1000000 + m).
    { intros u m Hu Hb Hm. unfold size_t. rewrite (Z.mod_small u) by lia.
      apply Z.mod_small. lia. }
    rewrite (E unix1 _ ltac:(lia) ltac:(lia) B1), (E unix2 _ ltac:(lia) ltac:(lia) B2).
    eexists _, _. split; [reflexivity|]. split; [reflexivity|].
    split; [|split]; try lia.
    + rewrite Z.add_comm, Z.div_add by lia. rewrite Z.div_small by lia. lia.
    + rewrite Z.add_comm, Z.div_add by lia. rewrite Z.div_small by lia. lia.
Qed.

Lemma GetUnixMicroseconds_seconds_witness :
  exists ts1 ts2,
    GetUnixMicroseconds {| frequency := 10000000; startTime := 0; initialized := true |}
      19000000 1700000000 = Done ts1
    /\ GetUnixMicroseconds {| frequency := 10000000; startTime := 0; initialized := true |}
         20500000 1700000001 = Done ts2
    /\ ts1 / 1000000 = 1700000000 /\ ts2 / 1000000 = 1700000001
    /\ ts1 < ts2.
Proof.
  apply (proj2 (GetUnixMicroseconds_seconds
                  {| frequency := 10000000; startTime := 0; initialized := true |}
                  19000000 1700000000 20500000 1700000001));
    [reflexivity | vm_compute; discriminate | lia | lia | lia].
Defined.

Lemma Recent_no_timestamps (h : list TickTrade) (capacity n : Z) :
  Forall (fun t => timestamp_us t = 0) h -> Spec.Recent h capacity n = [].
Proof.
  intros Hh. unfold Spec.Recent. apply omap_none. intros j _.
  unfold Spec.stored. destruct (h !! Z.to_nat j) as [t|] eqn:E; [|reflexivity].
  cbn. unfold Spec.valid. cbn [timestamp_us set_sequence].
  rewrite Forall_forall in Hh. rewrite (Hh t); [reflexivity|].
  eapply list_elem_of_lookup_2. exact E.
Qed.

Lemma Fixed_step_vwap (sc : SCStudyInterface) (g : Globals) (t : TickTrade) :
  snd (Fixed.ExportTickData sc g) = Some t ->
  vwap t = vwap_of (GetRecentTicks 200 (g_TickBuffer g)) (price t).
Proof.
  unfold Fixed.ExportTickData.
  destruct (Qgtb (Volume sc (Index sc)) 0); [|discriminate].
  destruct (Qgtb (Bid sc) 0 && Qgtb (Ask sc) 0);
    destruct (Fixed.isNewTrade sc g); cbn [snd]; intros [= <-]; reflexivity.
Qed.

Lemma run_no_timer (scs : list SCStudyInterface) (g : Globals) (h : list TickTrade) :
  Forall (fun sc => clock sc = 0) scs ->
  represents h (g_TickBuffer g) -> Forall (fun t => timestamp_us t = 0) h ->
  exists h',
    represents h' (g_TickBuffer (fst (run Fixed.ExportTickData scs g)))
    /\ Forall (fun t => timestamp_us t = 0) h'
    /\ Forall (fun t => vwap t = Finite (price t)) (snd (run Fixed.ExportTickData scs g)).
Proof.
  intros Hscs. revert g h. induction Hscs as [|sc scs Hsc _ IH]; intros g h Hrep Hh.
  - exists h. cbn. auto.
  - rewrite run_cons. cbn [fst snd].
    pose proof (Fixed_step sc g) as Hstep. pose proof (Fixed_step_time sc g) as Htime.
    pose proof (Fixed_step_vwap sc g) as Hvwap.
    destruct (snd (Fixed.ExportTickData sc g)) as [t|].
    + destruct Hstep as (Hb & _).
      pose proof (Htime t eq_refl) as Hts. pose proof (Hvwap t eq_refl) as Hv.
      destruct (IH (fst (Fixed.ExportTickData sc g)) (h ++ [t])) as (h' & R & T & V).
      * rewrite Hb. now apply represents_AddTick.
      * apply Forall_app. split; [exact Hh|]. constructor; [congruence|constructor].
      * exists h'. split; [exact R|]. split; [exact T|]. constructor; [|exact V].
        rewrite Hv, (GetRecentTicks_spec h) by (assumption || lia).
        now rewrite Recent_no_timestamps.
    + destruct Hstep as (Hb & _).
      destruct (IH (fst (Fixed.ExportTickData sc g)) h) as (h' & R & T & V);
        [now rewrite Hb|exact Hh|]. exists h'. auto.
Qed.

(** When the performance counter is not available the FIXED exporter
    stamps every tick with 0, the mark of an empty buffer slot: whatever
    the snapshots, the buffer then never gives a tick back, and every
    tick emitted carries its own price as VWAP. *)
Theorem run_without_timer (scs : list SCStudyInterface) (n : Z) :
  0 <= n -> Forall (fun sc => clock sc = 0) scs ->
  GetRecentTicks n (g_TickBuffer (fst (run Fixed.ExportTickData scs initial_globals))) = []
  /\ Forall (fun t => vwap t = Finite (price t))
       (snd (run Fixed.ExportTickData scs initial_globals)).
Proof.
  intros Hn Hscs.
  destruct (run_no_timer scs initial_globals [] Hscs) as (h' & R & T & V).
  - apply represents_new. lia.
  - constructor.
  - split; [|exact V]. rewrite (GetRecentTicks_spec h') by assumption.
    now apply Recent_no_timestamps.
Qed.

Lemma run_without_timer_witness :
  GetRecentTicks 200
    (g_TickBuffer (fst (run Fixed.ExportTickData
                          [snapshot_at 0 100 5; snapshot_at 0 101 3] initial_globals))) = [].
Proof.
  apply (proj1 (run_without_timer [snapshot_at 0 100 5; snapshot_at 0 101 3] 200
                  ltac:(lia) ltac:(repeat constructor))).
Defined.

Lemma Bridge_study_trading_off_witness :
  let s := bridge_study true (channel_with (Some "{}")) in
  Bridge.channel (Bridge.scsf_MinhOSBridgeStudy (fun _ => Finite 0) (snapshot 100 5 99 101)
                    (bridge_inputs false) s)
  = Bridge.channel s.
Proof.
  cbv zeta.
  apply (proj1 (Bridge_study_trading_off (fun _ => Finite 0) (snapshot 100 5 99 101)
                  (bridge_inputs false) (bridge_study true (channel_with (Some "{}")))
                  eq_refl)).
Defined.

Lemma Bridge_study_outside_last_bar_witness :
  let s := bridge_study true (channel_with (Some "{}")) in
  Bridge.channel (Bridge.scsf_MinhOSBridgeStudy (fun _ => Finite 0)
                    (at_bar 5 100 (snapshot 100 5 99 101)) (bridge_inputs true) s)
  = Bridge.channel s.
Proof.
  cbv zeta.
  apply (Bridge_study_outside_last_bar (fun _ => Finite 0) (at_bar 5 100 (snapshot 100 5 99 101))
           (bridge_inputs true) (bridge_study true (channel_with (Some "{}")))).
  right. cbn. lia.
Defined.

(** An empty command file: nothing is parsed, the counter still goes up. *)
Lemma Bridge_trade_counter_witness :
  Bridge.tradesExecuted
    (Bridge.state
       (Bridge.process_trade_commands_block (fun _ => Finite 0) (snapshot 100 5 99 101)
          (bridge_inputs true) (bridge_study true (channel_with (Some EmptyString)))))
  = 1.
Proof.
  apply (proj1 (proj2 (Bridge_trade_counter (fun _ => Finite 0) (snapshot 100 5 99 101)
                         (bridge_inputs true)
                         (bridge_study true (channel_with (Some EmptyString)))
                         eq_refl ltac:(vm_compute; discriminate)))
           EmptyString eq_refl).
  - vm_compute. discriminate.
  - vm_compute. reflexivity.
Defined.

(** A tick stamped one second after the epoch is written; one stamped
    with the microseconds of a present-day clock is not. *)
Lemma Fixed_study_frame_witness :
  (exists r,
     FixedStudy.scsf_MinhOSTickExporter_v3 (fun _ => Ok (Finite 0)) (snapshot_at 1000000 100 5)
       (exporter_inputs "NQU25-CME") initial_globals (channel_with None) = Done r)
  /\ FixedStudy.scsf_MinhOSTickExporter_v3 (fun _ => Ok (Finite 0))
       (snapshot_at 1700000000000000 100 5)
       (exporter_inputs "NQU25-CME") initial_globals (channel_with None) = Undefined.
Proof.
  split.
  - destruct (proj1 (Fixed_study_frame (fun _ => Ok (Finite 0)) (snapshot_at 1000000 100 5)
                       (exporter_inputs "NQU25-CME") initial_globals (channel_with None)
                       ltac:(vm_compute; discriminate) ltac:(vm_compute; discriminate)
                       ltac:(intros text [=])))
      as (g' & file & w' & H & _).
    + intros t (_ & _ & Ht). vm_compute in Ht. injection Ht as <-.
      vm_compute. split; discriminate.
    + exists (g', file, w'). exact H.
  - refine (proj1 (proj2 (Fixed_study_frame (fun _ => Ok (Finite 0))
                            (snapshot_at 1700000000000000 100 5)
                            (exporter_inputs "NQU25-CME") initial_globals (channel_with None)
                            ltac:(vm_compute; discriminate) ltac:(vm_compute; discriminate)
                            ltac:(intros text [=]))) _ _ _).
    + split; [reflexivity|]. split; vm_compute; reflexivity.
    + right. vm_compute. split; reflexivity.
Defined.

Lemma Complete_study_frame_witness :
  exists r,
    CompleteStudy.scsf_MinhOSTickExporter_v3 (fun _ => Ok (Finite 0)) (snapshot 100 5 0 0)
      (exporter_inputs "NQU25-CME")
      {| CompleteStudy.globals := initial_globals; CompleteStudy.g_LastProcessTime := 0;
         CompleteStudy.channel := channel_with None |} = Done r.
Proof.
  destruct (Complete_study_frame (fun _ => Ok (Finite 0)) (snapshot 100 5 0 0)
              (exporter_inputs "NQU25-CME")
              {| CompleteStudy.globals := initial_globals;
                 CompleteStudy.g_LastProcessTime := 0;
                 CompleteStudy.channel := channel_with None |})
    as (s' & file & H & _).
  - vm_compute. discriminate.
  - vm_compute. split; discriminate.
  - intros text [=].
  - exists (s', file). exact H.
Defined.

End MoreFacts.

(** ** The responses of the bridge *)

Module BridgeResponseFacts.

Import Cxx Host States QFacts ExecutorFacts ChannelFacts BridgeStudyFacts.

Section Responses.

Variable atof : string -> float.

Lemma executeTrade_fill (sc : SCStudyInterface) (cmd : Bridge.TradeCommand)
    (fillPrice : float) (w : World) :
  (exists q, Bridge.executeTrade sc cmd fillPrice w = (0, q, w))
  \/ (Bridge.validated sc cmd = true
      /\ exists call,
           (call = BuyEntry \/ call = SellEntry)
           /\ Bridge.executeTrade sc cmd fillPrice w
              = (order_result sc call (Bridge.order_of cmd),
                 Finite (match call with BuyEntry => Ask sc | _ => Bid sc end),
                 emit (EvHostOrder call (Bridge.order_of cmd)
                         (order_result sc call (Bridge.order_of cmd))) w)).
Proof.
  destruct (Bridge.validated sc cmd) eqn:Hv.
  - destruct (String.eqb (Bridge.action cmd) "BUY") eqn:Hb;
      [|destruct (String.eqb (Bridge.action cmd) "SELL") eqn:Hs].
    + apply String.eqb_eq in Hb. right. split; [reflexivity|].
      exists BuyEntry. split; [now left|]. now apply executeTrade_buy.
    + apply String.eqb_eq in Hs. right. split; [reflexivity|].
      exists SellEntry. split; [now right|]. now apply executeTrade_sell.
    + left. apply String.eqb_neq in Hb, Hs. eexists.
      now apply executeTrade_other.
  - left. exists fillPrice. now apply executeTrade_not_validated.
Qed.

(** Every response a poll of the bridge writes goes to the one response
    file and is either FILLED or REJECTED.  FILLED is written exactly
    when an order went to the host and the host returned a positive id,
    and then carries a positive fill price: the ask for [BuyEntry], the
    bid for [SellEntry], as quoted at that moment.  REJECTED carries no
    fill price, and any order sent in that poll was refused by the host. *)
Theorem Bridge_poll_response (sc : SCStudyInterface) (w : World) (path : string)
    (r : TradeResponse) :
  let w' := snd (Bridge.processTradeCommands atof sc w) in
  In (EvWriteResponse path r) (new_events w w') ->
  path = Bridge.TRADE_RESPONSES_FILE
  /\ ((resp_status r = "FILLED"%string
       /\ exists call o id,
            In (EvHostOrder call o id) (new_events w w') /\ 0 < id
            /\ resp_fill_price r
               = Some (Finite (match call with BuyEntry => Ask sc | _ => Bid sc end))
            /\ (0 < match call with BuyEntry => Ask sc | _ => Bid sc end)%Q)
      \/ (resp_status r = "REJECTED"%string
          /\ resp_fill_price r = None
          /\ forall call o id, In (EvHostOrder call o id) (new_events w w') -> id <= 0)).
Proof.
  cbv zeta. unfold Bridge.processTradeCommands.
  destruct (command_file w) as [text|] eqn:Hfile.
  2:{ cbn [snd]. rewrite (new_events_app w w []) by now rewrite app_nil_r. intros []. }
  destruct (empty (getline_concat text)); cbn [negb].
  1:{ cbn [snd]. rewrite (new_events_app w _ [EvReadCommand text]) by reflexivity.
      intros [H|[]]. discriminate. }
  destruct (Bridge.parseTradeCommand atof (getline_concat text)) as [[[|] cmd]|e].
  - destruct (executeTrade_fill sc cmd (Finite 0)
                (remove_command_file (emit (EvReadCommand text) w)))
      as [[q Hex] | (Hv & call & Hcall & Hex)]; rewrite Hex; cbn [snd].
    + match goal with |- context [write_response_file ?p ?resp ?w0] =>
        rewrite (new_events_app w (write_response_file p resp w0)
                   (EvReadCommand text :: EvRemoveCommand
                    :: (if responses_writable w then [EvWriteResponse p resp] else [])))
      end.
      * intros Hin.
        destruct Hin as [Hin|[Hin|Hin]]; [discriminate|discriminate|].
        destruct (responses_writable w); [|destruct Hin].
        destruct Hin as [Hin|[]].
        injection Hin as <- <-. split; [reflexivity|]. right.
        split; [reflexivity|]. split; [reflexivity|].
        intros call o id Hin. exfalso.
        cbn in Hin. repeat (destruct Hin as [Hin|Hin]; try discriminate); exact Hin.
      * unfold write_response_file, remove_command_file, emit.
        cbn [responses_writable trace]. destruct (responses_writable w);
          cbn [trace]; rewrite <- ?app_assoc; reflexivity.
    + match goal with |- context [write_response_file ?p ?resp ?w0] =>
        rewrite (new_events_app w (write_response_file p resp w0)
                   (EvReadCommand text :: EvRemoveCommand
                    :: EvHostOrder call (Bridge.order_of cmd)
                         (order_result sc call (Bridge.order_of cmd))
                    :: (if responses_writable w then [EvWriteResponse p resp] else [])))
      end.
      * intros Hin.
        destruct Hin as [Hin|[Hin|[Hin|Hin]]]; [discriminate|discriminate|discriminate|].
        destruct (responses_writable w); [|destruct Hin].
        destruct Hin as [Hin|[]].
        injection Hin as <- <-. split; [reflexivity|].
        destruct (validated_bounds sc cmd Hv) as (_ & _ & _ & Hb & Hk).
        assert (Hfill : (0 < match call with BuyEntry => Ask sc | _ => Bid sc end)%Q)
          by (destruct Hcall as [-> | ->]; assumption).
        destruct (Z.ltb_spec 0 (order_result sc call (Bridge.order_of cmd))) as [Hid|Hid].
        -- left. split; [reflexivity|].
           exists call, (Bridge.order_of cmd), (order_result sc call (Bridge.order_of cmd)).
           split; [cbn; auto|]. split; [exact Hid|]. split; [|exact Hfill].
           unfold Bridge.createTradeResponse. cbn [resp_fill_price fgt flt].
           apply Qgtb_gt in Hfill. unfold Qgtb in Hfill. now rewrite Hfill.
        -- right. split; [reflexivity|]. split; [reflexivity|].
           intros call' o id Hin.
           destruct Hin as [Hin|[Hin|[Hin|Hin]]]; [discriminate|discriminate| |].
           ++ injection Hin as <- <- <-. exact Hid.
           ++ destruct Hin as [Hin|[]]. discriminate.
      * unfold write_response_file, remove_command_file, emit.
        cbn [responses_writable trace]. destruct (responses_writable w);
          cbn [trace]; rewrite <- ?app_assoc; reflexivity.
  - cbn [snd].
    match goal with |- context [write_response_file ?p ?resp ?w0] =>
      rewrite (new_events_app w (write_response_file p resp w0)
                 (EvReadCommand text :: EvRemoveCommand
                  :: (if responses_writable w then [EvWriteResponse p resp] else [])))
    end.
    + intros Hin.
      destruct Hin as [Hin|[Hin|Hin]]; [discriminate|discriminate|].
      destruct (responses_writable w); [|destruct Hin].
      destruct Hin as [Hin|[]].
      injection Hin as <- <-. split; [reflexivity|]. right.
      split; [reflexivity|]. split; [reflexivity|].
      intros call o id Hin. exfalso.
      cbn in Hin. repeat (destruct Hin as [Hin|Hin]; try discriminate); exact Hin.
    + unfold write_response_file, remove_command_file, emit.
      cbn [responses_writable trace]. destruct (responses_writable w);
        cbn [trace]; rewrite <- ?app_assoc; reflexivity.
  - cbn [snd].
    rewrite (new_events_app w _ [EvReadCommand text; EvRemoveCommand]).
    + intros Hin. exfalso.
      cbn in Hin. repeat (destruct Hin as [Hin|Hin]; try discriminate); exact Hin.
    + unfold remove_command_file, emit. cbn [trace]. rewrite <- ?app_assoc. reflexivity.
Qed.

End Responses.

(** The market Buy of scenario 2: FILLED at the ask. *)
Lemma Bridge_poll_response_witness :
  let text := json_of
    "{'command_id':'c1','action':'BUY','symbol':'NQ','quantity':2,'order_type':'MARKET'}" in
  let r := Bridge.createTradeResponse (snapshot 100 5 100 101) "c1" "FILLED"
             "Trade executed successfully" (Finite 101) in
  resp_status r = "FILLED"%string /\ resp_fill_price r = Some (Finite 101).
Proof.
  cbv zeta.
  destruct (Bridge_poll_response (fun _ => Finite 0) (snapshot 100 5 100 101)
              (channel_with (Some (json_of
                 "{'command_id':'c1','action':'BUY','symbol':'NQ','quantity':2,'order_type':'MARKET'}")))
              Bridge.TRADE_RESPONSES_FILE
              (Bridge.createTradeResponse (snapshot 100 5 100 101) "c1" "FILLED"
                 "Trade executed successfully" (Finite 101)))
    as (_ & [(Hs & _) | (Hs & _)]).
  - vm_compute. right. right. right. left. reflexivity.
  - split; [exact Hs|reflexivity].
  - discriminate Hs.
Defined.

End BridgeResponseFacts.
